(** * Chapter and exercise boundary detection of the PDF splitting tools

    A shallow embedding of [tools/split_pdf_chapters.py] and
    [tools/extract_exercises.py], and the properties of chapter start
    detection, range construction and exercise boundary detection.

    Conventions of the embedding.
    - Python [int] is [Z]; list lengths and loop counts are [nat].
    - Python [str] is [string].  The text model is ASCII: the character
      classes of [re] and of [str.strip], [str.lower], [str.splitlines]
      are the ones Python gives to the code points below 128.
    - [int(m.group(1))] follows CPython 3.11 and later with the default
      setting: on a run of more than 4300 digits it raises [ValueError],
      which both tools catch.
    - A document is its outline and the texts of its pages.  Loading a
      page follows PyMuPDF: an index at or past the page count raises, a
      negative index counts back from the end. *)

From Stdlib Require Import ZArith List Bool Ascii String Lia.
From Stdlib Require Import Sorting.Sorted Sorting.Permutation.
From Stdlib Require Import DecimalString DecimalPos.
Import ListNotations.
Open Scope Z_scope.

(* ================================================================== *)
(** ** Python text primitives *)

Module PyStr.

Definition chars (s : string) : list ascii := list_ascii_of_string s.
Definition text (l : list ascii) : string := string_of_list_ascii l.

Definition between (lo hi : N) (c : ascii) : bool :=
  let n := N_of_ascii c in (N.leb lo n && N.leb n hi)%bool.

(** [str.isspace] and the class [\s]: TAB LF VT FF CR, FS GS RS US, SPACE. *)
Definition is_space (c : ascii) : bool := between 9 13 c || between 28 32 c.
(** The class [\d]. *)
Definition is_digit (c : ascii) : bool := between 48 57 c.
Definition is_upper (c : ascii) : bool := between 65 90 c.
Definition is_lower (c : ascii) : bool := between 97 122 c.
Definition is_alpha (c : ascii) : bool := is_upper c || is_lower c.
Definition is_alnum (c : ascii) : bool := is_alpha c || is_digit c.
(** The class [\w]. *)
Definition is_word (c : ascii) : bool :=
  is_alnum c || N.eqb (N_of_ascii c) 95.

Definition lower_char (c : ascii) : ascii :=
  if is_upper c then ascii_of_N (N_of_ascii c + 32) else c.

Fixpoint take_while (p : ascii -> bool) (l : list ascii) : list ascii :=
  match l with
  | c :: l' => if p c then c :: take_while p l' else []
  | [] => []
  end.

Fixpoint drop_while (p : ascii -> bool) (l : list ascii) : list ascii :=
  match l with
  | c :: l' => if p c then drop_while p l' else l
  | [] => []
  end.

Definition is_nil {A} (l : list A) : bool :=
  match l with [] => true | _ => false end.

(** [s.strip()] and [s.strip('-')]. *)
Definition strip_with (p : ascii -> bool) (l : list ascii) : list ascii :=
  rev (drop_while p (rev (drop_while p l))).

Definition strip (s : string) : string := text (strip_with is_space (chars s)).

(** [s.lower()]. *)
Definition lower (s : string) : string := text (map lower_char (chars s)).

(** [l] with the prefix [p] removed, when it starts with [p]. *)
Fixpoint strip_prefix (p l : list ascii) : option (list ascii) :=
  match p, l with
  | [], _ => Some l
  | a :: p', b :: l' => if Ascii.eqb a b then strip_prefix p' l' else None
  | _ :: _, [] => None
  end.

(** The same, comparing letters without regard to case. *)
Fixpoint strip_prefix_ci (p l : list ascii) : option (list ascii) :=
  match p, l with
  | [], _ => Some l
  | a :: p', b :: l' =>
      if Ascii.eqb (lower_char a) (lower_char b)
      then strip_prefix_ci p' l' else None
  | _ :: _, [] => None
  end.

(** [s.startswith(p)]. *)
Definition startswith (s p : string) : bool :=
  match strip_prefix (chars p) (chars s) with Some _ => true | None => false end.

(** The line boundaries of [str.splitlines]: LF VT FF CR FS GS RS. *)
Definition is_linebreak (c : ascii) : bool := between 10 13 c || between 28 30 c.

(** [cur] holds the characters of the current line, last one first. *)
Fixpoint splitlines_from (cur : list ascii) (l : list ascii) : list (list ascii) :=
  match l with
  | [] => if is_nil cur then [] else [rev cur]
  | c :: l' =>
      if is_linebreak c then
        match l' with
        | d :: l'' =>
            if (N.eqb (N_of_ascii c) 13 && N.eqb (N_of_ascii d) 10)%bool
            then rev cur :: splitlines_from [] l''
            else rev cur :: splitlines_from [] l'
        | [] => [rev cur]
        end
      else splitlines_from (c :: cur) l'
  end.

(** [s.splitlines()]. *)
Definition splitlines (s : string) : list string :=
  map text (splitlines_from [] (chars s)).

(** The value of a run of digits. *)
Definition digit_value (c : ascii) : Z := Z.of_N (N_of_ascii c) - 48.
Definition int_of_digits (ds : list ascii) : Z :=
  fold_left (fun acc c => 10 * acc + digit_value c) ds 0.

(** [sys.int_info.default_max_str_digits]. *)
Definition INT_MAX_STR_DIGITS : Z := 4300.

(** [int(ds)] on a run of digits: [None] stands for the [ValueError] that
    a run longer than the limit raises, leading zeros counted. *)
Definition py_int (ds : list ascii) : option Z :=
  if INT_MAX_STR_DIGITS <? Z.of_nat (List.length ds) then None
  else Some (int_of_digits ds).

(** [str(n)], as an f-string writes an [int]. *)
Definition str_of_int (n : Z) : string := NilZero.string_of_int (Z.to_int n).

(** [f"{n:02d}"]. *)
Definition format_02d (n : Z) : string :=
  let s := str_of_int n in
  if Nat.ltb (String.length s) 2 then String "0" s else s.

(** The end of a digit run followed by [\b]: the run is the longest one
    and what follows it is not a word character. *)
Definition digits_then_boundary (l : list ascii) : option (list ascii) :=
  let ds := take_while is_digit l in
  if is_nil ds then None
  else match drop_while is_digit l with
       | [] => Some ds
       | c :: _ => if is_word c then None else Some ds
       end.

(** [re.sub(cls + '+', rep, s)]: every longest run of characters of the
    class becomes one [rep]. *)
Fixpoint collapse_runs (p : ascii -> bool) (rep : ascii) (in_run : bool)
         (l : list ascii) : list ascii :=
  match l with
  | [] => []
  | c :: l' =>
      if p c
      then if in_run then collapse_runs p rep true l'
           else rep :: collapse_runs p rep true l'
      else c :: collapse_runs p rep false l'
  end.

End PyStr.

Import PyStr.
Open Scope string_scope.
Open Scope list_scope.
Open Scope Z_scope.

(* ================================================================== *)
(** ** The regular expressions of the two tools *)

Module Regex.

(** A compiled pattern with one group: [rx.match(s)] gives the text of
    [m.group(1)], or nothing when the pattern does not match at the start
    of [s]. *)
Definition pattern : Type := list ascii -> option (list ascii).

(** What remains after [\s+]; nothing when there is no white space. *)
Definition skip_spaces1 (l : list ascii) : option (list ascii) :=
  if is_nil (take_while is_space l) then None else Some (drop_while is_space l).

(** [^\s*Chapter\s+(\d+)\b], with [re.IGNORECASE] when [ignorecase]. *)
Definition rx_chapter (ignorecase : bool) (word : string) : pattern :=
  fun s =>
    let s1 := drop_while is_space s in
    match (if ignorecase then strip_prefix_ci else strip_prefix) (chars word) s1 with
    | None => None
    | Some s2 =>
        match skip_spaces1 s2 with
        | None => None
        | Some s3 => digits_then_boundary s3
        end
    end.

(** [^\s*(\d+)\s+[A-Z][A-Za-z].*] *)
Definition rx_numeric_title : pattern :=
  fun s =>
    let s1 := drop_while is_space s in
    let ds := take_while is_digit s1 in
    if is_nil ds then None
    else match skip_spaces1 (drop_while is_digit s1) with
         | Some (c1 :: c2 :: _) =>
             if (is_upper c1 && is_alpha c2)%bool then Some ds else None
         | _ => None
         end.

(** [rf'^\s*{ch_num}\.\d+\b'], as a test. *)
Definition rx_num (ch_num : Z) (s : list ascii) : bool :=
  match strip_prefix (chars (str_of_int ch_num)) (drop_while is_space s) with
  | Some ("."%char :: s2) =>
      match digits_then_boundary s2 with Some _ => true | None => false end
  | _ => false
  end.

(** The loop [for rx in PATTERNS: m = rx.match(s); if m: ...; break]. *)
Fixpoint first_match (rxs : list pattern) (s : list ascii) : option (list ascii) :=
  match rxs with
  | [] => None
  | rx :: rxs' =>
      match rx s with
      | Some g => Some g
      | None => first_match rxs' s
      end
  end.

(** The chapter number a title gives in the loop over the outline,
    [if m: try: n = int(m.group(1)) except Exception: n = None; break]:
    the first pattern that matches decides, and there is no number when
    [int] raises on its group. *)
Definition parse_chapter_number (rxs : list pattern) (s : string) : option Z :=
  match first_match rxs (chars s) with
  | Some g => py_int g
  | None => None
  end.

(** The chapter number a line gives in the page scan,
    [if m: try: ch = int(m.group(1)); ...; break except Exception: pass]:
    [break] is inside [try], so after a group on which [int] raises the
    loop goes on with the next pattern. *)
Fixpoint scan_chapter_number (rxs : list pattern) (s : string) : option Z :=
  match rxs with
  | [] => None
  | rx :: rxs' =>
      match rx (chars s) with
      | Some g =>
          match py_int g with
          | Some ch => Some ch
          | None => scan_chapter_number rxs' s
          end
      | None => scan_chapter_number rxs' s
      end
  end.

End Regex.

Import Regex.

(* ================================================================== *)
(** ** Data shared by the two tools *)

(** An outline entry [[level, title, page1based]]. *)
Abbreviation TocEntry := (Z * string * Z)%type (only parsing).
(** [(chapter_number, start_page_index, title)] *)
Abbreviation ChapterStart := (Z * Z * string)%type (only parsing).
(** [(chapter_number, start_page_index, end_page_index, title)] *)
Abbreviation ChapterRange := (Z * Z * Z * string)%type (only parsing).

Definition chapter_of (s : ChapterStart) : Z := fst (fst s).
Definition page_of (s : ChapterStart) : Z := snd (fst s).

Definition range_chapter (r : ChapterRange) : Z := fst (fst (fst r)).
Definition range_start (r : ChapterRange) : Z := snd (fst (fst r)).
Definition range_end (r : ChapterRange) : Z := snd (fst r).

(** A page index lies in a range. *)
Definition covers (r : ChapterRange) (p : Z) : Prop :=
  range_start r <= p <= range_end r.

(** What the code reads of a [fitz.Document]. *)
Record Document : Type := mkDocument {
  get_toc : list TocEntry;       (* doc.get_toc(simple=True) *)
  page_texts : list string       (* the text of each page, in page order *)
}.

Definition page_count (doc : Document) : Z := Z.of_nat (List.length (page_texts doc)).

(** The result of a call that may raise. *)
Inductive result (A : Type) : Type :=
| Ok (a : A)
| Raise.
Arguments Ok {A} a.
Arguments Raise {A}.

Definition bind {A B} (r : result A) (k : A -> result B) : result B :=
  match r with
  | Ok a => k a
  | Raise => Raise
  end.

Notation "x <- r ;; k" := (bind r (fun x => k))
  (at level 61, r at next level, right associativity).

(** [doc.load_page(i).get_text("text") or ""].  [load_page] raises for an
    index at or past the page count; while the index is negative it adds
    the page count to it, which does not end in a document without pages
    ([Raise] stands for both). *)
Definition page_text (doc : Document) (i : Z) : result string :=
  let n := page_count doc in
  if n <=? i then Raise
  else if n =? 0 then Raise
  else match nth_error (page_texts doc) (Z.to_nat (i mod n)) with
       | Some t => Ok t
       | None => Raise
       end.

(** Python's sort is stable: elements of equal key keep their order. *)
Section StableSort.
Context {A : Type} (leb : A -> A -> bool).

Fixpoint insert_sorted (x : A) (l : list A) : list A :=
  match l with
  | [] => [x]
  | y :: l' => if leb x y then x :: l else y :: insert_sorted x l'
  end.

Fixpoint stable_sort (l : list A) : list A :=
  match l with
  | [] => []
  | x :: l' => insert_sorted x (stable_sort l')
  end.
End StableSort.

(** [key=lambda x: x[1]] *)
Definition by_page (a b : ChapterStart) : bool := page_of a <=? page_of b.
(** [key=lambda x: (x[0], x[1])] *)
Definition by_chapter_then_page (a b : ChapterStart) : bool :=
  (chapter_of a <? chapter_of b)
  || ((chapter_of a =? chapter_of b) && (page_of a <=? page_of b)).

(** [enumerate(l)] *)
Definition enumerate {A} (l : list A) : list (nat * A) :=
  combine (seq 0 (List.length l)) l.

Definition no_start : ChapterStart := (0, 0, "").

(** The state of the outline loop: [chapters] and the set of numbers seen. *)
Abbreviation TocState := (list ChapterStart * list Z)%type (only parsing).

(** A [dict] keyed by chapter number, in insertion order. *)
Abbreviation StartsDict := (list (Z * ChapterStart)) (only parsing).

Definition dict_has (ch : Z) (d : StartsDict) : bool :=
  existsb (fun kv => fst kv =? ch) d.

(** [d.values()] *)
Definition dict_values (d : StartsDict) : list ChapterStart := map snd d.

(** The string [s[:60] or dflt]. *)
Definition first60_or (dflt : string) (l : list ascii) : string :=
  match firstn 60 l with
  | [] => dflt
  | l' => text l'
  end.

(** The body of both [slugify] functions, which differ in the default. *)
Definition slug_chars (s : string) : list ascii :=
  let s1 := strip_with is_space (collapse_runs is_space " "%char false (chars s)) in
  strip_with (Ascii.eqb "-"%char)
    (collapse_runs (fun c => negb (is_alnum c)) "-"%char false s1).

(* ================================================================== *)
(** ** tools/split_pdf_chapters.py *)

Module SplitPdfChapters.

Definition CHAPTER_PATTERNS : list pattern :=
  [ rx_chapter true "Chapter"; rx_chapter false "CHAPTER"; rx_numeric_title ].

Definition slugify (s : string) : string := first60_or "Chapter" (slug_chars s).

(** One turn of the loop over the outline. *)
Definition toc_step (st : TocState) (e : TocEntry) : TocState :=
  let '(chapters, seen) := st in
  let '(level, title, p1) := e in
  if negb (level =? 1) then st
  else
    let chnum :=
      match parse_chapter_number CHAPTER_PATTERNS (strip title) with
      | Some n => n
      | None => Z.of_nat (List.length chapters) + 1
      end in
    if existsb (Z.eqb chnum) seen then st
    else (chapters ++ [(chnum, p1 - 1, strip title)], chnum :: seen).

Definition detect_chapters_by_toc (doc : Document) : list ChapterStart :=
  let toc := get_toc doc in
  let chapters := fst (fold_left toc_step toc ([], [])) in
  stable_sort by_page chapters.

(** The first of the lines that give a chapter number, with the number. *)
Fixpoint first_heading (lines : list string) : option (Z * string) :=
  match lines with
  | [] => None
  | ln :: rest =>
      match scan_chapter_number CHAPTER_PATTERNS ln with
      | Some ch => Some (ch, ln)
      | None => first_heading rest
      end
  end.

(** One page of the scan: the top 20 lines, stripped. *)
Definition scan_page (chapters : StartsDict) (i : Z) (txt : string) : StartsDict :=
  let lines := map strip (firstn 20 (splitlines txt)) in
  match first_heading lines with
  | Some (ch, ln) =>
      if dict_has ch chapters then chapters else chapters ++ [(ch, (ch, i, ln))]
  | None => chapters
  end.

(** [for i in range(doc.page_count)], from page [i] on. *)
Fixpoint scan_pages (pages : list string) (i : Z) (chapters : StartsDict)
  : StartsDict :=
  match pages with
  | [] => chapters
  | txt :: rest => scan_pages rest (i + 1) (scan_page chapters i txt)
  end.

Definition detect_chapters_by_scanning (doc : Document) : list ChapterStart :=
  let chapters := scan_pages (page_texts doc) 0 [] in
  stable_sort by_chapter_then_page (dict_values chapters).

(** One turn of the loop of [build_ranges]. *)
Definition range_step (starts : list ChapterStart) (total_pages : Z)
           (ranges : list ChapterRange) (ie : nat * ChapterStart)
  : list ChapterRange :=
  let '(idx, (chn, sp, title)) := ie in
  let ep := if Nat.ltb (idx + 1) (List.length starts)
            then page_of (nth (idx + 1) starts no_start) - 1
            else total_pages - 1 in
  if ep >=? sp then ranges ++ [(chn, sp, ep, title)] else ranges.

Definition build_ranges (starts : list ChapterStart) (total_pages : Z)
  : list ChapterRange :=
  fold_left (range_step starts total_pages) (enumerate starts) [].

(** What [main] does with an opened document: it exits with a message,
    or writes one file per range. *)
Inductive Outcome : Type :=
| SysExit (message : string)
| Wrote (files : list (string * Z * Z)).

Definition outfile_name (stem : string) (r : ChapterRange) : string :=
  let '(chn, _, _, title) := r in
  (stem ++ "_Chapter-" ++ format_02d chn ++ "_" ++ slugify title ++ ".pdf")%string.

Definition main (stem : string) (doc : Document) : Outcome :=
  let starts := detect_chapters_by_toc doc in
  let starts := if Nat.ltb (List.length starts) 2
                then detect_chapters_by_scanning doc else starts in
  if is_nil starts
  then SysExit "Could not auto-detect chapter starts (no TOC and no 'Chapter N' headings found)."
  else
    let ranges := build_ranges starts (page_count doc) in
    Wrote (map (fun r => (outfile_name stem r, range_start r, range_end r)) ranges).

End SplitPdfChapters.

(* ================================================================== *)
(** ** tools/extract_exercises.py *)

Module ExtractExercises.

Definition DEFAULT_KEYWORDS : list string :=
  [ "Exercises"; "PROBLEMS"; "Problems"; "Review Exercises";
    "Review Questions"; "Exercises and Problems" ].

Definition CHAPTER_HEADING_PATTERNS : list pattern :=
  [ rx_chapter true "Chapter"; rx_chapter false "CHAPTER"; rx_numeric_title ].

Definition slugify (s : string) : string := first60_or "Exercises" (slug_chars s).

(** One turn of the loop over the outline. *)
Definition toc_step (st : TocState) (e : TocEntry) : TocState :=
  let '(chapters, seen_nums) := st in
  let '(level, title, p1) := e in
  if negb (level =? 1) then st
  else
    let ch_num :=
      match parse_chapter_number CHAPTER_HEADING_PATTERNS (strip title) with
      | Some n => n
      | None => Z.of_nat (List.length chapters) + 1
      end in
    if existsb (Z.eqb ch_num) seen_nums then st
    else (chapters ++ [(ch_num, p1 - 1, strip title)], ch_num :: seen_nums).

Definition get_toc_chapter_starts (doc : Document) : list ChapterStart :=
  let toc := get_toc doc in
  if is_nil toc then []
  else
    let chapters := fst (fold_left toc_step toc ([], [])) in
    stable_sort by_page chapters.

(** The first of the lines that give a chapter number, with the number. *)
Fixpoint first_heading (lines : list string) : option (Z * string) :=
  match lines with
  | [] => None
  | ln :: rest =>
      match scan_chapter_number CHAPTER_HEADING_PATTERNS ln with
      | Some ch => Some (ch, ln)
      | None => first_heading rest
      end
  end.

(** One page of the scan: the top 25 lines, stripped. *)
Definition scan_page (starts : StartsDict) (i : Z) (txt : string) : StartsDict :=
  let lines := map strip (firstn 25 (splitlines txt)) in
  match first_heading lines with
  | Some (ch, ln) =>
      if dict_has ch starts then starts else starts ++ [(ch, (ch, i, ln))]
  | None => starts
  end.

(** [for i in range(doc.page_count)], from page [i] on. *)
Fixpoint scan_pages (pages : list string) (i : Z) (starts : StartsDict)
  : StartsDict :=
  match pages with
  | [] => starts
  | txt :: rest => scan_pages rest (i + 1) (scan_page starts i txt)
  end.

Definition scan_for_chapter_starts (doc : Document) : list ChapterStart :=
  let starts := scan_pages (page_texts doc) 0 [] in
  if is_nil starts then []
  else stable_sort by_chapter_then_page (dict_values starts).

(** One turn of the loop of [build_chapter_ranges]. *)
Definition range_step (starts_sorted : list ChapterStart) (total_pages : Z)
           (ranges : list ChapterRange) (ie : nat * ChapterStart)
  : list ChapterRange :=
  let '(idx, (ch, sp, title)) := ie in
  let ep := if Nat.ltb (idx + 1) (List.length starts_sorted)
            then page_of (nth (idx + 1) starts_sorted no_start) - 1
            else total_pages - 1 in
  if ep >=? sp then ranges ++ [(ch, sp, ep, title)] else ranges.

Definition build_chapter_ranges (starts : list ChapterStart) (total_pages : Z)
  : list ChapterRange :=
  if is_nil starts then []
  else
    let starts_sorted := stable_sort by_page starts in
    fold_left (range_step starts_sorted total_pages) (enumerate starts_sorted) [].

Definition page_has_heading (txt : string) (keywords : list string)
           (top_lines : nat) : bool :=
  let lines := map strip (firstn top_lines (splitlines txt)) in
  existsb (fun ln =>
             existsb (fun kw => startswith (lower ln) (lower kw)) keywords)
          lines.

(** The default of [top_lines]. *)
Definition TOP_LINES : nat := 25.

(** [sum(1 for ln in text.splitlines() if rx_num.match(ln.strip()))] *)
Definition count_numbered (ch_num : Z) (txt : string) : Z :=
  Z.of_nat (List.length
              (filter (fun ln => rx_num ch_num (chars (strip ln))) (splitlines txt))).

(** The number of turns of [range(a, b)], and of [range(b - 1, a - 1, -1)]. *)
Definition range_len (a b : Z) : nat := Z.to_nat (b - a).

(** Tier 1, [for i in range(start, end + 1)], from page [i] on with [n]
    pages left. *)
Fixpoint heading_scan (doc : Document) (keywords : list string)
         (n : nat) (i : Z) : result (option Z) :=
  match n with
  | O => Ok None
  | S n' =>
      txt <- page_text doc i ;;
      if page_has_heading txt keywords TOP_LINES then Ok (Some i)
      else heading_scan doc keywords n' (i + 1)
  end.

(** Tier 2, [for i in range(end, start - 1, -1)], from page [i] down with
    [n] pages left. *)
Fixpoint numbering_scan (doc : Document) (ch_num start : Z)
         (keywords : list string) (min_num_count : Z)
         (n : nat) (i : Z) : result (option Z) :=
  match n with
  | O => Ok None
  | S n' =>
      txt <- page_text doc i ;;
      let cnt := count_numbered ch_num txt in
      if cnt >=? min_num_count then
        if i - 1 >=? start then
          prev_text <- page_text doc (i - 1) ;;
          if page_has_heading prev_text keywords TOP_LINES
          then Ok (Some (i - 1))
          else Ok (Some i)
        else Ok (Some i)
      else numbering_scan doc ch_num start keywords min_num_count n' (i - 1)
  end.

Definition detect_exercises_start (doc : Document) (ch_range : ChapterRange)
           (keywords : list string) (min_num_count : Z) : result (option Z) :=
  let '(ch_num, start, end_, _title) := ch_range in
  found <- heading_scan doc keywords (range_len start (end_ + 1)) start ;;
  match found with
  | Some i => Ok (Some i)
  | None =>
      numbering_scan doc ch_num start keywords min_num_count
                     (range_len start (end_ + 1)) end_
  end.

(** The command line: the stem of the input path and the two options. *)
Record Args : Type := mkArgs {
  stem : string;
  keywords : list string;
  min_num_count : Z
}.

(** What the loop of [main] prints for a chapter. *)
Inductive Event : Type :=
| Warn (ch_num sp ep : Z) (title : string)
| WroteFile (outfile : string) (ex_start ep : Z).

(** How [main] ends on an opened document: [sys.exit(code)], an
    exception that is not caught, or a normal return (exit status 0). *)
Inductive Outcome : Type :=
| SysExit (code : Z)
| Uncaught (log : list Event)
| Returned (log : list Event).

Definition outfile_name (stem : string) (ch_num : Z) (title : string) : string :=
  (stem ++ "_Chapter-" ++ format_02d ch_num ++ "_" ++ slugify title
        ++ "_Exercises.pdf")%string.

(** [for ch_num, sp, ep, title in ranges], with what was printed so far. *)
Fixpoint chapters_loop (doc : Document) (args : Args)
         (ranges : list ChapterRange) (log : list Event) : Outcome :=
  match ranges with
  | [] => Returned log
  | (ch_num, sp, ep, title) :: rest =>
      match detect_exercises_start doc (ch_num, sp, ep, title)
                                   (keywords args) (min_num_count args) with
      | Raise => Uncaught log
      | Ok None => chapters_loop doc args rest (log ++ [Warn ch_num sp ep title])
      | Ok (Some ex_start) =>
          chapters_loop doc args rest
            (log ++ [WroteFile (outfile_name (stem args) ch_num title) ex_start ep])
      end
  end.

(** The starts [main] works with: the outline's, or the scan's when the
    outline gives fewer than two. *)
Definition chapter_starts (doc : Document) : list ChapterStart :=
  let starts := get_toc_chapter_starts doc in
  if Nat.ltb (List.length starts) 2 then scan_for_chapter_starts doc else starts.

Definition main (doc : Document) (args : Args) : Outcome :=
  let starts := chapter_starts doc in
  if is_nil starts then SysExit 2
  else
    let ranges := build_chapter_ranges starts (page_count doc) in
    if is_nil ranges then SysExit 3
    else chapters_loop doc args ranges [].

End ExtractExercises.

Import ExtractExercises.

(* ================================================================== *)
(** ** Range construction as the specification words it *)

(** Each range ends one page before the next start, the last one at the
    last page of the document; a range whose end would come before its
    start is left out. *)
Fixpoint contiguous_ranges (starts : list ChapterStart) (total_pages : Z)
  : list ChapterRange :=
  match starts with
  | [] => []
  | (ch, sp, title) :: rest =>
      let ep := match rest with
                | [] => total_pages - 1
                | next :: _ => page_of next - 1
                end in
      if sp <=? ep
      then (ch, sp, ep, title) :: contiguous_ranges rest total_pages
      else contiguous_ranges rest total_pages
  end.

(** Starts in ascending page order. *)
Definition page_le (a b : ChapterStart) : Prop := page_of a <= page_of b.
Definition sorted_by_page (starts : list ChapterStart) : Prop := Sorted page_le starts.

(** Ranges that are consecutive blocks: [tiles lo rs hi] when the ranges
    [rs], in their order, are non-empty blocks that follow each other
    without gap or overlap, the first starting at [lo] and the last ending
    at [hi - 1]. *)
Inductive tiles : Z -> list ChapterRange -> Z -> Prop :=
| tiles_nil : forall p, tiles p [] p
| tiles_cons : forall ch sp ep title rs hi,
    sp <= ep -> tiles (ep + 1) rs hi -> tiles sp ((ch, sp, ep, title) :: rs) hi.

(** The page of the start that comes last in a list. *)
Definition last_page (starts : list ChapterStart) : Z := page_of (last starts no_start).

Ltac unfold_ranges :=
  unfold covers, range_start, range_end, range_chapter, page_le, page_of,
    chapter_of in *; simpl in *.

(** The lowest start page. *)
Definition first_page (starts : list ChapterStart) : Z :=
  page_of (hd no_start (stable_sort by_page starts)).

(** *** The outline loop *)

(** The top-level entries of an outline, in outline order. *)
Definition top_level (toc : list TocEntry) : list TocEntry :=
  filter (fun e => fst (fst e) =? 1) toc.

(** The chapter number the patterns read in the title of an entry. *)
Definition declared_number (e : TocEntry) : option Z :=
  parse_chapter_number ExtractExercises.CHAPTER_HEADING_PATTERNS (strip (snd (fst e))).

(** The number the loop gives an entry when [chapters] are accepted so far:
    the declared one, or else the next in order. *)
Definition resolved_number (chapters : list ChapterStart) (e : TocEntry) : Z :=
  match declared_number e with
  | Some n => n
  | None => Z.of_nat (List.length chapters) + 1
  end.

(** The start an accepted entry with number [n] becomes. *)
Definition start_of_entry (n : Z) (e : TocEntry) : ChapterStart :=
  (n, snd e - 1, strip (snd (fst e))).

(** The state of the loop after the entries [toc]. *)
Definition toc_loop (toc : list TocEntry) : list ChapterStart * list Z :=
  fold_left ExtractExercises.toc_step toc ([], []).

(** The numbers of the accepted starts are the seen numbers, each once. *)
Definition toc_invariant (st : list ChapterStart * list Z) : Prop :=
  map chapter_of (fst st) = rev (snd st) /\ NoDup (snd st).

(** *** Exercise boundary detection *)

(** Page [i] loads and a keyword starts one of its leading lines. *)
Definition heading_at (doc : Document) (kws : list string) (i : Z) : Prop :=
  exists txt, page_text doc i = Ok txt /\ page_has_heading txt kws TOP_LINES = true.

(** Page [i] loads and no keyword starts any of its leading lines. *)
Definition plain_at (doc : Document) (kws : list string) (i : Z) : Prop :=
  exists txt, page_text doc i = Ok txt /\ page_has_heading txt kws TOP_LINES = false.

(** Page [i] loads and has at least [minc] lines numbered [ch_num.digits]. *)
Definition dense_at (doc : Document) (ch_num minc : Z) (i : Z) : Prop :=
  exists txt, page_text doc i = Ok txt /\ minc <= count_numbered ch_num txt.

(** Page [i] loads and has fewer than [minc] such lines. *)
Definition sparse_at (doc : Document) (ch_num minc : Z) (i : Z) : Prop :=
  exists txt, page_text doc i = Ok txt /\ count_numbered ch_num txt < minc.

(** Tier 2 without the look at the preceding page. *)
Fixpoint dense_scan (doc : Document) (ch_num : Z) (min_num_count : Z)
         (n : nat) (i : Z) : result (option Z) :=
  match n with
  | O => Ok None
  | S n' =>
      txt <- page_text doc i ;;
      if count_numbered ch_num txt >=? min_num_count then Ok (Some i)
      else dense_scan doc ch_num min_num_count n' (i - 1)
  end.

(** *** The run of [main] *)

(** What was printed for the chapters when [main] ended. *)
Definition log_of (o : Outcome) : list Event :=
  match o with
  | SysExit _ => []
  | Uncaught log => log
  | Returned log => log
  end.

(** The exit status of the process. *)
Definition exit_status (o : Outcome) : Z :=
  match o with
  | SysExit code => code
  | Uncaught _ => 1
  | Returned _ => 0
  end.

(* ================================================================== *)
(** ** Example documents *)

(** A book without outline in which a numbered item opens the second
    page: the scan takes it for chapter 3, ahead of chapter 2. *)
Definition misnumbered_book : Document :=
  mkDocument []
    [ "Chapter 1 Sets"; "3 Proofs of the main results";
      "Chapter 2 Groups"; "Chapter 3 Rings" ].

(** An outline whose second entry for chapter 1 points to an earlier page
    than its first. *)
Definition outline_out_of_page_order : Document :=
  mkDocument [ (1, "Chapter 1", 10); (1, "Chapter 1", 5) ] [].

(** A chapter whose third page opens the exercises, with numbered items
    before and after. *)
Definition chapter_with_heading : Document :=
  mkDocument []
    [ "Chapter 7 Series
7.1 Convergence
7.2 Tests";
      "7.3 Power series
text";
      "   EXERCISES for chapter 7
7.1 Show that
7.2 Prove";
      "7.3 Find
7.4 Compute
Problems" ].

(** The exercises of chapter 6 begin on the page before chapter 7, whose
    only page lists numbered items. *)
Definition heading_before_range : Document :=
  mkDocument []
    [ "Exercises
6.1 Show that";
      "Chapter 7 Series
7.1 First item
7.2 Second item" ].

(** A chapter without keyword heading whose numbered exercises fill its
    second and third page, with answers on the last. *)
Definition chapter_without_heading : Document :=
  mkDocument []
    [ "Chapter 7 Series
7.1 Convergence";
      "Questions
7.1 Show that
7.2 Prove that";
      "7.3 Find
7.4 Compute
7.5a not an item";
      "Answers and hints
7.1 yes" ].

(** A book of three chapters; the second has neither heading nor numbered
    items. *)
Definition book_with_plain_chapter : Document :=
  mkDocument []
    [ "Chapter 1 Sets
text";
      "Exercises
1.1 Show that";
      "Chapter 2 Groups
no items here";
      "Chapter 3 Rings
3.1 Prove that
3.2 Find" ].

(* ================================================================== *)
(** ** Vocabulary of the further properties *)

(** The chapter heading the page scan reads on a page: the first of its
    [top] leading lines, stripped, that a chapter pattern matches, with
    the number it gives. *)
Definition page_heading (top : nat) (txt : string) : option (Z * string) :=
  ExtractExercises.first_heading (map strip (firstn top (splitlines txt))).

(** The page scan of either tool, [top] being 20 or 25. *)
Definition scan_page_top (top : nat) (starts : StartsDict) (i : Z) (txt : string)
  : StartsDict :=
  match page_heading top txt with
  | Some (ch, ln) =>
      if dict_has ch starts then starts else starts ++ [(ch, (ch, i, ln))]
  | None => starts
  end.

Fixpoint scan_pages_top (top : nat) (pages : list string) (i : Z)
         (starts : StartsDict) : StartsDict :=
  match pages with
  | [] => starts
  | txt :: rest => scan_pages_top top rest (i + 1) (scan_page_top top starts i txt)
  end.

(** Page [p] of [pages] is the first one whose heading gives the number
    [ch], and [ln] is that heading. *)
Definition first_page_of_chapter (top : nat) (pages : list string)
           (ch p : Z) (ln : string) : Prop :=
  0 <= p
  /\ (exists txt, nth_error pages (Z.to_nat p) = Some txt
                  /\ page_heading top txt = Some (ch, ln))
  /\ (forall q txt ln', (q < Z.to_nat p)%nat -> nth_error pages q = Some txt ->
                        page_heading top txt <> Some (ch, ln')).

(** What holds of the dictionary of the scan when the pages [done] have
    been scanned: its keys differ, each entry is filed under its chapter
    number and records the first page of that chapter, and the number of
    every heading read has an entry. *)
Definition scan_invariant (top : nat) (done : list string) (d : StartsDict) : Prop :=
  NoDup (map fst d)
  /\ (forall k ch p ln, In (k, (ch, p, ln)) d ->
        k = ch /\ (Z.to_nat p < List.length done)%nat
        /\ first_page_of_chapter top done ch p ln)
  /\ (forall q txt ch ln, nth_error done q = Some txt ->
        page_heading top txt = Some (ch, ln) -> In ch (map fst d)).

(** The entries numbered in order from [k] on. *)
Fixpoint number_from (k : Z) (entries : list TocEntry) : list ChapterStart :=
  match entries with
  | [] => []
  | e :: rest => start_of_entry k e :: number_from (k + 1) rest
  end.

(** The start a range was built from. *)
Definition start_of_range (r : ChapterRange) : ChapterStart :=
  (range_chapter r, range_start r, snd r).

(** What follows a run: nothing, or a character outside of the class. *)
Definition run_ends (p : ascii -> bool) (rest : list ascii) : Prop :=
  match rest with
  | [] => True
  | c :: _ => p c = false
  end.

(** The names of the files in a log of [main], in the order written. *)
Fixpoint written_files (log : list Event) : list string :=
  match log with
  | [] => []
  | WroteFile f _ _ :: rest => f :: written_files rest
  | Warn _ _ _ _ :: rest => written_files rest
  end.

(** A character that [slugify] lets through or puts in. *)
Definition slug_char (c : ascii) : bool := is_alnum c || Ascii.eqb c "-"%char.

(* ================================================================== *)
(** ** Facts about the stable sort *)

Section StableSortFacts.
Context {A : Type} (leb : A -> A -> bool).
Hypothesis leb_total : forall a b, leb a b = true \/ leb b a = true.

Let R (a b : A) : Prop := leb a b = true.

Lemma insert_sorted_perm (x : A) (l : list A) :
  Permutation (insert_sorted leb x l) (x :: l).
Proof.
  induction l as [|y l IH]; simpl; [reflexivity|].
  destruct (leb x y); [reflexivity|].
  rewrite IH. apply perm_swap.
Qed.

Lemma stable_sort_perm (l : list A) : Permutation (stable_sort leb l) l.
Proof.
  induction l as [|x l IH]; simpl; [constructor|].
  rewrite insert_sorted_perm. now constructor.
Qed.

Lemma insert_sorted_hdrel (a x : A) (l : list A) :
  R a x -> HdRel R a l -> HdRel R a (insert_sorted leb x l).
Proof.
  intros Hax Hal. destruct l as [|y l]; simpl.
  - now constructor.
  - destruct (leb x y); constructor; auto. now inversion Hal.
Qed.

Lemma insert_sorted_sorted (x : A) (l : list A) :
  Sorted R l -> Sorted R (insert_sorted leb x l).
Proof.
  induction 1 as [|y l Hs IH Hhd]; simpl.
  - repeat constructor.
  - destruct (leb x y) eqn:E.
    + constructor; [now constructor | now constructor].
    + constructor; [exact IH|].
      apply insert_sorted_hdrel; [|exact Hhd].
      destruct (leb_total x y) as [H|H]; [congruence | exact H].
Qed.

Lemma stable_sort_sorted (l : list A) : Sorted R (stable_sort leb l).
Proof.
  induction l as [|x l IH]; simpl; [constructor|].
  now apply insert_sorted_sorted.
Qed.

(** Sorting a sorted list changes nothing. *)
Lemma stable_sort_of_sorted (l : list A) : Sorted R l -> stable_sort leb l = l.
Proof.
  induction 1 as [|x l Hs IH Hhd]; simpl; [reflexivity|].
  rewrite IH. destruct Hhd as [|y l Hxy]; simpl; [reflexivity|].
  unfold R in Hxy. now rewrite Hxy.
Qed.

Lemma stable_sort_length (l : list A) :
  List.length (stable_sort leb l) = List.length l.
Proof. apply Permutation_length, stable_sort_perm. Qed.

Lemma stable_sort_nil_iff (l : list A) : stable_sort leb l = [] <-> l = [].
Proof.
  split; intros H.
  - apply Permutation_nil. rewrite <- H. apply stable_sort_perm.
  - now subst.
Qed.
End StableSortFacts.

Lemma by_page_total (a b : ChapterStart) : by_page a b = true \/ by_page b a = true.
Proof. unfold by_page. rewrite !Z.leb_le. lia. Qed.

Lemma by_page_sorted (l : list ChapterStart) :
  Sorted (fun a b => by_page a b = true) l <-> sorted_by_page l.
Proof.
  unfold sorted_by_page.
  split; induction 1 as [|x l Hs IH Hhd]; constructor; auto;
    destruct Hhd; constructor; unfold by_page, page_le in *;
    now apply Z.leb_le.
Qed.

Lemma sort_by_page_sorted (l : list ChapterStart) :
  sorted_by_page (stable_sort by_page l).
Proof. apply by_page_sorted, stable_sort_sorted, by_page_total. Qed.

Lemma sort_by_page_of_sorted (l : list ChapterStart) :
  sorted_by_page l -> stable_sort by_page l = l.
Proof. intros H. now apply stable_sort_of_sorted, by_page_sorted. Qed.

(* ================================================================== *)
(** ** Range construction *)

Lemma range_step_same :
  ExtractExercises.range_step = SplitPdfChapters.range_step.
Proof. reflexivity. Qed.

(** One turn of the loop at index [length pre], the entry being [x]. *)
Lemma range_step_at (total_pages : Z) (pre suf : list ChapterStart)
      (x : ChapterStart) (acc : list ChapterRange) :
  SplitPdfChapters.range_step ((pre ++ [x]) ++ suf) total_pages acc
                              (List.length pre, x)
  = acc ++ contiguous_ranges [x] (match suf with
                                  | [] => total_pages
                                  | next :: _ => page_of next
                                  end).
Proof.
  destruct x as [[ch sp] title].
  unfold SplitPdfChapters.range_step. cbn [contiguous_ranges].
  assert (Hlen : List.length (pre ++ [(ch, sp, title)]) = (List.length pre + 1)%nat)
    by (rewrite length_app; simpl; lia).
  rewrite length_app, <- Hlen.
  rewrite (app_nth2 (pre ++ [(ch, sp, title)]) suf no_start) by lia.
  rewrite Nat.sub_diag, Z.geb_leb.
  destruct suf as [|next suf'].
  - rewrite (proj2 (Nat.ltb_ge _ _)) by (simpl; lia).
    now destruct (sp <=? total_pages - 1); [|rewrite app_nil_r].
  - rewrite (proj2 (Nat.ltb_lt _ _)) by (simpl; lia).
    simpl nth.
    now destruct (sp <=? page_of next - 1); [|rewrite app_nil_r].
Qed.

Lemma contiguous_ranges_cons (x : ChapterStart) (suf : list ChapterStart)
      (total_pages : Z) :
  contiguous_ranges (x :: suf) total_pages
  = contiguous_ranges [x] (match suf with
                           | [] => total_pages
                           | next :: _ => page_of next
                           end)
    ++ contiguous_ranges suf total_pages.
Proof.
  destruct x as [[ch sp] title]. cbn [contiguous_ranges].
  destruct suf as [|next suf']; destruct (sp <=? _); reflexivity.
Qed.

(** The loop over [enumerate(starts)], entered at index [length pre] with
    the entries [suf] left, appends the ranges of [suf]. *)
Lemma range_loop_from (total_pages : Z) (suf pre : list ChapterStart)
      (acc : list ChapterRange) :
  fold_left (SplitPdfChapters.range_step (pre ++ suf) total_pages)
            (combine (seq (List.length pre) (List.length suf)) suf) acc
  = acc ++ contiguous_ranges suf total_pages.
Proof.
  revert pre acc. induction suf as [|x suf IH]; intros pre acc.
  - simpl. now rewrite app_nil_r.
  - cbn [List.length seq combine fold_left].
    assert (Hsplit : pre ++ x :: suf = (pre ++ [x]) ++ suf)
      by (rewrite <- app_assoc; reflexivity).
    rewrite Hsplit, range_step_at.
    replace (S (List.length pre)) with (List.length (pre ++ [x]))
      by (rewrite length_app; simpl; lia).
    rewrite IH, (contiguous_ranges_cons x suf). symmetry. apply app_assoc.
Qed.

Lemma build_ranges_contiguous (starts : list ChapterStart) (total_pages : Z) :
  SplitPdfChapters.build_ranges starts total_pages
  = contiguous_ranges starts total_pages.
Proof.
  unfold SplitPdfChapters.build_ranges, enumerate.
  exact (range_loop_from total_pages starts [] []).
Qed.

Lemma build_chapter_ranges_contiguous (starts : list ChapterStart) (total_pages : Z) :
  ExtractExercises.build_chapter_ranges starts total_pages
  = contiguous_ranges (stable_sort by_page starts) total_pages.
Proof.
  unfold ExtractExercises.build_chapter_ranges, enumerate.
  destruct starts as [|s starts]; [reflexivity|].
  cbn [is_nil]. rewrite range_step_same.
  exact (range_loop_from total_pages _ [] []).
Qed.

(** *** Consecutive blocks *)

Lemma tiles_le (lo hi : Z) (rs : list ChapterRange) : tiles lo rs hi -> lo <= hi.
Proof. induction 1; lia. Qed.

(** Every page from the first block's start to the last block's end lies
    in a block. *)
Lemma tiles_cover (lo hi : Z) (rs : list ChapterRange) :
  tiles lo rs hi ->
  forall p, lo <= p < hi -> exists r, In r rs /\ covers r p.
Proof.
  induction 1 as [q | ch sp ep title rs hi Hle Ht IH]; intros p Hp; [lia|].
  destruct (Z_le_gt_dec p ep) as [Hin | Hout].
  - exists (ch, sp, ep, title). split; [now left|]. unfold_ranges. lia.
  - destruct (IH p) as [r [Hr Hc]]; [lia|]. exists r. split; [now right | exact Hc].
Qed.

(** No block reaches outside of them. *)
Lemma tiles_within (lo hi : Z) (rs : list ChapterRange) :
  tiles lo rs hi ->
  forall r p, In r rs -> covers r p -> lo <= p < hi.
Proof.
  induction 1 as [q | ch sp ep title rs hi Hle Ht IH]; intros r p Hr Hc.
  - contradiction.
  - pose proof (tiles_le _ _ _ Ht) as Hhi. destruct Hr as [<- | Hr].
    + unfold_ranges. lia.
    + specialize (IH r p Hr Hc). lia.
Qed.

(** A block ends before every later block starts. *)
Lemma tiles_ordered (lo hi : Z) (rs : list ChapterRange) :
  tiles lo rs hi ->
  forall i j r1 r2, (i < j)%nat ->
    nth_error rs i = Some r1 -> nth_error rs j = Some r2 ->
    range_end r1 < range_start r2.
Proof.
  induction 1 as [q | ch sp ep title rs hi Hle Ht IH]; intros i j r1 r2 Hij H1 H2.
  - now destruct i.
  - destruct j as [|j]; [lia|]. simpl in H2. destruct i as [|i].
    + simpl in H1. injection H1 as <-. apply nth_error_In in H2.
      assert (Hc : covers r2 (range_start r2)).
      { unfold covers. split; [lia|].
        clear -Ht H2. induction Ht as [|ch' sp' ep' t' rs' hi' Hle' Ht' IH'].
        - contradiction.
        - destruct H2 as [<- | H2]; [exact Hle' | now apply IH']. }
      pose proof (tiles_within _ _ _ Ht r2 _ H2 Hc). unfold_ranges. lia.
    + simpl in H1. apply (IH i j); auto. lia.
Qed.

(** The ranges of starts in ascending page order are consecutive blocks
    from the first start on. *)
Lemma contiguous_ranges_tiles (total_pages : Z) (l : list ChapterStart)
      (x : ChapterStart) :
  sorted_by_page (x :: l) ->
  tiles (page_of x) (contiguous_ranges (x :: l) total_pages)
        (Z.max (last_page (x :: l)) total_pages).
Proof.
  revert x. induction l as [|y l IH]; intros [[ch sp] title] Hs.
  - cbn [contiguous_ranges]. unfold last_page, page_of. simpl.
    destruct (sp <=? total_pages - 1) eqn:E.
    + apply Z.leb_le in E. replace (Z.max sp total_pages) with (total_pages - 1 + 1) by lia.
      constructor; [exact E | constructor].
    + apply Z.leb_gt in E. replace (Z.max sp total_pages) with sp by lia. constructor.
  - inversion Hs as [|? ? Hs' Hhd]; subst. inversion Hhd as [|? ? Hxy]; subst.
    unfold page_le, page_of in Hxy; simpl in Hxy.
    specialize (IH y Hs').
    change (last_page ((ch, sp, title) :: y :: l)) with (last_page (y :: l)).
    rewrite contiguous_ranges_cons. cbn [contiguous_ranges app].
    unfold page_of at 1. simpl fst. simpl snd.
    destruct (sp <=? page_of y - 1) eqn:E.
    + apply Z.leb_le in E. simpl. constructor; [exact E|].
      now replace (page_of y - 1 + 1) with (page_of y) by lia.
    + apply Z.leb_gt in E. simpl. unfold page_of in *.
      now replace sp with (snd (fst y)) by lia.
Qed.

Lemma page_le_trans : Relations_1.Transitive page_le.
Proof. intros a b c. unfold page_le. lia. Qed.

Lemma first_page_lowest (starts : list ChapterStart) :
  Forall (fun s => first_page starts <= page_of s) starts.
Proof.
  unfold first_page.
  apply (Permutation_Forall (stable_sort_perm by_page starts)).
  pose proof (sort_by_page_sorted starts) as Hs.
  apply (Sorted_StronglySorted page_le_trans) in Hs.
  destruct (stable_sort by_page starts) as [|x l]; [constructor|].
  simpl. constructor; [lia|]. now inversion Hs.
Qed.

Lemma first_page_is_start (starts : list ChapterStart) :
  starts <> [] -> exists s, In s starts /\ page_of s = first_page starts.
Proof.
  intros Hne. unfold first_page.
  destruct (stable_sort by_page starts) as [|x l] eqn:E.
  - apply stable_sort_nil_iff in E. contradiction.
  - exists x. split; [|reflexivity].
    apply (Permutation_in x (stable_sort_perm by_page starts)).
    rewrite E. now left.
Qed.

Lemma last_in {A} (l : list A) (d : A) : l <> [] -> In (last l d) l.
Proof.
  induction l as [|x l IH]; [congruence|]. intros _.
  destruct l as [|y l]; [now left|]. right. apply IH. discriminate.
Qed.

Lemma last_page_bound (starts : list ChapterStart) (b : Z) :
  starts <> [] -> Forall (fun s => page_of s <= b) starts -> last_page starts <= b.
Proof.
  intros Hne Hall. unfold last_page.
  exact (proj1 (Forall_forall _ _) Hall _ (last_in starts no_start Hne)).
Qed.

(** The sibling of [build_ranges] sorts by page first: whatever the order
    of the starts it is given, its ranges are consecutive blocks from the
    lowest start page on. *)
Lemma build_chapter_ranges_tiles (starts : list ChapterStart) (total_pages : Z) :
  starts <> [] ->
  tiles (first_page starts)
        (ExtractExercises.build_chapter_ranges starts total_pages)
        (Z.max (last_page (stable_sort by_page starts)) total_pages).
Proof.
  intros Hne. rewrite build_chapter_ranges_contiguous. unfold first_page.
  pose proof (sort_by_page_sorted starts) as Hs.
  destruct (stable_sort by_page starts) as [|x l] eqn:E.
  - apply stable_sort_nil_iff in E. contradiction.
  - now apply contiguous_ranges_tiles.
Qed.

(** With every start a page of the document, they cover the pages from the
    lowest start to the last page, each page once, and no page before. *)
Theorem build_chapter_ranges_partition (starts : list ChapterStart) (total_pages : Z) :
  starts <> [] ->
  Forall (fun s => page_of s <= total_pages - 1) starts ->
  let ranges := ExtractExercises.build_chapter_ranges starts total_pages in
  tiles (first_page starts) ranges total_pages
  /\ (forall p, first_page starts <= p <= total_pages - 1 ->
        exists r, In r ranges /\ covers r p)
  /\ (forall r p, In r ranges -> covers r p ->
        first_page starts <= p <= total_pages - 1)
  /\ (forall i j r1 r2, (i < j)%nat ->
        nth_error ranges i = Some r1 -> nth_error ranges j = Some r2 ->
        range_end r1 < range_start r2).
Proof.
  intros Hne Hall ranges.
  assert (Ht : tiles (first_page starts) ranges total_pages).
  { pose proof (build_chapter_ranges_tiles starts total_pages Hne) as Ht.
    assert (Hlast : last_page (stable_sort by_page starts) <= total_pages - 1).
    { apply last_page_bound.
      - intros E. apply stable_sort_nil_iff in E. contradiction.
      - apply (Permutation_Forall (Permutation_sym (stable_sort_perm by_page starts))).
        exact Hall. }
    now replace (Z.max _ total_pages) with total_pages in Ht by lia. }
  split; [exact Ht|]. split; [|split].
  - intros p Hp. apply (tiles_cover _ _ _ Ht). lia.
  - intros r p Hr Hc. pose proof (tiles_within _ _ _ Ht r p Hr Hc). lia.
  - exact (tiles_ordered _ _ _ Ht).
Qed.

(** [build_ranges] does the same when its starts come in page order. *)
Lemma build_ranges_tiles (x : ChapterStart) (l : list ChapterStart) (total_pages : Z) :
  sorted_by_page (x :: l) ->
  tiles (page_of x) (SplitPdfChapters.build_ranges (x :: l) total_pages)
        (Z.max (last_page (x :: l)) total_pages).
Proof. intros Hs. rewrite build_ranges_contiguous. now apply contiguous_ranges_tiles. Qed.

Lemma contiguous_ranges_nonempty (starts : list ChapterStart) (total_pages : Z) :
  starts <> [] -> last_page starts <= total_pages - 1 ->
  contiguous_ranges starts total_pages <> [].
Proof.
  induction starts as [|[[ch sp] title] l IH]; [congruence|]. intros _ Hlast.
  destruct l as [|y l].
  - unfold last_page in Hlast. unfold_ranges.
    rewrite (proj2 (Z.leb_le _ _)) by lia. discriminate.
  - rewrite contiguous_ranges_cons. intros E. apply app_eq_nil in E.
    destruct E as [_ E]. revert E. apply IH; [discriminate | exact Hlast].
Qed.

(* ================================================================== *)
(** ** The outline loop *)

Lemma toc_step_same : SplitPdfChapters.toc_step = ExtractExercises.toc_step.
Proof. reflexivity. Qed.

(** The two tools detect the same starts in an outline. *)
Lemma detect_chapters_by_toc_same (doc : Document) :
  SplitPdfChapters.detect_chapters_by_toc doc
  = ExtractExercises.get_toc_chapter_starts doc.
Proof.
  unfold SplitPdfChapters.detect_chapters_by_toc,
    ExtractExercises.get_toc_chapter_starts.
  rewrite toc_step_same. now destruct (get_toc doc).
Qed.

Lemma get_toc_chapter_starts_loop (doc : Document) :
  ExtractExercises.get_toc_chapter_starts doc
  = stable_sort by_page (fst (toc_loop (get_toc doc))).
Proof.
  unfold ExtractExercises.get_toc_chapter_starts, toc_loop.
  now destruct (get_toc doc).
Qed.

(** The three ways a turn of the loop goes. *)
Lemma toc_step_cases (chapters : list ChapterStart) (seen : list Z) (e : TocEntry) :
  ExtractExercises.toc_step (chapters, seen) e
  = if negb (fst (fst e) =? 1) then (chapters, seen)
    else if existsb (Z.eqb (resolved_number chapters e)) seen then (chapters, seen)
         else (chapters ++ [start_of_entry (resolved_number chapters e) e],
               resolved_number chapters e :: seen).
Proof. destruct e as [[level title] p1]. reflexivity. Qed.

Lemma existsb_eqb_In (n : Z) (l : list Z) : existsb (Z.eqb n) l = true <-> In n l.
Proof.
  rewrite existsb_exists. split.
  - intros [x [Hx E]]. apply Z.eqb_eq in E. now subst.
  - intros H. exists n. split; [exact H | apply Z.eqb_refl].
Qed.

(** A number once seen is skipped. *)
Lemma toc_step_seen (chapters : list ChapterStart) (seen : list Z) (e : TocEntry) :
  In (resolved_number chapters e) seen ->
  ExtractExercises.toc_step (chapters, seen) e = (chapters, seen).
Proof.
  intros H. rewrite toc_step_cases.
  destruct (negb _); [reflexivity|].
  now rewrite (proj2 (existsb_eqb_In _ _) H).
Qed.

(** Accepted starts and seen numbers are never taken back. *)
Lemma toc_fold_grows (l : list TocEntry) (st : list ChapterStart * list Z) :
  (forall c, In c (fst st) -> In c (fst (fold_left ExtractExercises.toc_step l st)))
  /\ (forall n, In n (snd st) -> In n (snd (fold_left ExtractExercises.toc_step l st))).
Proof.
  revert st. induction l as [|e l IH]; intros [chapters seen]; [now split|].
  cbn [fold_left]. rewrite toc_step_cases.
  destruct (negb _); [apply IH|].
  destruct (existsb _ seen); [apply IH|].
  destruct (IH (chapters ++ [start_of_entry (resolved_number chapters e) e],
                resolved_number chapters e :: seen)) as [IH1 IH2].
  split.
  - intros c Hc. apply IH1. simpl. apply in_or_app. now left.
  - intros n Hn. apply IH2. now right.
Qed.

Lemma toc_fold_invariant (l : list TocEntry) (st : list ChapterStart * list Z) :
  toc_invariant st -> toc_invariant (fold_left ExtractExercises.toc_step l st).
Proof.
  revert st. induction l as [|e l IH]; intros [chapters seen] Hinv; [exact Hinv|].
  cbn [fold_left]. rewrite toc_step_cases.
  destruct (negb _); [now apply IH|].
  destruct (existsb _ seen) eqn:E; [now apply IH|].
  apply IH. destruct Hinv as [Hmap Hnd]. split; simpl in *.
  - rewrite map_app, Hmap. reflexivity.
  - constructor; [|exact Hnd]. intros Hin.
    apply existsb_eqb_In in Hin. congruence.
Qed.

Lemma toc_loop_invariant (toc : list TocEntry) : toc_invariant (toc_loop toc).
Proof. apply toc_fold_invariant. split; [reflexivity | constructor]. Qed.

(** No chapter number comes twice among the detected starts. *)
Lemma get_toc_chapter_starts_NoDup (doc : Document) :
  NoDup (map chapter_of (ExtractExercises.get_toc_chapter_starts doc)).
Proof.
  rewrite get_toc_chapter_starts_loop.
  destruct (toc_loop_invariant (get_toc doc)) as [Hmap Hnd].
  apply (Permutation_NoDup (l := map chapter_of (fst (toc_loop (get_toc doc))))).
  - apply Permutation_map, Permutation_sym, stable_sort_perm.
  - rewrite Hmap. apply NoDup_rev. exact Hnd.
Qed.

(** When every top-level title declares a number and the numbers differ,
    the loop accepts every top-level entry under its declared number. *)
Lemma toc_fold_distinct (l : list TocEntry) (chapters : list ChapterStart)
      (seen : list Z) :
  Forall (fun e => declared_number e <> None) (top_level l) ->
  NoDup (map declared_number (top_level l)) ->
  (forall e, In e (top_level l) -> ~ In (resolved_number [] e) seen) ->
  fst (fold_left ExtractExercises.toc_step l (chapters, seen))
  = chapters ++ map (fun e => start_of_entry (resolved_number [] e) e) (top_level l).
Proof.
  revert chapters seen. induction l as [|e l IH]; intros chapters seen Hall Hnd Hfresh.
  - simpl. now rewrite app_nil_r.
  - cbn [fold_left]. rewrite toc_step_cases.
    unfold top_level in *. cbn [filter] in *.
    destruct (fst (fst e) =? 1) eqn:Elev; cbn [negb].
    + cbn [map] in *. inversion Hall as [|? ? He Hall']; subst.
      inversion Hnd as [|? ? Hnotin Hnd']; subst.
      assert (Hres : forall cs, resolved_number cs e = resolved_number [] e).
      { intros cs. unfold resolved_number. now destruct (declared_number e). }
      rewrite (Hres chapters).
      destruct (existsb _ seen) eqn:Ex.
      * apply existsb_eqb_In in Ex. exfalso. apply (Hfresh e); [now left | exact Ex].
      * rewrite IH; auto.
        -- now rewrite <- app_assoc.
        -- intros e' He' [Heq | Hin].
           ++ apply Hnotin. apply in_map_iff. exists e'. split; [|exact He'].
              assert (He'some : declared_number e' <> None)
                by exact (proj1 (Forall_forall _ _) Hall' e' He').
              unfold resolved_number in Heq.
              destruct (declared_number e'), (declared_number e); congruence.
           ++ apply (Hfresh e'); [now right | exact Hin].
    + apply IH; auto.
Qed.

(* ================================================================== *)
(** ** Exercise boundary detection *)

(** A page that loads is below the page count, and so is every page
    before it. *)
Lemma page_text_loads (doc : Document) (k : Z) (txt : string) :
  page_text doc k = Ok txt ->
  forall i, i <= k -> exists txt', page_text doc i = Ok txt'.
Proof.
  unfold page_text. intros Hk i Hi.
  destruct (page_count doc <=? k) eqn:E1; [discriminate|].
  destruct (page_count doc =? 0) eqn:E2; [discriminate|].
  apply Z.leb_gt in E1. apply Z.eqb_neq in E2.
  rewrite (proj2 (Z.leb_gt _ _)) by lia.
  assert (Hpos : 0 < page_count doc) by (unfold page_count in *; lia).
  destruct (nth_error (page_texts doc) (Z.to_nat (i mod page_count doc))) eqn:E3.
  - now eexists.
  - apply nth_error_None in E3.
    pose proof (Z.mod_pos_bound i (page_count doc) Hpos).
    unfold page_count in *. lia.
Qed.

Lemma heading_or_plain (doc : Document) (kws : list string) (i : Z) (txt : string) :
  page_text doc i = Ok txt -> heading_at doc kws i \/ plain_at doc kws i.
Proof.
  intros H. destruct (page_has_heading txt kws TOP_LINES) eqn:E;
    [left | right]; now exists txt.
Qed.

Lemma heading_not_plain (doc : Document) (kws : list string) (i : Z) :
  heading_at doc kws i -> plain_at doc kws i -> False.
Proof. intros [t1 [H1 E1]] [t2 [H2 E2]]. congruence. Qed.

(** *** Tier 1 *)

(** What tier 1 returns is the first page with a heading. *)
Lemma heading_scan_some (doc : Document) (kws : list string) (n : nat) (i j : Z) :
  heading_scan doc kws n i = Ok (Some j) ->
  i <= j < i + Z.of_nat n /\ heading_at doc kws j
  /\ forall p, i <= p < j -> plain_at doc kws p.
Proof.
  revert i. induction n as [|n IH]; intros i H; [discriminate|].
  cbn [heading_scan] in H. destruct (page_text doc i) as [txt|] eqn:Et; [|discriminate].
  cbn [bind] in H. destruct (page_has_heading txt kws TOP_LINES) eqn:Eh.
  - injection H as <-. split; [lia|]. split; [now exists txt | intros; lia].
  - destruct (IH _ H) as [Hr [Hj Hp]]. split; [lia|]. split; [exact Hj|].
    intros p Hpr. destruct (Z.eq_dec p i) as [->|Hne]; [now exists txt|].
    apply Hp. lia.
Qed.

(** When tier 1 finds nothing, every page of the range is plain. *)
Lemma heading_scan_none (doc : Document) (kws : list string) (n : nat) (i : Z) :
  heading_scan doc kws n i = Ok None ->
  forall p, i <= p < i + Z.of_nat n -> plain_at doc kws p.
Proof.
  revert i. induction n as [|n IH]; intros i H p Hp; [lia|].
  cbn [heading_scan] in H. destruct (page_text doc i) as [txt|] eqn:Et; [|discriminate].
  cbn [bind] in H. destruct (page_has_heading txt kws TOP_LINES) eqn:Eh; [discriminate|].
  destruct (Z.eq_dec p i) as [->|Hne]; [now exists txt|].
  apply (IH _ H). lia.
Qed.

Lemma heading_scan_plain (doc : Document) (kws : list string) (n : nat) (i : Z) :
  (forall p, i <= p < i + Z.of_nat n -> plain_at doc kws p) ->
  heading_scan doc kws n i = Ok None.
Proof.
  revert i. induction n as [|n IH]; intros i H; [reflexivity|].
  cbn [heading_scan]. destruct (H i) as [txt [Et Eh]]; [lia|].
  rewrite Et. cbn [bind]. rewrite Eh. apply IH. intros p Hp. apply H. lia.
Qed.

(** A heading in the range is reached, unless an earlier one is. *)
Lemma heading_scan_reaches (doc : Document) (kws : list string) (n : nat) (i k : Z) :
  i <= k < i + Z.of_nat n -> heading_at doc kws k ->
  exists j, heading_scan doc kws n i = Ok (Some j) /\ i <= j <= k.
Proof.
  revert i. induction n as [|n IH]; intros i Hk Hh; [lia|].
  cbn [heading_scan]. destruct Hh as [tk [Etk Ehk]].
  destruct (page_text_loads doc k tk Etk i) as [txt Et]; [lia|].
  rewrite Et. cbn [bind]. destruct (page_has_heading txt kws TOP_LINES) eqn:Eh.
  - exists i. split; [reflexivity | lia].
  - assert (i <> k) by (intros ->; congruence).
    destruct (IH (i + 1)) as [j [Hj Hr]]; [lia | now exists tk |].
    exists j. split; [exact Hj | lia].
Qed.

(** Tier 1 reads the pages up to the one it returns, and no other. *)
Lemma heading_scan_depends (doc doc' : Document) (kws : list string)
      (n n' : nat) (i j : Z) :
  heading_scan doc kws n i = Ok (Some j) ->
  (forall p, i <= p <= j -> page_text doc' p = page_text doc p) ->
  j < i + Z.of_nat n' ->
  heading_scan doc' kws n' i = Ok (Some j).
Proof.
  revert n' i. induction n as [|n IH]; intros n' i H Hsame Hn'; [discriminate|].
  pose proof (heading_scan_some _ _ _ _ _ H) as [Hr _].
  destruct n' as [|n']; [lia|].
  cbn [heading_scan] in *. rewrite Hsame by lia.
  destruct (page_text doc i) as [txt|]; [|discriminate]. cbn [bind] in *.
  destruct (page_has_heading txt kws TOP_LINES); [exact H|].
  pose proof (heading_scan_some _ _ _ _ _ H) as [Hr' _].
  apply (IH n' (i + 1) H); [intros; apply Hsame|]; lia.
Qed.

(** *** Tier 2 *)

(** With every page of the range plain, the look at the preceding page
    finds nothing and tier 2 returns the dense page itself. *)
Lemma numbering_scan_plain (doc : Document) (ch_num start end_ : Z)
      (kws : list string) (minc : Z) (n : nat) (i : Z) :
  (forall p, start <= p <= end_ -> plain_at doc kws p) ->
  i <= end_ ->
  numbering_scan doc ch_num start kws minc n i = dense_scan doc ch_num minc n i.
Proof.
  intros Hplain. revert i. induction n as [|n IH]; intros i Hi; [reflexivity|].
  cbn [numbering_scan dense_scan].
  destruct (page_text doc i) as [txt|]; [|reflexivity]. cbn [bind].
  destruct (count_numbered ch_num txt >=? minc); [|apply IH; lia].
  destruct (i - 1 >=? start) eqn:Eprev; [|reflexivity].
  rewrite Z.geb_leb in Eprev. apply Z.leb_le in Eprev.
  destruct (Hplain (i - 1)) as [prev [Ep Eh]]; [lia|].
  rewrite Ep. cbn [bind]. now rewrite Eh.
Qed.

(** What the scan from the end returns is the last dense page. *)
Lemma dense_scan_some (doc : Document) (ch_num minc : Z) (n : nat) (i j : Z) :
  dense_scan doc ch_num minc n i = Ok (Some j) ->
  i - Z.of_nat n < j <= i /\ dense_at doc ch_num minc j
  /\ forall p, j < p <= i -> sparse_at doc ch_num minc p.
Proof.
  revert i. induction n as [|n IH]; intros i H; [discriminate|].
  cbn [dense_scan] in H. destruct (page_text doc i) as [txt|] eqn:Et; [|discriminate].
  cbn [bind] in H. rewrite Z.geb_leb in H.
  destruct (minc <=? count_numbered ch_num txt) eqn:Ec.
  - injection H as <-. apply Z.leb_le in Ec.
    split; [lia|]. split; [now exists txt | intros; lia].
  - apply Z.leb_gt in Ec. destruct (IH _ H) as [Hr [Hj Hp]].
    split; [lia|]. split; [exact Hj|].
    intros p Hpr. destruct (Z.eq_dec p i) as [->|Hne]; [now exists txt|].
    apply Hp. lia.
Qed.

(** A dense page of the range is reached, unless a later one is. *)
Lemma dense_scan_reaches (doc : Document) (ch_num minc : Z) (n : nat) (i k : Z) :
  (exists txt, page_text doc i = Ok txt) ->
  i - Z.of_nat n < k <= i -> dense_at doc ch_num minc k ->
  exists j, dense_scan doc ch_num minc n i = Ok (Some j) /\ k <= j <= i.
Proof.
  revert i. induction n as [|n IH]; intros i [txt Et] Hk Hd; [lia|].
  cbn [dense_scan]. rewrite Et. cbn [bind]. rewrite Z.geb_leb.
  destruct (minc <=? count_numbered ch_num txt) eqn:Ec.
  - exists i. split; [reflexivity | lia].
  - apply Z.leb_gt in Ec.
    assert (i <> k).
    { intros ->. destruct Hd as [t' [Et' Ed]]. rewrite Et in Et'.
      injection Et' as <-. lia. }
    destruct (IH (i - 1)) as [j [Hj Hr]]; [|lia|exact Hd|].
    + apply (page_text_loads doc i txt Et). lia.
    + exists j. split; [exact Hj | lia].
Qed.

(** With no dense page in the range, tier 2 finds nothing. *)
Lemma dense_scan_sparse (doc : Document) (ch_num minc : Z) (n : nat) (i : Z) :
  (forall p, i - Z.of_nat n < p <= i -> sparse_at doc ch_num minc p) ->
  dense_scan doc ch_num minc n i = Ok None.
Proof.
  revert i. induction n as [|n IH]; intros i H; [reflexivity|].
  cbn [dense_scan]. destruct (H i) as [txt [Et Ec]]; [lia|].
  rewrite Et. cbn [bind]. rewrite Z.geb_leb, (proj2 (Z.leb_gt _ _)) by lia.
  apply IH. intros p Hp. apply H. lia.
Qed.

(** *** The two tiers together *)

Lemma range_len_of_range (start end_ : Z) :
  start <= end_ -> Z.of_nat (range_len start (end_ + 1)) = end_ + 1 - start.
Proof. unfold range_len. lia. Qed.

Lemma detect_exercises_start_tiers (doc : Document) (ch_num start end_ : Z)
      (title : string) (kws : list string) (minc : Z) :
  detect_exercises_start doc (ch_num, start, end_, title) kws minc
  = (found <- heading_scan doc kws (range_len start (end_ + 1)) start ;;
     match found with
     | Some i => Ok (Some i)
     | None => numbering_scan doc ch_num start kws minc
                              (range_len start (end_ + 1)) end_
     end).
Proof. reflexivity. Qed.

(** A heading anywhere in the range: the first page with one is returned,
    by tier 1. *)
Lemma detect_heading_first (doc : Document) (ch_num start end_ : Z)
      (title : string) (kws : list string) (minc : Z) (k : Z) :
  start <= k <= end_ -> heading_at doc kws k ->
  exists j,
    heading_scan doc kws (range_len start (end_ + 1)) start = Ok (Some j)
    /\ detect_exercises_start doc (ch_num, start, end_, title) kws minc = Ok (Some j)
    /\ start <= j <= k /\ heading_at doc kws j
    /\ forall p, start <= p < j -> plain_at doc kws p.
Proof.
  intros Hk Hh.
  destruct (heading_scan_reaches doc kws (range_len start (end_ + 1)) start k)
    as [j [Hj Hr]]; [rewrite range_len_of_range; lia | exact Hh |].
  exists j. rewrite detect_exercises_start_tiers, Hj. cbn [bind].
  destruct (heading_scan_some _ _ _ _ _ Hj) as [_ [Hhj Hp]]. auto.
Qed.

(** No heading in the range: tier 2 decides, and it is the scan for the
    last dense page. *)
Lemma detect_plain_range (doc : Document) (ch_num start end_ : Z)
      (title : string) (kws : list string) (minc : Z) :
  (forall p, start <= p <= end_ -> plain_at doc kws p) ->
  detect_exercises_start doc (ch_num, start, end_, title) kws minc
  = dense_scan doc ch_num minc (range_len start (end_ + 1)) end_.
Proof.
  intros Hplain. rewrite detect_exercises_start_tiers.
  rewrite heading_scan_plain.
  - cbn [bind]. apply (numbering_scan_plain doc ch_num start end_); [exact Hplain | lia].
  - intros p Hp. apply Hplain. unfold range_len in Hp. lia.
Qed.

(** *** When detection raises *)

Lemma heading_scan_returns (doc : Document) (kws : list string) (n : nat) (i : Z) :
  (forall p, i <= p < i + Z.of_nat n -> exists txt, page_text doc p = Ok txt) ->
  exists r, heading_scan doc kws n i = Ok r.
Proof.
  revert i. induction n as [|n IH]; intros i H; [now eexists|].
  cbn [heading_scan]. destruct (H i) as [txt Et]; [lia|]. rewrite Et. cbn [bind].
  destruct (page_has_heading txt kws TOP_LINES); [now eexists|].
  apply IH. intros p Hp. apply H. lia.
Qed.

Lemma numbering_scan_returns (doc : Document) (ch_num start : Z)
      (kws : list string) (minc : Z) (n : nat) (i : Z) :
  (forall p, p <= i -> exists txt, page_text doc p = Ok txt) ->
  exists r, numbering_scan doc ch_num start kws minc n i = Ok r.
Proof.
  revert i. induction n as [|n IH]; intros i H; [now eexists|].
  cbn [numbering_scan]. destruct (H i) as [txt Et]; [lia|]. rewrite Et. cbn [bind].
  destruct (_ >=? minc).
  - destruct (i - 1 >=? start); [|now eexists].
    destruct (H (i - 1)) as [prev Ep]; [lia|]. rewrite Ep. cbn [bind].
    destruct (page_has_heading prev kws TOP_LINES); now eexists.
  - apply IH. intros p Hp. apply H. lia.
Qed.

(** Detection raises only when the last page of the range does not load. *)
Lemma detect_raise_end (doc : Document) (ch_num start end_ : Z) (title : string)
      (kws : list string) (minc : Z) :
  detect_exercises_start doc (ch_num, start, end_, title) kws minc = Raise ->
  start <= end_ /\ page_text doc end_ = Raise.
Proof.
  intros H. destruct (Z_le_gt_dec start end_) as [Hle | Hgt].
  - split; [exact Hle|].
    destruct (page_text doc end_) as [txt|] eqn:Et; [exfalso | reflexivity].
    pose proof (page_text_loads doc end_ txt Et) as Hloads.
    rewrite detect_exercises_start_tiers in H.
    destruct (heading_scan_returns doc kws (range_len start (end_ + 1)) start)
      as [r Hr].
    { intros p Hp. apply Hloads. rewrite range_len_of_range in Hp; lia. }
    rewrite Hr in H. cbn [bind] in H. destruct r as [j|]; [discriminate|].
    destruct (numbering_scan_returns doc ch_num start kws minc
                (range_len start (end_ + 1)) end_ Hloads) as [r' Hr'].
    congruence.
  - exfalso. rewrite detect_exercises_start_tiers in H.
    unfold range_len in H. replace (Z.to_nat (end_ + 1 - start)) with O in H by lia.
    discriminate.
Qed.

(** It raises at once when the first page of the range does not load. *)
Lemma detect_raise_start (doc : Document) (ch_num start end_ : Z) (title : string)
      (kws : list string) (minc : Z) :
  start <= end_ -> page_text doc start = Raise ->
  detect_exercises_start doc (ch_num, start, end_, title) kws minc = Raise.
Proof.
  intros Hle Hs. rewrite detect_exercises_start_tiers.
  destruct (range_len start (end_ + 1)) as [|n] eqn:E.
  - unfold range_len in E. lia.
  - cbn [heading_scan]. now rewrite Hs.
Qed.

(** *** The loop of [main] over the chapters *)

Lemma chapters_loop_keeps_log (doc : Document) (args : Args)
      (ranges : list ChapterRange) (log : list Event) (e : Event) :
  In e log -> In e (log_of (chapters_loop doc args ranges log)).
Proof.
  revert log. induction ranges as [|[[[ch sp] ep] title] ranges IH]; intros log He;
    [exact He|].
  cbn [chapters_loop]. destruct (detect_exercises_start _ _ _ _) as [[s|]|];
    [apply IH, in_or_app; now left | apply IH, in_or_app; now left | exact He].
Qed.

Lemma chapters_loop_no_exit (doc : Document) (args : Args)
      (ranges : list ChapterRange) (log : list Event) (code : Z) :
  chapters_loop doc args ranges log <> SysExit code.
Proof.
  revert log. induction ranges as [|[[[ch sp] ep] title] ranges IH]; intros log;
    [discriminate|].
  cbn [chapters_loop]. destruct (detect_exercises_start _ _ _ _) as [[s|]|];
    [apply IH | apply IH | discriminate].
Qed.

(** Without an exception the loop ends and [main] returns. *)
Lemma chapters_loop_returns (doc : Document) (args : Args)
      (ranges : list ChapterRange) (log : list Event) :
  (forall r, In r ranges ->
     detect_exercises_start doc r (keywords args) (min_num_count args) <> Raise) ->
  exists log', chapters_loop doc args ranges log = Returned log'.
Proof.
  revert log. induction ranges as [|[[[ch sp] ep] title] ranges IH]; intros log H;
    [now eexists|].
  cbn [chapters_loop].
  pose proof (H (ch, sp, ep, title) (or_introl eq_refl)) as Hr.
  destruct (detect_exercises_start _ _ _ _) as [[s|]|];
    [apply IH | apply IH | congruence]; intros r Hin; apply H; now right.
Qed.

(** Every file written is the file of a chapter with a detected start. *)
Lemma chapters_loop_files (doc : Document) (args : Args)
      (ranges : list ChapterRange) (log : list Event) (f : string) (s e : Z) :
  In (WroteFile f s e) (log_of (chapters_loop doc args ranges log)) ->
  In (WroteFile f s e) log
  \/ exists ch sp title,
       In (ch, sp, e, title) ranges
       /\ detect_exercises_start doc (ch, sp, e, title) (keywords args)
                                 (min_num_count args) = Ok (Some s)
       /\ f = outfile_name (stem args) ch title.
Proof.
  revert log. induction ranges as [|[[[ch sp] ep] title] ranges IH]; intros log H;
    [now left|].
  cbn [chapters_loop] in H.
  destruct (detect_exercises_start doc (ch, sp, ep, title) _ _) as [[s'|]|] eqn:Ed.
  - destruct (IH _ H) as [Hin | [ch' [sp' [t' [Hin [Hd Hf]]]]]].
    + apply in_app_or in Hin. destruct Hin as [Hin | [Heq | []]]; [now left|].
      injection Heq as <- <- <-. right. exists ch, sp, title.
      split; [now left | now split].
    + right. exists ch', sp', t'. split; [now right | now split].
  - destruct (IH _ H) as [Hin | [ch' [sp' [t' [Hin [Hd Hf]]]]]].
    + apply in_app_or in Hin. destruct Hin as [Hin | [Heq | []]]; [now left|].
      discriminate.
    + right. exists ch', sp', t'. split; [now right | now split].
  - now left.
Qed.

Lemma tiles_blocks (lo hi : Z) (rs : list ChapterRange) :
  tiles lo rs hi -> forall r, In r rs -> range_start r <= range_end r.
Proof.
  induction 1 as [q | ch sp ep title rs hi Hle Ht IH]; intros r Hr; [contradiction|].
  destruct Hr as [<- | Hr]; [exact Hle | now apply IH].
Qed.

Lemma tiles_from (lo hi : Z) (rs : list ChapterRange) :
  tiles lo rs hi -> forall r, In r rs -> lo <= range_start r.
Proof.
  intros Ht r Hr. pose proof (tiles_blocks _ _ _ Ht r Hr) as Hb.
  assert (Hc : covers r (range_start r)) by (unfold covers; lia).
  pose proof (tiles_within _ _ _ Ht r _ Hr Hc). lia.
Qed.

(** Over consecutive blocks an exception leaves no later chapter behind
    that would have been detected: every chapter whose detection returns
    has its line in the log. *)
Lemma chapters_loop_reports (doc : Document) (args : Args) (lo hi : Z)
      (ranges : list ChapterRange) :
  tiles lo ranges hi ->
  forall log ch sp ep title, In (ch, sp, ep, title) ranges ->
    match detect_exercises_start doc (ch, sp, ep, title) (keywords args)
                                 (min_num_count args) with
    | Ok None =>
        In (Warn ch sp ep title) (log_of (chapters_loop doc args ranges log))
    | Ok (Some s) =>
        In (WroteFile (outfile_name (stem args) ch title) s ep)
           (log_of (chapters_loop doc args ranges log))
    | Raise => True
    end.
Proof.
  induction 1 as [q | ch0 sp0 ep0 t0 rs hi Hle Ht IH]; intros log ch sp ep title Hin;
    [contradiction|].
  destruct Hin as [Heq | Hin].
  - injection Heq as <- <- <- <-. cbn [chapters_loop].
    destruct (detect_exercises_start doc (ch0, sp0, ep0, t0) _ _) as [[s|]|];
      [| |exact I]; apply chapters_loop_keeps_log, in_or_app; right; now left.
  - destruct (detect_exercises_start doc (ch, sp, ep, title) _ _) as [[s|]|] eqn:Ed;
      [| |exact I]; cbn [chapters_loop];
      destruct (detect_exercises_start doc (ch0, sp0, ep0, t0) _ _) as [[s0|]|] eqn:Ed0.
    1,2,4,5: match goal with
             | |- context [chapters_loop _ _ _ ?l] =>
                 specialize (IH l ch sp ep title Hin); rewrite Ed in IH; exact IH
             end.
    all: exfalso; apply detect_raise_end in Ed0; destruct Ed0 as [_ Hraise];
      pose proof (tiles_from _ _ _ Ht _ Hin) as Hfrom;
      pose proof (tiles_blocks _ _ _ Ht _ Hin) as Hblock;
      unfold range_start, range_end in Hfrom, Hblock; cbn [fst snd] in Hfrom, Hblock;
      destruct (page_text doc sp) as [txt|] eqn:Es;
      [ destruct (page_text_loads doc sp txt Es ep0) as [t' Ht']; [lia | congruence]
      | rewrite (detect_raise_start doc ch sp ep title _ _ Hblock Es) in Ed;
        discriminate ].
Qed.

Lemma build_chapter_ranges_nil (total_pages : Z) :
  build_chapter_ranges [] total_pages = [].
Proof. reflexivity. Qed.

(** With ranges to work on, [main] is its loop over them. *)
Lemma main_runs_loop (doc : Document) (args : Args) :
  build_chapter_ranges (chapter_starts doc) (page_count doc) <> [] ->
  main doc args
  = chapters_loop doc args
      (build_chapter_ranges (chapter_starts doc) (page_count doc)) [].
Proof.
  intros Hne. unfold main.
  destruct (chapter_starts doc) as [|s starts] eqn:Es; [now elim Hne|].
  cbn [is_nil].
  destruct (build_chapter_ranges (s :: starts) (page_count doc)); [now elim Hne|].
  reflexivity.
Qed.

(** *** The page scan *)

(** Every start the scan records is a page of the document. *)
Lemma scan_pages_within (pages : list string) (i lo : Z) (starts : list (Z * (Z * Z * string))) :
  lo <= i ->
  Forall (fun kv => lo <= page_of (snd kv) < i) starts ->
  Forall (fun kv => lo <= page_of (snd kv) < i + Z.of_nat (List.length pages))
         (scan_pages pages i starts).
Proof.
  revert i starts. induction pages as [|txt pages IH]; intros i starts Hi Hall.
  - simpl. eapply Forall_impl; [|exact Hall]. simpl. intros kv H. lia.
  - cbn [scan_pages List.length].
    replace (i + Z.of_nat (S (List.length pages)))
      with (i + 1 + Z.of_nat (List.length pages)) by lia.
    apply IH; [lia|]. unfold scan_page.
    destruct (first_heading _) as [[ch ln]|].
    + destruct (dict_has ch starts).
      * eapply Forall_impl; [|exact Hall]. simpl. intros kv H. lia.
      * apply Forall_app. split.
        -- eapply Forall_impl; [|exact Hall]. simpl. intros kv H. lia.
        -- constructor; [|constructor]. unfold_ranges. lia.
    + eapply Forall_impl; [|exact Hall]. simpl. intros kv H. lia.
Qed.

Lemma scan_for_chapter_starts_within (doc : Document) :
  Forall (fun s => 0 <= page_of s <= page_count doc - 1)
         (scan_for_chapter_starts doc).
Proof.
  unfold scan_for_chapter_starts.
  destruct (is_nil _); [constructor|].
  apply (Permutation_Forall (Permutation_sym (stable_sort_perm _ _))).
  unfold dict_values. apply Forall_map.
  pose proof (scan_pages_within (page_texts doc) 0 0 [] (Z.le_refl 0) (Forall_nil _)) as H.
  eapply Forall_impl; [|exact H]. unfold page_count. simpl. intros kv Hkv. lia.
Qed.

(* ================================================================== *)
(** ** The properties of the specification *)

(** *** Range construction *)

(** C1: the ranges built from detected starts are consecutive blocks
    without overlap.  [split_pdf_chapters.py] breaks this after the page
    scan: the scan orders the starts by chapter number, [build_ranges]
    takes the next entry of the list for the next chapter in page order,
    and here page 1 lies in the range of chapter 1 and in that of chapter
    3 while chapter 2 is lost; [main] writes these two files.
    [build_chapter_ranges] of [extract_exercises.py], which sorts by page,
    gives consecutive blocks on the same starts. *)
Theorem C1_build_ranges_overlap_after_scan :
  let doc := misnumbered_book in
  let starts := SplitPdfChapters.detect_chapters_by_scanning doc in
  let ranges := SplitPdfChapters.build_ranges starts (page_count doc) in
  SplitPdfChapters.detect_chapters_by_toc doc = []
  /\ starts = [ (1, 0, "Chapter 1 Sets"); (2, 2, "Chapter 2 Groups");
                (3, 1, "3 Proofs of the main results") ]
  /\ ranges = [ (1, 0, 1, "Chapter 1 Sets");
                (3, 1, 3, "3 Proofs of the main results") ]
  /\ (exists r1 r2, nth_error ranges 0 = Some r1 /\ nth_error ranges 1 = Some r2
                    /\ covers r1 1 /\ covers r2 1)
  /\ SplitPdfChapters.main "Book" doc
     = SplitPdfChapters.Wrote
         [ ("Book_Chapter-01_Chapter-1-Sets.pdf", 0, 1);
           ("Book_Chapter-03_3-Proofs-of-the-main-results.pdf", 1, 3) ]
  /\ ExtractExercises.build_chapter_ranges starts (page_count doc)
     = [ (1, 0, 0, "Chapter 1 Sets"); (3, 1, 1, "3 Proofs of the main results");
         (2, 2, 3, "Chapter 2 Groups") ].
Proof.
  repeat split; try reflexivity.
  exists (1, 0, 1, "Chapter 1 Sets"), (3, 1, 3, "3 Proofs of the main results").
  repeat split; try reflexivity; unfold_ranges; lia.
Qed.

(** C5: for starts in ascending page order, each range ends one page before
    the next start, the last range ends at the last page of the document,
    and exactly the ranges whose end would come before their start are
    left out; starts at pages 0, 10 and 25 of a 30-page document give the
    ranges 0-9, 10-24 and 25-29. *)
Theorem C5_range_construction (starts : list ChapterStart) (total_pages : Z) :
  sorted_by_page starts ->
  SplitPdfChapters.build_ranges starts total_pages
  = contiguous_ranges starts total_pages
  /\ ExtractExercises.build_chapter_ranges starts total_pages
     = contiguous_ranges starts total_pages
  /\ (forall ch1 ch2 ch3 t1 t2 t3,
        let three := [(ch1, 0, t1); (ch2, 10, t2); (ch3, 25, t3)] in
        let expected := [(ch1, 0, 9, t1); (ch2, 10, 24, t2); (ch3, 25, 29, t3)] in
        SplitPdfChapters.build_ranges three 30 = expected
        /\ ExtractExercises.build_chapter_ranges three 30 = expected).
Proof.
  intros Hs. split; [apply build_ranges_contiguous|]. split.
  - rewrite build_chapter_ranges_contiguous. now rewrite sort_by_page_of_sorted.
  - intros. split; reflexivity.
Qed.

Lemma C5_witness :
  sorted_by_page [(1, 0, "Sets"); (2, 10, "Groups"); (3, 10, "Rings"); (4, 25, "Fields")]
  /\ SplitPdfChapters.build_ranges
       [(1, 0, "Sets"); (2, 10, "Groups"); (3, 10, "Rings"); (4, 25, "Fields")] 30
     = [(1, 0, 9, "Sets"); (3, 10, 24, "Rings"); (4, 25, 29, "Fields")].
Proof.
  assert (Hs : sorted_by_page
                 [(1, 0, "Sets"); (2, 10, "Groups"); (3, 10, "Rings"); (4, 25, "Fields")])
    by (repeat constructor; unfold page_le, page_of; simpl; lia).
  split; [exact Hs|].
  rewrite (proj1 (C5_range_construction _ 30 Hs)). reflexivity.
Defined.

(** C10: non-empty starts whose pages are all at most the last page of the
    document give at least one range, so that [main] does not take the
    exit "Could not build chapter ranges". *)
Theorem C10_ranges_not_empty (starts : list ChapterStart) (total_pages : Z) :
  starts <> [] ->
  Forall (fun s => page_of s <= total_pages - 1) starts ->
  ExtractExercises.build_chapter_ranges starts total_pages <> []
  /\ SplitPdfChapters.build_ranges starts total_pages <> []
  /\ (forall doc args,
        ExtractExercises.chapter_starts doc = starts ->
        page_count doc = total_pages ->
        ExtractExercises.main doc args <> ExtractExercises.SysExit 3).
Proof.
  intros Hne Hall.
  assert (H1 : ExtractExercises.build_chapter_ranges starts total_pages <> []).
  { rewrite build_chapter_ranges_contiguous. apply contiguous_ranges_nonempty.
    - intros E. apply stable_sort_nil_iff in E. contradiction.
    - apply last_page_bound.
      + intros E. apply stable_sort_nil_iff in E. contradiction.
      + apply (Permutation_Forall (Permutation_sym (stable_sort_perm by_page starts))).
        exact Hall. }
  split; [exact H1|]. split.
  - rewrite build_ranges_contiguous. apply contiguous_ranges_nonempty; [exact Hne|].
    now apply last_page_bound.
  - intros doc args Hst Hpc. rewrite main_runs_loop.
    + apply chapters_loop_no_exit.
    + now rewrite Hst, Hpc.
Qed.

Lemma C10_witness :
  ExtractExercises.build_chapter_ranges [(2, 3, "Groups"); (1, 3, "Sets")] 4 <> []
  /\ SplitPdfChapters.build_ranges [(2, 3, "Groups"); (1, 3, "Sets")] 4 <> [].
Proof.
  assert (Hne : [(2, 3, "Groups"); (1, 3, "Sets")] <> []) by discriminate.
  assert (Hall : Forall (fun s => page_of s <= 4 - 1)
                        [(2, 3, "Groups"); (1, 3, "Sets")])
    by (repeat constructor; unfold page_of; simpl; lia).
  destruct (C10_ranges_not_empty _ 4 Hne Hall) as [H1 [H2 _]].
  split; [exact H1 | exact H2].
Defined.

(** After the page scan the starts are pages of the document, and [main]
    never takes that exit. *)
Lemma main_after_scan_builds_ranges (doc : Document) (args : ExtractExercises.Args) :
  (List.length (ExtractExercises.get_toc_chapter_starts doc) < 2)%nat ->
  ExtractExercises.main doc args <> ExtractExercises.SysExit 3.
Proof.
  intros Hfew.
  assert (Hst : chapter_starts doc = scan_for_chapter_starts doc).
  { unfold chapter_starts. now rewrite (proj2 (Nat.ltb_lt _ _) Hfew). }
  destruct (chapter_starts doc) as [|s l] eqn:Es.
  - unfold main. rewrite Es. discriminate.
  - rewrite main_runs_loop; [apply chapters_loop_no_exit|].
    rewrite Es. rewrite build_chapter_ranges_contiguous.
    apply contiguous_ranges_nonempty.
    + intros E. apply stable_sort_nil_iff in E. discriminate.
    + apply last_page_bound.
      * intros E. apply stable_sort_nil_iff in E. discriminate.
      * apply (Permutation_Forall (Permutation_sym (stable_sort_perm by_page _))).
        rewrite Hst. eapply Forall_impl; [|apply scan_for_chapter_starts_within].
        simpl. intros a Ha. lia.
Qed.

(** *** Chapter starts from the outline *)

Lemma NoDup_map_inj {A B} (f : A -> B) (l : list A) (a b : A) :
  NoDup (map f l) -> In a l -> In b l -> f a = f b -> a = b.
Proof.
  induction l as [|x l IH]; intros Hnd Ha Hb Hf; [contradiction|].
  simpl in Hnd. inversion Hnd as [|? ? Hnotin Hnd']; subst.
  destruct Ha as [-> | Ha], Hb as [-> | Hb]; auto.
  - exfalso. apply Hnotin. rewrite Hf. now apply in_map.
  - exfalso. apply Hnotin. rewrite <- Hf. now apply in_map.
Qed.

(** C2, as stated: of two top-level entries with the same chapter number
    the one with the lowest page index is retained.  It fails when the
    entry that comes later in the outline points to the earlier page. *)
Lemma C2_counterexample :
  ~ (forall (doc : Document) (e1 e2 : TocEntry) (n : Z),
       In e1 (top_level (get_toc doc)) -> In e2 (top_level (get_toc doc)) ->
       declared_number e1 = Some n -> declared_number e2 = Some n ->
       snd e1 < snd e2 ->
       In (start_of_entry n e1) (ExtractExercises.get_toc_chapter_starts doc)
       /\ ~ In (start_of_entry n e2) (ExtractExercises.get_toc_chapter_starts doc)).
Proof.
  intros H.
  destruct (H outline_out_of_page_order (1, "Chapter 1", 5) (1, "Chapter 1", 10) 1)
    as [_ Hnot].
  - simpl. tauto.
  - simpl. tauto.
  - reflexivity.
  - reflexivity.
  - simpl. lia.
  - apply Hnot. vm_compute. tauto.
Qed.

(** C2, amended: of two top-level entries that resolve to the same chapter
    number, the one that comes first in the outline is retained (when no
    entry before it took the number) and it is the only start with that
    number; the later one is discarded, whatever the pages they point to:
    the detector gives what it gives for the outline without it. *)
Theorem C2_first_in_outline_retained
        (pages : list string) (pre mid post : list TocEntry) (e1 e2 : TocEntry) (n : Z) :
  fst (fst e1) = 1 -> fst (fst e2) = 1 ->
  resolved_number (fst (toc_loop pre)) e1 = n ->
  resolved_number (fst (toc_loop (pre ++ e1 :: mid))) e2 = n ->
  ~ In n (snd (toc_loop pre)) ->
  let doc := mkDocument (pre ++ e1 :: mid ++ e2 :: post) pages in
  let out := ExtractExercises.get_toc_chapter_starts doc in
  In (start_of_entry n e1) out
  /\ (forall c, In c out -> chapter_of c = n -> c = start_of_entry n e1)
  /\ out = ExtractExercises.get_toc_chapter_starts
             (mkDocument (pre ++ e1 :: mid ++ post) pages)
  /\ SplitPdfChapters.detect_chapters_by_toc doc = out.
Proof.
  intros Hl1 Hl2 Hr1 Hr2 Hfresh doc out.
  (* the state after [e1] *)
  assert (Hstep1 : fold_left ExtractExercises.toc_step [e1] (toc_loop pre)
                   = (fst (toc_loop pre) ++ [start_of_entry n e1],
                      n :: snd (toc_loop pre))).
  { cbn [fold_left]. destruct (toc_loop pre) as [chapters seen] eqn:Est.
    rewrite toc_step_cases. simpl in Hr1, Hfresh. rewrite Hr1, Hl1. cbn [Z.eqb Pos.eqb negb].
    destruct (existsb (Z.eqb n) seen) eqn:Ex; [|reflexivity].
    apply existsb_eqb_In in Ex. contradiction. }
  (* the state before [e2] has seen [n] *)
  assert (Hbefore : toc_loop (pre ++ e1 :: mid)
                    = fold_left ExtractExercises.toc_step mid
                        (fst (toc_loop pre) ++ [start_of_entry n e1],
                         n :: snd (toc_loop pre))).
  { unfold toc_loop. rewrite fold_left_app.
    change (e1 :: mid) with ([e1] ++ mid). rewrite fold_left_app.
    fold (toc_loop pre). now rewrite Hstep1. }
  assert (Hseen : In n (snd (toc_loop (pre ++ e1 :: mid)))).
  { rewrite Hbefore. apply toc_fold_grows. now left. }
  assert (Hkept : In (start_of_entry n e1) (fst (toc_loop (pre ++ e1 :: mid)))).
  { rewrite Hbefore. apply toc_fold_grows. simpl. apply in_or_app. right. now left. }
  (* [e2] changes nothing *)
  assert (Hskip : toc_loop (pre ++ e1 :: mid ++ e2 :: post)
                  = toc_loop (pre ++ e1 :: mid ++ post)).
  { unfold toc_loop.
    replace (pre ++ e1 :: mid ++ e2 :: post)
      with ((pre ++ e1 :: mid) ++ e2 :: post) by (rewrite <- app_assoc; reflexivity).
    replace (pre ++ e1 :: mid ++ post)
      with ((pre ++ e1 :: mid) ++ post) by (rewrite <- app_assoc; reflexivity).
    rewrite (fold_left_app ExtractExercises.toc_step (pre ++ e1 :: mid) (e2 :: post)).
    rewrite (fold_left_app ExtractExercises.toc_step (pre ++ e1 :: mid) post).
    cbn [fold_left].
    change (fold_left ExtractExercises.toc_step (pre ++ e1 :: mid) ([], []))
      with (toc_loop (pre ++ e1 :: mid)).
    clear Hbefore Hkept. revert Hr2 Hseen.
    destruct (toc_loop (pre ++ e1 :: mid)) as [chapters seen]. cbn [fst snd].
    intros Hr2 Hseen. rewrite toc_step_seen; [reflexivity|]. now rewrite Hr2. }
  assert (Hin : In (start_of_entry n e1) out).
  { unfold out. rewrite get_toc_chapter_starts_loop. cbn [get_toc doc].
    apply (Permutation_in _ (Permutation_sym (stable_sort_perm by_page _))).
    rewrite Hskip. unfold toc_loop.
    replace (pre ++ e1 :: mid ++ post)
      with ((pre ++ e1 :: mid) ++ post) by (rewrite <- app_assoc; reflexivity).
    rewrite fold_left_app. apply toc_fold_grows. exact Hkept. }
  split; [exact Hin|]. split; [|split].
  - intros c Hc Hn.
    apply (NoDup_map_inj chapter_of out); auto.
    apply get_toc_chapter_starts_NoDup.
  - unfold out. rewrite !get_toc_chapter_starts_loop. cbn [get_toc doc].
    now rewrite Hskip.
  - apply detect_chapters_by_toc_same.
Qed.

Lemma C2_witness :
  let doc := mkDocument [ (1, "Preface", 1); (1, "Chapter 2 Groups", 30);
                          (2, "2.1 Subgroups", 31); (1, "Chapter 2 again", 12) ] [] in
  In (2, 29, "Chapter 2 Groups") (ExtractExercises.get_toc_chapter_starts doc)
  /\ ExtractExercises.get_toc_chapter_starts doc
     = ExtractExercises.get_toc_chapter_starts
         (mkDocument [ (1, "Preface", 1); (1, "Chapter 2 Groups", 30);
                       (2, "2.1 Subgroups", 31) ] []).
Proof.
  destruct (C2_first_in_outline_retained []
              [(1, "Preface", 1)] [(2, "2.1 Subgroups", 31)] []
              (1, "Chapter 2 Groups", 30) (1, "Chapter 2 again", 12) 2)
    as [H1 [_ [H3 _]]]; try reflexivity.
  - vm_compute. intros [H | []]. discriminate.
  - split; [exact H1 | exact H3].
Defined.

(** C6: when each of the N top-level entries of the outline declares a
    chapter number in its title and the numbers differ, the outline
    detector returns N starts, in ascending page order, whose numbers are
    the declared ones. *)
Theorem C6_distinct_outline_entries (doc : Document) :
  let tops := top_level (get_toc doc) in
  Forall (fun e => declared_number e <> None) tops ->
  NoDup (map declared_number tops) ->
  let out := ExtractExercises.get_toc_chapter_starts doc in
  List.length out = List.length tops
  /\ sorted_by_page out
  /\ Permutation (map (fun c => Some (chapter_of c)) out) (map declared_number tops)
  /\ Permutation out (map (fun e => start_of_entry (resolved_number [] e) e) tops)
  /\ SplitPdfChapters.detect_chapters_by_toc doc = out.
Proof.
  intros tops Hall Hnd out.
  assert (Hout : out = stable_sort by_page
                         (map (fun e => start_of_entry (resolved_number [] e) e) tops)).
  { unfold out. rewrite get_toc_chapter_starts_loop. unfold toc_loop.
    rewrite (toc_fold_distinct (get_toc doc) [] []); auto. }
  assert (Hperm : Permutation out
                    (map (fun e => start_of_entry (resolved_number [] e) e) tops)).
  { rewrite Hout. apply stable_sort_perm. }
  split; [|split; [|split; [|split]]].
  - rewrite (Permutation_length Hperm). apply length_map.
  - rewrite Hout. apply sort_by_page_sorted.
  - rewrite (Permutation_map (fun c => Some (chapter_of c)) Hperm).
    rewrite map_map. apply Permutation_refl'.
    apply map_ext_in. intros e He.
    pose proof (proj1 (Forall_forall _ _) Hall e He) as Hsome.
    unfold resolved_number, start_of_entry, chapter_of. cbn [fst snd].
    cbv beta in Hsome. destruct (declared_number e); [reflexivity | congruence].
  - exact Hperm.
  - apply detect_chapters_by_toc_same.
Qed.

Lemma C6_witness :
  let doc := mkDocument [ (1, "Chapter 2 Groups", 30); (2, "2.1 Subgroups", 31);
                          (1, "1 Sets", 4); (1, "CHAPTER 10: Fields", 90) ] [] in
  ExtractExercises.get_toc_chapter_starts doc
  = [ (1, 3, "1 Sets"); (2, 29, "Chapter 2 Groups"); (10, 89, "CHAPTER 10: Fields") ]
  /\ List.length (ExtractExercises.get_toc_chapter_starts doc) = 3%nat
  /\ sorted_by_page (ExtractExercises.get_toc_chapter_starts doc).
Proof.
  intros doc.
  assert (Hall : Forall (fun e => declared_number e <> None) (top_level (get_toc doc)))
    by (repeat constructor; discriminate).
  assert (Hnd : NoDup (map declared_number (top_level (get_toc doc)))).
  { repeat constructor; vm_compute; intuition discriminate. }
  destruct (C6_distinct_outline_entries doc Hall Hnd) as [H1 [H2 _]].
  split; [reflexivity|]. split; [exact H1 | exact H2].
Defined.

(** *** Exercise boundary detection *)

(** C4: when a page of the chapter range has a keyword at the start of one
    of its leading lines, detection returns the first such page in forward
    order; tier 1 returns it, and neither the chapter number, the minimum
    count, the pages after it nor the end of the range change the result. *)
Theorem C4_first_heading_page (doc : Document) (ch_num start end_ : Z)
        (title : string) (kws : list string) (minc : Z) (k : Z) :
  start <= k <= end_ -> heading_at doc kws k ->
  exists j,
    start <= j <= k
    /\ heading_at doc kws j
    /\ (forall p, start <= p < j -> plain_at doc kws p)
    /\ heading_scan doc kws (range_len start (end_ + 1)) start = Ok (Some j)
    /\ detect_exercises_start doc (ch_num, start, end_, title) kws minc = Ok (Some j)
    /\ (forall doc' ch_num' end' title' minc',
          j <= end' ->
          (forall p, start <= p <= j -> page_text doc' p = page_text doc p) ->
          detect_exercises_start doc' (ch_num', start, end', title') kws minc'
          = Ok (Some j)).
Proof.
  intros Hk Hh.
  destruct (detect_heading_first doc ch_num start end_ title kws minc k Hk Hh)
    as [j [Hscan [Hdet [Hj [Hhj Hplain]]]]].
  exists j. repeat (split; [assumption || lia|]).
  intros doc' ch_num' end' title' minc' Hend Hsame.
  rewrite detect_exercises_start_tiers.
  rewrite (heading_scan_depends doc doc' kws _ (range_len start (end' + 1)) start j Hscan);
    [reflexivity | exact Hsame |].
  rewrite range_len_of_range; lia.
Qed.

Lemma C4_witness :
  detect_exercises_start chapter_with_heading (7, 0, 3, "Chapter 7 Series")
                         DEFAULT_KEYWORDS 2 = Ok (Some 2).
Proof.
  assert (Hk : 0 <= 3 <= 3) by lia.
  assert (Hh : heading_at chapter_with_heading DEFAULT_KEYWORDS 3)
    by (eexists; split; reflexivity).
  destruct (C4_first_heading_page chapter_with_heading 7 0 3 "Chapter 7 Series"
              DEFAULT_KEYWORDS 2 3 Hk Hh) as [j [_ [_ [_ [_ [Hdet _]]]]]].
  rewrite Hdet. vm_compute in Hdet. symmetry. exact Hdet.
Defined.

(** C3, as stated: in a range without keyword heading the last page with
    enough numbered lines is returned, and the page before it instead when
    that page has a keyword heading.  The second half fails: such a page
    can only lie before the range, and it is not returned. *)
Lemma C3_counterexample :
  ~ (forall (doc : Document) (ch_num start end_ : Z) (title : string)
            (kws : list string) (minc : Z) (k : Z),
       (forall p, start <= p <= end_ -> plain_at doc kws p) ->
       start <= k <= end_ ->
       dense_at doc ch_num minc k ->
       (forall p, k < p <= end_ -> sparse_at doc ch_num minc p) ->
       heading_at doc kws (k - 1) ->
       detect_exercises_start doc (ch_num, start, end_, title) kws minc
       = Ok (Some (k - 1))).
Proof.
  intros H.
  assert (Hplain : forall p, 1 <= p <= 1 ->
                             plain_at heading_before_range DEFAULT_KEYWORDS p).
  { intros p Hp. replace p with 1 by lia. eexists. split; reflexivity. }
  assert (Hdense : dense_at heading_before_range 7 2 1)
    by (eexists; split; [reflexivity | vm_compute; discriminate]).
  assert (Hlast : forall p, 1 < p <= 1 -> sparse_at heading_before_range 7 2 p)
    by (intros p Hp; lia).
  assert (Hprev : heading_at heading_before_range DEFAULT_KEYWORDS (1 - 1))
    by (eexists; split; reflexivity).
  assert (Hk : 1 <= 1 <= 1) by lia.
  specialize (H heading_before_range 7 1 1 "Chapter 7 Series" DEFAULT_KEYWORDS 2 1
                Hplain Hk Hdense Hlast Hprev).
  (* the code returns page 1 *)
  vm_compute in H. discriminate H.
Qed.

(** C3, amended: in a range whose pages all load without keyword heading
    and of which some page has at least the minimum of numbered lines,
    detection returns the last such page of the range; a keyword heading
    on the page before it is then on a page before the start of the range,
    which is not returned. *)
Theorem C3_last_dense_page (doc : Document) (ch_num start end_ : Z)
        (title : string) (kws : list string) (minc : Z) (k : Z) :
  (forall p, start <= p <= end_ -> plain_at doc kws p) ->
  start <= k <= end_ ->
  dense_at doc ch_num minc k ->
  exists j,
    detect_exercises_start doc (ch_num, start, end_, title) kws minc = Ok (Some j)
    /\ k <= j <= end_
    /\ dense_at doc ch_num minc j
    /\ (forall p, j < p <= end_ -> sparse_at doc ch_num minc p)
    /\ (heading_at doc kws (j - 1) -> j = start).
Proof.
  intros Hplain Hk Hd. rewrite (detect_plain_range doc ch_num start end_ title kws minc Hplain).
  destruct (dense_scan_reaches doc ch_num minc (range_len start (end_ + 1)) end_ k)
    as [j [Hj Hr]].
  - destruct (Hplain end_) as [txt [Et _]]; [lia | now exists txt].
  - rewrite range_len_of_range; lia.
  - exact Hd.
  - exists j. destruct (dense_scan_some _ _ _ _ _ _ Hj) as [_ [Hdj Hsp]].
    repeat (split; [assumption || lia|]).
    intros Hh. destruct (Z.eq_dec j start) as [E | Hne]; [exact E | exfalso].
    apply (heading_not_plain doc kws (j - 1) Hh). apply Hplain. lia.
Qed.

Lemma C3_witness :
  detect_exercises_start chapter_without_heading (7, 0, 3, "Chapter 7 Series")
                         DEFAULT_KEYWORDS 2 = Ok (Some 2).
Proof.
  assert (Hplain : forall p, 0 <= p <= 3 ->
                             plain_at chapter_without_heading DEFAULT_KEYWORDS p).
  { intros p Hp.
    assert (Hcases : p = 0 \/ p = 1 \/ p = 2 \/ p = 3) by lia.
    destruct Hcases as [-> | [-> | [-> | ->]]]; eexists; split; reflexivity. }
  assert (Hk : 0 <= 1 <= 3) by lia.
  assert (Hd : dense_at chapter_without_heading 7 2 1)
    by (eexists; split; [reflexivity | vm_compute; discriminate]).
  destruct (C3_last_dense_page chapter_without_heading 7 0 3 "Chapter 7 Series"
              DEFAULT_KEYWORDS 2 1 Hplain Hk Hd) as [j [Hdet _]].
  rewrite Hdet. vm_compute in Hdet. symmetry. exact Hdet.
Defined.

(** C9: when tier 2 runs, that is when tier 1 has found no heading in the
    range, the page before a dense page is a page of the range that tier 1
    has found plain; the look at it finds nothing, tier 2 is the scan for
    the last dense page, and the page returned is dense itself. *)
Theorem C9_preceding_page_never_preferred (doc : Document) (ch_num start end_ : Z)
        (title : string) (kws : list string) (minc : Z) :
  heading_scan doc kws (range_len start (end_ + 1)) start = Ok None ->
  (forall i, start <= i - 1 -> i <= end_ -> ~ heading_at doc kws (i - 1))
  /\ numbering_scan doc ch_num start kws minc (range_len start (end_ + 1)) end_
     = dense_scan doc ch_num minc (range_len start (end_ + 1)) end_
  /\ detect_exercises_start doc (ch_num, start, end_, title) kws minc
     = dense_scan doc ch_num minc (range_len start (end_ + 1)) end_
  /\ (forall r, detect_exercises_start doc (ch_num, start, end_, title) kws minc
                = Ok (Some r) ->
                dense_at doc ch_num minc r).
Proof.
  intros Hnone.
  assert (Hplain : forall p, start <= p <= end_ -> plain_at doc kws p).
  { intros p Hp. apply (heading_scan_none _ _ _ _ Hnone).
    rewrite range_len_of_range; lia. }
  assert (Hdet : detect_exercises_start doc (ch_num, start, end_, title) kws minc
                 = dense_scan doc ch_num minc (range_len start (end_ + 1)) end_)
    by now apply detect_plain_range.
  split; [|split; [|split]].
  - intros i Hlo Hhi Hh. apply (heading_not_plain doc kws (i - 1) Hh).
    apply Hplain. lia.
  - apply (numbering_scan_plain doc ch_num start end_); [exact Hplain | lia].
  - exact Hdet.
  - intros r Hr. rewrite Hdet in Hr. now apply dense_scan_some in Hr.
Qed.

Lemma C9_witness :
  numbering_scan chapter_without_heading 7 0 DEFAULT_KEYWORDS 2
                 (range_len 0 (3 + 1)) 3
  = dense_scan chapter_without_heading 7 2 (range_len 0 (3 + 1)) 3
  /\ dense_scan chapter_without_heading 7 2 (range_len 0 (3 + 1)) 3 = Ok (Some 2).
Proof.
  assert (Hnone : heading_scan chapter_without_heading DEFAULT_KEYWORDS
                               (range_len 0 (3 + 1)) 0 = Ok None)
    by reflexivity.
  destruct (C9_preceding_page_never_preferred chapter_without_heading 7 0 3
              "Chapter 7 Series" DEFAULT_KEYWORDS 2 Hnone) as [_ [H2 _]].
  split; [exact H2 | reflexivity].
Defined.

(** *** The run over a document *)

(** C7: in a run over a document, a chapter range for which neither tier
    finds a start gets a warning and no file; every chapter range with a
    detected start gets its file, whatever happens with the other
    chapters; every file written is the file of a chapter with a detected
    start; and as long as no page load raises, the exit status is 0 however
    many chapters are skipped. *)
Theorem C7_skipped_chapter_is_harmless (doc : Document) (args : Args) :
  let ranges := build_chapter_ranges (chapter_starts doc) (page_count doc) in
  let detect := fun r => detect_exercises_start doc r (keywords args)
                                                (min_num_count args) in
  (forall ch sp ep title,
      In (ch, sp, ep, title) ranges -> detect (ch, sp, ep, title) = Ok None ->
      In (Warn ch sp ep title) (log_of (main doc args)))
  /\ (forall ch sp ep title s,
        In (ch, sp, ep, title) ranges -> detect (ch, sp, ep, title) = Ok (Some s) ->
        In (WroteFile (outfile_name (stem args) ch title) s ep)
           (log_of (main doc args)))
  /\ (forall f s e,
        In (WroteFile f s e) (log_of (main doc args)) ->
        exists ch sp title,
          In (ch, sp, e, title) ranges
          /\ detect (ch, sp, e, title) = Ok (Some s)
          /\ f = outfile_name (stem args) ch title)
  /\ (ranges <> [] -> (forall r, In r ranges -> detect r <> Raise) ->
      exit_status (main doc args) = 0).
Proof.
  intros ranges detect.
  assert (Hmain : ranges <> [] -> main doc args = chapters_loop doc args ranges [])
    by apply main_runs_loop.
  assert (Hne : forall r, In r ranges -> ranges <> [])
    by (intros r Hr E; rewrite E in Hr; contradiction).
  assert (Htiles : forall r, In r ranges -> exists lo hi, tiles lo ranges hi).
  { intros r Hr. eexists. eexists. apply build_chapter_ranges_tiles.
    intros E. apply (Hne r Hr). unfold ranges. now rewrite E. }
  split; [|split; [|split]].
  - intros ch sp ep title Hin Hd. rewrite (Hmain (Hne _ Hin)).
    destruct (Htiles _ Hin) as [lo [hi Ht]].
    pose proof (chapters_loop_reports doc args lo hi ranges Ht [] ch sp ep title Hin) as H.
    unfold detect in Hd. now rewrite Hd in H.
  - intros ch sp ep title s Hin Hd. rewrite (Hmain (Hne _ Hin)).
    destruct (Htiles _ Hin) as [lo [hi Ht]].
    pose proof (chapters_loop_reports doc args lo hi ranges Ht [] ch sp ep title Hin) as H.
    unfold detect in Hd. now rewrite Hd in H.
  - intros f s e Hin.
    assert (Hr : ranges <> []).
    { intros E. unfold main in Hin. fold ranges in Hin. rewrite E in Hin.
      destruct (is_nil (chapter_starts doc)); contradiction. }
    rewrite (Hmain Hr) in Hin.
    destruct (chapters_loop_files doc args ranges [] f s e Hin) as [[] | H].
    exact H.
  - intros Hr Hok. rewrite (Hmain Hr).
    destruct (chapters_loop_returns doc args ranges [] Hok) as [log Hlog].
    now rewrite Hlog.
Qed.

Lemma C7_witness :
  let args := mkArgs "Algebra" DEFAULT_KEYWORDS 2 in
  In (Warn 2 2 2 "Chapter 2 Groups") (log_of (main book_with_plain_chapter args))
  /\ In (WroteFile "Algebra_Chapter-03_Chapter-3-Rings_Exercises.pdf" 3 3)
        (log_of (main book_with_plain_chapter args))
  /\ exit_status (main book_with_plain_chapter args) = 0.
Proof.
  intros args.
  destruct (C7_skipped_chapter_is_harmless book_with_plain_chapter args)
    as [Hwarn [Hfile [_ Hexit]]].
  split; [|split].
  - apply (Hwarn 2 2 2 "Chapter 2 Groups"); [vm_compute; tauto | reflexivity].
  - apply (Hfile 3 3 3 "Chapter 3 Rings" 3); [vm_compute; tauto | reflexivity].
  - apply Hexit.
    + vm_compute. discriminate.
    + intros r Hr. vm_compute in Hr.
      destruct Hr as [<- | [<- | [<- | []]]]; vm_compute; discriminate.
Defined.

(* ================================================================== *)
(** ** Further properties of the two tools *)

(** *** Exercise boundary detection *)

(** A page loads exactly when the document has pages and the index is
    below the page count. *)
Lemma page_text_ok_iff (doc : Document) (i : Z) :
  (exists txt, page_text doc i = Ok txt) <-> i < page_count doc /\ 0 < page_count doc.
Proof.
  assert (Hnn : 0 <= page_count doc) by (unfold page_count; lia).
  unfold page_text. split.
  - intros [txt H]. destruct (page_count doc <=? i) eqn:E; [discriminate|].
    destruct (page_count doc =? 0) eqn:E0; [discriminate|].
    apply Z.leb_gt in E. apply Z.eqb_neq in E0. lia.
  - intros [Hlt Hpos]. rewrite (proj2 (Z.leb_gt _ _) Hlt).
    rewrite (proj2 (Z.eqb_neq _ _)) by lia.
    destruct (nth_error (page_texts doc) (Z.to_nat (i mod page_count doc))) eqn:E3;
      [now eexists|].
    apply nth_error_None in E3.
    pose proof (Z.mod_pos_bound i (page_count doc) Hpos) as Hb.
    unfold page_count in *. lia.
Qed.

(** What tier 2 returns is no later than where it starts, and not before
    the start of the range unless within the pages it was given. *)
Lemma numbering_scan_some (doc : Document) (ch_num start : Z) (kws : list string)
      (minc : Z) (n : nat) (i j : Z) :
  numbering_scan doc ch_num start kws minc n i = Ok (Some j) ->
  j <= i /\ (i - Z.of_nat n < j \/ start <= j).
Proof.
  revert i. induction n as [|n IH]; intros i H; [discriminate|].
  cbn [numbering_scan] in H.
  destruct (page_text doc i) as [txt|]; [|discriminate]. cbn [bind] in H.
  destruct (_ >=? minc).
  - destruct (i - 1 >=? start) eqn:Eprev.
    + rewrite Z.geb_leb in Eprev. apply Z.leb_le in Eprev.
      destruct (page_text doc (i - 1)) as [prev|]; [|discriminate]. cbn [bind] in H.
      destruct (page_has_heading prev kws TOP_LINES); injection H as <-; lia.
    + injection H as <-. lia.
  - destruct (IH _ H) as [Hle Hor]. lia.
Qed.

Lemma dense_scan_none (doc : Document) (ch_num minc : Z) (n : nat) (i : Z) :
  dense_scan doc ch_num minc n i = Ok None ->
  forall p, i - Z.of_nat n < p <= i -> sparse_at doc ch_num minc p.
Proof.
  revert i. induction n as [|n IH]; intros i H p Hp; [lia|].
  cbn [dense_scan] in H. destruct (page_text doc i) as [txt|] eqn:Et; [|discriminate].
  cbn [bind] in H. rewrite Z.geb_leb in H.
  destruct (minc <=? count_numbered ch_num txt) eqn:Ec; [discriminate|].
  apply Z.leb_gt in Ec.
  destruct (Z.eq_dec p i) as [->|Hne]; [now exists txt|].
  apply (IH _ H). lia.
Qed.

Lemma count_numbered_nonneg (ch_num : Z) (txt : string) : 0 <= count_numbered ch_num txt.
Proof. unfold count_numbered. lia. Qed.

(** X1: a page index that detection returns lies in the chapter range, and
    that page has a keyword heading in its leading lines or at least the
    minimum of numbered lines. *)
Theorem X1_detected_start_in_range (doc : Document) (ch_num start end_ : Z)
        (title : string) (kws : list string) (minc : Z) (j : Z) :
  detect_exercises_start doc (ch_num, start, end_, title) kws minc = Ok (Some j) ->
  start <= j <= end_
  /\ (heading_at doc kws j \/ dense_at doc ch_num minc j).
Proof.
  intros H. rewrite detect_exercises_start_tiers in H.
  destruct (heading_scan doc kws (range_len start (end_ + 1)) start)
    as [[i|]|] eqn:Eh; cbn [bind] in H; [| |discriminate].
  - injection H as <-. destruct (heading_scan_some _ _ _ _ _ Eh) as [Hr [Hh _]].
    split; [|now left]. unfold range_len in Hr. lia.
  - pose proof (numbering_scan_some _ _ _ _ _ _ _ _ H) as [Hle Hor].
    assert (Hrange : start <= j <= end_) by (unfold range_len in Hor; lia).
    split; [exact Hrange|]. right.
    assert (Hplain : forall p, start <= p <= end_ -> plain_at doc kws p).
    { intros p Hp. apply (heading_scan_none _ _ _ _ Eh).
      rewrite range_len_of_range; lia. }
    rewrite (numbering_scan_plain doc ch_num start end_ kws minc _ end_ Hplain) in H
      by lia.
    now apply dense_scan_some in H.
Qed.

Lemma X1_witness :
  1 <= 2 <= 3
  /\ (heading_at chapter_without_heading DEFAULT_KEYWORDS 2
      \/ dense_at chapter_without_heading 7 2 2).
Proof.
  apply (X1_detected_start_in_range chapter_without_heading 7 1 3 "Chapter 7 Series"
           DEFAULT_KEYWORDS 2 2).
  reflexivity.
Defined.

(** X2: detection finds no exercise start exactly when the range is empty
    or every page of it loads, has no keyword heading in its leading lines
    and has fewer than the minimum of numbered lines. *)
Theorem X2_no_start_iff (doc : Document) (ch_num start end_ : Z)
        (title : string) (kws : list string) (minc : Z) :
  detect_exercises_start doc (ch_num, start, end_, title) kws minc = Ok None
  <-> (end_ < start
       \/ forall p, start <= p <= end_ ->
                    plain_at doc kws p /\ sparse_at doc ch_num minc p).
Proof.
  split.
  - intros H. destruct (Z_lt_ge_dec end_ start) as [Hlt | Hge]; [now left | right].
    rewrite detect_exercises_start_tiers in H.
    destruct (heading_scan doc kws (range_len start (end_ + 1)) start)
      as [[i|]|] eqn:Eh; cbn [bind] in H; try discriminate.
    assert (Hplain : forall p, start <= p <= end_ -> plain_at doc kws p).
    { intros p Hp. apply (heading_scan_none _ _ _ _ Eh).
      rewrite range_len_of_range; lia. }
    rewrite (numbering_scan_plain doc ch_num start end_ kws minc _ end_ Hplain) in H
      by lia.
    intros p Hp. split; [now apply Hplain|].
    apply (dense_scan_none _ _ _ _ _ H). rewrite range_len_of_range; lia.
  - intros [Hlt | Hall].
    + rewrite detect_exercises_start_tiers. unfold range_len.
      replace (Z.to_nat (end_ + 1 - start)) with O by lia. reflexivity.
    + destruct (Z_lt_ge_dec end_ start) as [Hlt | Hge].
      * rewrite detect_exercises_start_tiers. unfold range_len.
        replace (Z.to_nat (end_ + 1 - start)) with O by lia. reflexivity.
      * rewrite detect_plain_range by (intros p Hp; now apply Hall).
        apply dense_scan_sparse. intros p Hp. apply Hall.
        rewrite range_len_of_range in Hp; lia.
Qed.

(** X3: on a range that ends inside a document with pages, detection
    returns; no page load raises, also when the range starts at a negative
    index. *)
Theorem X3_detection_returns_inside_document (doc : Document) (ch_num start end_ : Z)
        (title : string) (kws : list string) (minc : Z) :
  0 < page_count doc -> end_ <= page_count doc - 1 ->
  exists r, detect_exercises_start doc (ch_num, start, end_, title) kws minc = Ok r.
Proof.
  intros Hpos Hend.
  destruct (detect_exercises_start doc (ch_num, start, end_, title) kws minc)
    as [r|] eqn:E; [now exists r|].
  apply detect_raise_end in E. destruct E as [_ Hraise].
  destruct (proj2 (page_text_ok_iff doc end_)) as [txt Ht]; [lia | congruence].
Qed.

Lemma X3_witness :
  exists r, detect_exercises_start chapter_without_heading (7, -2, 3, "Chapter 7 Series")
                                   DEFAULT_KEYWORDS 2 = Ok r.
Proof.
  apply X3_detection_returns_inside_document; vm_compute; [reflexivity | discriminate].
Defined.

(** X4: with a minimum count of zero or less every page counts as dense:
    on a non-empty range whose last page loads detection always returns a
    page, and it is the last page of the range when no page of the range
    has a keyword heading. *)
Theorem X4_nonpositive_minimum (doc : Document) (ch_num start end_ : Z)
        (title : string) (kws : list string) (minc : Z) :
  minc <= 0 -> start <= end_ -> end_ < page_count doc -> 0 < page_count doc ->
  exists j,
    detect_exercises_start doc (ch_num, start, end_, title) kws minc = Ok (Some j)
    /\ ((forall p, start <= p <= end_ -> plain_at doc kws p) -> j = end_).
Proof.
  intros Hmin Hle Hend Hpos.
  destruct (proj2 (page_text_ok_iff doc end_) (conj Hend Hpos)) as [txt Ht].
  assert (Hdense : dense_at doc ch_num minc end_).
  { exists txt. split; [exact Ht|]. pose proof (count_numbered_nonneg ch_num txt). lia. }
  rewrite detect_exercises_start_tiers.
  destruct (heading_scan_returns doc kws (range_len start (end_ + 1)) start) as [r Hr].
  { intros p Hp. apply (page_text_loads doc end_ txt Ht).
    rewrite range_len_of_range in Hp; lia. }
  rewrite Hr. cbn [bind]. destruct r as [i|].
  - exists i. split; [reflexivity|]. intros Hplain. exfalso.
    destruct (heading_scan_some _ _ _ _ _ Hr) as [Hri [Hh _]].
    apply (heading_not_plain doc kws i Hh). apply Hplain.
    rewrite range_len_of_range in Hri; lia.
  - assert (Hplain : forall p, start <= p <= end_ -> plain_at doc kws p).
    { intros p Hp. apply (heading_scan_none _ _ _ _ Hr).
      rewrite range_len_of_range; lia. }
    rewrite (numbering_scan_plain doc ch_num start end_ kws minc _ end_ Hplain) by lia.
    destruct (dense_scan_reaches doc ch_num minc (range_len start (end_ + 1)) end_ end_)
      as [j [Hj Hrj]]; [now exists txt | rewrite range_len_of_range; lia | exact Hdense |].
    exists j. split; [exact Hj | intros _; lia].
Qed.

Lemma X4_witness :
  exists j,
    detect_exercises_start book_with_plain_chapter (2, 2, 2, "Chapter 2 Groups")
                           DEFAULT_KEYWORDS 0 = Ok (Some j).
Proof.
  destruct (X4_nonpositive_minimum book_with_plain_chapter 2 2 2 "Chapter 2 Groups"
              DEFAULT_KEYWORDS 0) as [j [Hj _]]; try (vm_compute; congruence).
  now exists j.
Defined.

Lemma X2_witness :
  plain_at book_with_plain_chapter DEFAULT_KEYWORDS 2
  /\ sparse_at book_with_plain_chapter 2 2 2.
Proof.
  destruct (proj1 (X2_no_start_iff book_with_plain_chapter 2 2 2 "Chapter 2 Groups"
                     DEFAULT_KEYWORDS 2) eq_refl) as [Hlt | Hall]; [lia|].
  apply Hall. lia.
Defined.

(** *** The page scan *)

Lemma scan_pages_top_25 (pages : list string) (i : Z) (starts : list (Z * (Z * Z * string))) :
  ExtractExercises.scan_pages pages i starts = scan_pages_top 25 pages i starts.
Proof.
  revert i starts. induction pages as [|txt pages IH]; intros i starts; [reflexivity|].
  cbn [ExtractExercises.scan_pages scan_pages_top]. apply IH.
Qed.

Lemma scan_pages_top_20 (pages : list string) (i : Z) (starts : list (Z * (Z * Z * string))) :
  SplitPdfChapters.scan_pages pages i starts = scan_pages_top 20 pages i starts.
Proof.
  revert i starts. induction pages as [|txt pages IH]; intros i starts; [reflexivity|].
  cbn [SplitPdfChapters.scan_pages scan_pages_top]. apply IH.
Qed.

Lemma dict_has_iff (ch : Z) (d : list (Z * (Z * Z * string))) :
  dict_has ch d = true <-> In ch (map fst d).
Proof.
  unfold dict_has. rewrite existsb_exists, in_map_iff. split.
  - intros [kv [Hin E]]. apply Z.eqb_eq in E. now exists kv.
  - intros [kv [E Hin]]. exists kv. split; [exact Hin | now apply Z.eqb_eq].
Qed.

Lemma first_page_of_chapter_app (top : nat) (done rest : list string)
      (ch p : Z) (ln : string) :
  (Z.to_nat p < List.length done)%nat ->
  first_page_of_chapter top done ch p ln ->
  first_page_of_chapter top (done ++ rest) ch p ln.
Proof.
  intros Hlt [H0 [[txt [Hn Hh]] Hfirst]]. split; [exact H0|]. split.
  - exists txt. split; [|exact Hh]. now rewrite nth_error_app1.
  - intros q txt' ln' Hq Hn'. rewrite nth_error_app1 in Hn' by lia.
    now apply (Hfirst q txt' ln').
Qed.

Section ScanInvariant.
Variable top : nat.
Let scan_invariant := scan_invariant top.

Lemma scan_page_top_invariant (done : list string) (txt : string)
      (d : list (Z * (Z * Z * string))) :
  scan_invariant done d ->
  scan_invariant (done ++ [txt])
                 (scan_page_top top d (Z.of_nat (List.length done)) txt).
Proof.
  intros [Hnd [Hent Hall]].
  assert (Hold : forall k ch p ln, In (k, (ch, p, ln)) d ->
            k = ch /\ (Z.to_nat p < List.length (done ++ [txt]))%nat
            /\ first_page_of_chapter top (done ++ [txt]) ch p ln).
  { intros k ch p ln Hin. destruct (Hent k ch p ln Hin) as [Hk [Hlt Hf]].
    split; [exact Hk|]. split; [rewrite length_app; simpl; lia|].
    now apply first_page_of_chapter_app. }
  assert (Hpages : forall (d' : list (Z * (Z * Z * string))) q t ch ln,
            (forall x, In x (map fst d) -> In x (map fst d')) ->
            (forall ch' ln', page_heading top txt = Some (ch', ln') -> In ch' (map fst d')) ->
            nth_error (done ++ [txt]) q = Some t ->
            page_heading top t = Some (ch, ln) -> In ch (map fst d')).
  { intros d' q t ch ln Hsub Hnew Hn Hh.
    destruct (Nat.lt_ge_cases q (List.length done)) as [Hlt | Hge].
    - rewrite nth_error_app1 in Hn by lia. apply Hsub. now apply (Hall q t ch ln).
    - rewrite nth_error_app2 in Hn by lia.
      destruct (q - List.length done)%nat as [|m]; simpl in Hn.
      + injection Hn as <-. now apply (Hnew ch ln).
      + now destruct m. }
  unfold scan_page_top. destruct (page_heading top txt) as [[ch ln]|] eqn:Eh.
  - destruct (dict_has ch d) eqn:Ed.
    + apply dict_has_iff in Ed. split; [exact Hnd|]. split; [exact Hold|].
      intros q t ch' ln' Hn Hh. apply (Hpages d q t ch' ln'); auto.
      intros ch0 ln0 E. injection E as <- <-. exact Ed.
    + assert (Hfresh : ~ In ch (map fst d)).
      { intros Hin. apply dict_has_iff in Hin. congruence. }
      split; [|split].
      * rewrite map_app. simpl. apply NoDup_app; [exact Hnd | repeat constructor; auto |].
        intros x Hx [<- | []]. contradiction.
      * intros k ch' p ln' Hin. apply in_app_or in Hin.
        destruct Hin as [Hin | [E | []]]; [now apply Hold|].
        injection E as <- <- <- <-. split; [reflexivity|].
        rewrite Nat2Z.id. split; [rewrite length_app; simpl; lia|].
        split; [lia|]. split.
        -- exists txt. rewrite Nat2Z.id.
           rewrite nth_error_app2, Nat.sub_diag by lia. now split.
        -- intros q t ln0 Hq Hn Hh. rewrite Nat2Z.id in Hq.
           rewrite nth_error_app1 in Hn by lia.
           apply Hfresh. now apply (Hall q t ch ln0).
      * intros q t ch' ln' Hn Hh.
        apply (Hpages (d ++ [(ch, (ch, Z.of_nat (List.length done), ln))]) q t ch' ln');
          auto.
        -- intros x Hx. rewrite map_app. apply in_or_app. now left.
        -- intros ch0 ln0 E. injection E as <- <-. rewrite map_app.
           apply in_or_app. right. now left.
  - split; [exact Hnd|]. split; [exact Hold|].
    intros q t ch' ln' Hn Hh. apply (Hpages d q t ch' ln'); auto. discriminate.
Qed.

Lemma scan_pages_top_invariant (rest done : list string)
      (d : list (Z * (Z * Z * string))) :
  scan_invariant done d ->
  scan_invariant (done ++ rest)
                 (scan_pages_top top rest (Z.of_nat (List.length done)) d).
Proof.
  revert done d. induction rest as [|txt rest IH]; intros done d Hinv.
  - simpl. now rewrite app_nil_r.
  - cbn [scan_pages_top].
    replace (done ++ txt :: rest) with ((done ++ [txt]) ++ rest)
      by (rewrite <- app_assoc; reflexivity).
    replace (Z.of_nat (List.length done) + 1)
      with (Z.of_nat (List.length (done ++ [txt])))
      by (rewrite length_app; simpl; lia).
    apply IH. now apply scan_page_top_invariant.
Qed.

Lemma scan_all_invariant (pages : list string) :
  scan_invariant pages (scan_pages_top top pages 0 []).
Proof.
  apply (scan_pages_top_invariant pages [] []).
  split; [constructor|]. split; [intros ? ? ? ? []|].
  intros q txt ch ln Hn. now destruct q.
Qed.

(** The recorded starts are the first pages of the chapter numbers read. *)
Lemma scan_values_iff (pages : list string) (ch p : Z) (ln : string) :
  In (ch, p, ln) (dict_values (scan_pages_top top pages 0 []))
  <-> first_page_of_chapter top pages ch p ln.
Proof.
  destruct (scan_all_invariant pages) as [Hnd [Hent Hall]].
  unfold dict_values. rewrite in_map_iff. split.
  - intros [[k v] [E Hin]]. simpl in E. subst v.
    now destruct (Hent k ch p ln Hin) as [_ [_ Hf]].
  - intros Hf. pose proof Hf as [H0 [[txt [Hn Hh]] Hfirst]].
    pose proof (Hall _ _ _ _ Hn Hh) as Hkey.
    apply in_map_iff in Hkey. destruct Hkey as [[k [[ch' p'] ln']] [E Hin]].
    simpl in E. subst k. destruct (Hent _ _ _ _ Hin) as [-> [Hlt Hf']].
    exists (ch', (ch', p', ln')). split; [|exact Hin]. simpl.
    destruct Hf' as [H0' [[txt' [Hn' Hh']] Hfirst']].
    assert (Hp : Z.to_nat p = Z.to_nat p').
    { destruct (Nat.lt_trichotomy (Z.to_nat p) (Z.to_nat p')) as [Hl | [He | Hg]];
        [exfalso | exact He | exfalso].
      - now apply (Hfirst' _ _ ln Hl Hn).
      - now apply (Hfirst _ _ ln' Hg Hn'). }
    assert (p = p') by lia. subst p'. rewrite Hn in Hn'. injection Hn' as <-.
    rewrite Hh in Hh'. now injection Hh' as <-.
Qed.

Lemma scan_values_NoDup (pages : list string) :
  NoDup (map chapter_of (dict_values (scan_pages_top top pages 0 []))).
Proof.
  destruct (scan_all_invariant pages) as [Hnd [Hent _]].
  unfold dict_values. rewrite map_map.
  replace (map (fun x => chapter_of (snd x)) (scan_pages_top top pages 0 []))
    with (map fst (scan_pages_top top pages 0 [])); [exact Hnd|].
  apply map_ext_in. intros [k [[ch p] ln]] Hin.
  now destruct (Hent _ _ _ _ Hin) as [-> _].
Qed.

End ScanInvariant.

Lemma scan_for_chapter_starts_values (doc : Document) :
  Permutation (scan_for_chapter_starts doc)
              (dict_values (scan_pages_top 25 (page_texts doc) 0 [])).
Proof.
  unfold scan_for_chapter_starts. rewrite scan_pages_top_25.
  destruct (scan_pages_top 25 (page_texts doc) 0 []) as [|kv d]; [constructor|].
  cbn [is_nil]. apply stable_sort_perm.
Qed.

Lemma detect_chapters_by_scanning_values (doc : Document) :
  Permutation (SplitPdfChapters.detect_chapters_by_scanning doc)
              (dict_values (scan_pages_top 20 (page_texts doc) 0 [])).
Proof.
  unfold SplitPdfChapters.detect_chapters_by_scanning. rewrite scan_pages_top_20.
  apply stable_sort_perm.
Qed.

(** A start of the page scan is a page of the document. *)
Lemma scan_values_within (top : nat) (doc : Document) (ch p : Z) (ln : string) :
  In (ch, p, ln) (dict_values (scan_pages_top top (page_texts doc) 0 [])) ->
  0 <= p <= page_count doc - 1.
Proof.
  intros Hin. apply scan_values_iff in Hin.
  destruct Hin as [H0 [[txt [Hn _]] _]].
  assert (Hlt : (Z.to_nat p < List.length (page_texts doc))%nat)
    by (apply nth_error_Some; congruence).
  unfold page_count. lia.
Qed.

(** X5: the page scan records, for each chapter number that the first
    heading line of some page gives, the first such page with that line,
    and nothing else (25 leading lines in [extract_exercises.py], 20 in
    [split_pdf_chapters.py]). *)
Theorem X5_scan_records_first_pages (doc : Document) (ch p : Z) (ln : string) :
  (In (ch, p, ln) (scan_for_chapter_starts doc)
   <-> first_page_of_chapter 25 (page_texts doc) ch p ln)
  /\ (In (ch, p, ln) (SplitPdfChapters.detect_chapters_by_scanning doc)
      <-> first_page_of_chapter 20 (page_texts doc) ch p ln).
Proof.
  split.
  - rewrite <- scan_values_iff. split; apply Permutation_in;
      [|apply Permutation_sym]; apply scan_for_chapter_starts_values.
  - rewrite <- scan_values_iff. split; apply Permutation_in;
      [|apply Permutation_sym]; apply detect_chapters_by_scanning_values.
Qed.

Lemma X5_witness :
  In (2, 2, "Chapter 2 Groups") (scan_for_chapter_starts book_with_plain_chapter)
  /\ first_page_of_chapter 20 (page_texts misnumbered_book) 3 1
                           "3 Proofs of the main results".
Proof.
  split.
  - apply (proj2 (proj1 (X5_scan_records_first_pages book_with_plain_chapter 2 2
                           "Chapter 2 Groups"))).
    split; [lia|]. split.
    + eexists. split; reflexivity.
    + intros q txt ln' Hq Hn.
      assert (Hcases : q = 0%nat \/ q = 1%nat) by (simpl in Hq; lia).
      destruct Hcases as [-> | ->]; simpl in Hn; injection Hn as <-;
        vm_compute; discriminate.
  - apply (proj1 (proj2 (X5_scan_records_first_pages misnumbered_book 3 1
                           "3 Proofs of the main results"))).
    vm_compute. tauto.
Defined.

Lemma sorted_strict {A} (f : A -> Z) (l : list A) :
  Sorted (fun a b => f a <= f b) l -> NoDup (map f l) ->
  Sorted (fun a b => f a < f b) l.
Proof.
  induction 1 as [|x l Hs IH Hhd]; intros Hnd; [constructor|].
  simpl in Hnd. inversion Hnd as [|? ? Hnotin Hnd']; subst.
  constructor; [now apply IH|].
  destruct Hhd as [|y l Hxy]; constructor.
  assert (f x <> f y) by (intros E; apply Hnotin; rewrite E; now left).
  lia.
Qed.

Lemma by_chapter_then_page_total (a b : Z * Z * string) :
  by_chapter_then_page a b = true \/ by_chapter_then_page b a = true.
Proof.
  unfold by_chapter_then_page.
  destruct (Z.lt_trichotomy (chapter_of a) (chapter_of b)) as [H | [H | H]].
  - left. now rewrite (proj2 (Z.ltb_lt _ _) H).
  - rewrite H, Z.ltb_irrefl, Z.eqb_refl. simpl. rewrite !Z.leb_le. lia.
  - right. now rewrite (proj2 (Z.ltb_lt _ _) H).
Qed.

Lemma sort_by_chapter_sorted (l : list (Z * Z * string)) :
  Sorted (fun a b => chapter_of a <= chapter_of b)
         (stable_sort by_chapter_then_page l).
Proof.
  pose proof (stable_sort_sorted by_chapter_then_page by_chapter_then_page_total l) as Hs.
  induction Hs as [|x l' Hs' IH Hhd]; constructor; [exact IH|].
  destruct Hhd as [|y l' Hxy]; constructor.
  unfold by_chapter_then_page in Hxy.
  apply orb_true_iff in Hxy. destruct Hxy as [H | H].
  - apply Z.ltb_lt in H. lia.
  - apply andb_true_iff in H. destruct H as [H _]. apply Z.eqb_eq in H. lia.
Qed.

(** X6: the starts of the page scan come in strictly ascending order of
    chapter number, so no number comes twice, and each start is a page of
    the document. *)
Theorem X6_scan_starts_ascending (doc : Document) :
  let ex := scan_for_chapter_starts doc in
  let sp := SplitPdfChapters.detect_chapters_by_scanning doc in
  Sorted (fun a b => chapter_of a < chapter_of b) ex
  /\ Sorted (fun a b => chapter_of a < chapter_of b) sp
  /\ NoDup (map chapter_of ex) /\ NoDup (map chapter_of sp)
  /\ Forall (fun s => 0 <= page_of s <= page_count doc - 1) ex
  /\ Forall (fun s => 0 <= page_of s <= page_count doc - 1) sp.
Proof.
  intros ex sp.
  assert (Hnd_ex : NoDup (map chapter_of ex)).
  { apply (Permutation_NoDup
             (l := map chapter_of (dict_values (scan_pages_top 25 (page_texts doc) 0 [])))).
    - apply Permutation_map, Permutation_sym, scan_for_chapter_starts_values.
    - apply scan_values_NoDup. }
  assert (Hnd_sp : NoDup (map chapter_of sp)).
  { apply (Permutation_NoDup
             (l := map chapter_of (dict_values (scan_pages_top 20 (page_texts doc) 0 [])))).
    - apply Permutation_map, Permutation_sym, detect_chapters_by_scanning_values.
    - apply scan_values_NoDup. }
  split; [|split; [|split; [|split; [|split]]]]; auto.
  - apply sorted_strict; [|exact Hnd_ex]. unfold ex, scan_for_chapter_starts.
    destruct (is_nil _); [constructor | apply sort_by_chapter_sorted].
  - apply sorted_strict; [|exact Hnd_sp]. apply sort_by_chapter_sorted.
  - apply Forall_forall. intros [[ch p] ln] Hs. unfold page_of. simpl.
    apply (scan_values_within 25 doc ch p ln).
    apply (Permutation_in _ (scan_for_chapter_starts_values doc) Hs).
  - apply Forall_forall. intros [[ch p] ln] Hs. unfold page_of. simpl.
    apply (scan_values_within 20 doc ch p ln).
    apply (Permutation_in _ (detect_chapters_by_scanning_values doc) Hs).
Qed.

(** *** The run of [main] *)

Lemma detect_some_in_range (doc : Document) (ch_num start end_ : Z)
      (title : string) (kws : list string) (minc : Z) (j : Z) :
  detect_exercises_start doc (ch_num, start, end_, title) kws minc = Ok (Some j) ->
  start <= j <= end_.
Proof.
  intros H. rewrite detect_exercises_start_tiers in H.
  destruct (heading_scan doc kws (range_len start (end_ + 1)) start)
    as [[i|]|] eqn:Eh; cbn [bind] in H; [| |discriminate].
  - injection H as <-. destruct (heading_scan_some _ _ _ _ _ Eh) as [Hr _].
    unfold range_len in Hr. lia.
  - pose proof (numbering_scan_some _ _ _ _ _ _ _ _ H) as [Hle Hor].
    unfold range_len in Hor. lia.
Qed.

(** The scan finds nothing exactly when no page has a chapter heading
    among its leading lines. *)
Lemma scan_for_chapter_starts_nil_iff (doc : Document) :
  scan_for_chapter_starts doc = []
  <-> Forall (fun txt => page_heading 25 txt = None) (page_texts doc).
Proof.
  split.
  - intros Hnil. apply Forall_forall. intros txt Hin.
    destruct (page_heading 25 txt) as [[ch ln]|] eqn:Eh; [exfalso | reflexivity].
    apply In_nth_error in Hin. destruct Hin as [q Hq].
    destruct (scan_all_invariant 25 (page_texts doc)) as [_ [_ Hall]].
    pose proof (Hall q txt ch ln Hq Eh) as Hkey.
    pose proof (scan_for_chapter_starts_values doc) as Hperm.
    rewrite Hnil in Hperm. apply Permutation_nil in Hperm.
    unfold dict_values in Hperm. apply map_eq_nil in Hperm.
    rewrite Hperm in Hkey. contradiction.
  - intros Hall.
    destruct (scan_for_chapter_starts doc) as [|[[ch p] ln] l] eqn:E; [reflexivity|].
    exfalso.
    assert (Hin : In (ch, p, ln) (scan_for_chapter_starts doc)) by (rewrite E; now left).
    apply (Permutation_in _ (scan_for_chapter_starts_values doc)) in Hin.
    apply scan_values_iff in Hin. destruct Hin as [_ [[txt [Hn Hh]] _]].
    apply nth_error_In in Hn.
    pose proof (proj1 (Forall_forall _ _) Hall txt Hn) as Hnone. simpl in Hnone.
    congruence.
Qed.

Lemma chapters_loop_length (doc : Document) (args : Args)
      (ranges : list (Z * Z * Z * string)) (log log' : list Event) :
  chapters_loop doc args ranges log = Returned log' ->
  List.length log' = (List.length log + List.length ranges)%nat.
Proof.
  revert log. induction ranges as [|[[[ch sp] ep] title] ranges IH]; intros log H.
  - injection H as <-. simpl. lia.
  - cbn [chapters_loop] in H.
    destruct (detect_exercises_start _ _ _ _) as [[s|]|]; [| |discriminate];
      apply IH in H; rewrite length_app in H; simpl in *; lia.
Qed.

(** X7: [main] of [extract_exercises.py] exits with status 2 exactly when
    the outline gives fewer than two chapter starts and no page has a
    chapter heading among its 25 leading lines. *)
Theorem X7_exit_2_iff_no_chapter_structure (doc : Document) (args : Args) :
  main doc args = SysExit 2
  <-> ((List.length (get_toc_chapter_starts doc) < 2)%nat
       /\ Forall (fun txt => page_heading 25 txt = None) (page_texts doc)).
Proof.
  rewrite <- scan_for_chapter_starts_nil_iff.
  unfold main, chapter_starts.
  destruct (List.length (get_toc_chapter_starts doc) <? 2)%nat eqn:Elen.
  - apply Nat.ltb_lt in Elen.
    destruct (scan_for_chapter_starts doc) as [|s l] eqn:Es; cbn [is_nil].
    + split; [now split | reflexivity].
    + split; [|intros [_ E]; discriminate].
      intros H. exfalso. destruct (is_nil _); [discriminate|].
      now apply chapters_loop_no_exit in H.
  - apply Nat.ltb_ge in Elen. split; [|intros [Hlt _]; lia].
    intros H. exfalso.
    destruct (get_toc_chapter_starts doc) as [|s l]; [simpl in Elen; lia|].
    cbn [is_nil] in H. destruct (is_nil _); [discriminate|].
    now apply chapters_loop_no_exit in H.
Qed.

Lemma X7_witness :
  main (mkDocument [(1, "Chapter 1 Sets", 1)] ["Preface
no chapter here"; "Sets are collections"])
       (mkArgs "Book" DEFAULT_KEYWORDS 2) = SysExit 2.
Proof.
  apply (proj2 (X7_exit_2_iff_no_chapter_structure _ _)).
  split; [simpl; lia | repeat constructor].
Defined.

(** X8: when the outline gives fewer than two chapter starts, [main] of
    [extract_exercises.py] works from the page scan and then never fails
    on a page load or on the ranges: it exits with status 2 or returns
    after one line of log per chapter range, and every file it writes
    holds pages [ex_start .. ep] of the document, with
    [0 <= ex_start <= ep <= page_count - 1]. *)
Theorem X8_scan_run_stays_inside_document (doc : Document) (args : Args) :
  (List.length (get_toc_chapter_starts doc) < 2)%nat ->
  main doc args = SysExit 2
  \/ exists log,
       main doc args = Returned log
       /\ List.length log
          = List.length (build_chapter_ranges (chapter_starts doc) (page_count doc))
       /\ forall f s e, In (WroteFile f s e) log ->
                        0 <= s <= e /\ e <= page_count doc - 1.
Proof.
  intros Hfew.
  assert (Hst : chapter_starts doc = scan_for_chapter_starts doc).
  { unfold chapter_starts. now rewrite (proj2 (Nat.ltb_lt _ _) Hfew). }
  pose proof (scan_for_chapter_starts_within doc) as Hwithin. rewrite <- Hst in Hwithin.
  destruct (chapter_starts doc) as [|s0 l0] eqn:Es.
  - left. unfold main. now rewrite Es.
  - right. set (starts := s0 :: l0) in *.
    assert (Hne : starts <> []) by discriminate.
    assert (Hub : Forall (fun s => page_of s <= page_count doc - 1) starts).
    { eapply Forall_impl; [|exact Hwithin]. simpl. intros a Ha. lia. }
    destruct (build_chapter_ranges_partition starts (page_count doc) Hne Hub)
      as [Htiles [_ [Hin _]]].
    destruct (first_page_is_start starts Hne) as [s1 [Hs1 Hfp]].
    assert (Hlo : 0 <= first_page starts).
    { rewrite <- Hfp. exact (proj1 (proj1 (Forall_forall _ _) Hwithin s1 Hs1)). }
    set (ranges := build_chapter_ranges starts (page_count doc)) in *.
    assert (Hbounds : forall r, In r ranges ->
              0 <= range_start r /\ range_start r <= range_end r
              /\ range_end r <= page_count doc - 1).
    { intros r Hr. pose proof (tiles_blocks _ _ _ Htiles r Hr) as Hb.
      assert (H1 : covers r (range_start r)) by (unfold covers; lia).
      assert (H2 : covers r (range_end r)) by (unfold covers; lia).
      pose proof (Hin r _ Hr H1). pose proof (Hin r _ Hr H2). lia. }
    assert (Hrne : ranges <> []).
    { unfold ranges. rewrite build_chapter_ranges_contiguous.
      apply contiguous_ranges_nonempty.
      - intros E. apply stable_sort_nil_iff in E. contradiction.
      - apply last_page_bound.
        + intros E. apply stable_sort_nil_iff in E. contradiction.
        + apply (Permutation_Forall (Permutation_sym (stable_sort_perm by_page _))).
          exact Hub. }
    assert (Hok : forall r, In r ranges ->
              detect_exercises_start doc r (keywords args) (min_num_count args) <> Raise).
    { intros [[[ch sp] ep] title] Hr E. apply detect_raise_end in E.
      destruct E as [_ Hraise]. destruct (Hbounds _ Hr) as [H0 [Hle Hhi]].
      unfold_ranges.
      destruct (proj2 (page_text_ok_iff doc ep)) as [txt Ht]; [lia | congruence]. }
    destruct (chapters_loop_returns doc args ranges [] Hok) as [log Hlog].
    exists log. rewrite main_runs_loop by (rewrite Es; exact Hrne).
    rewrite Es. fold starts. fold ranges. split; [exact Hlog|]. split.
    + now rewrite (chapters_loop_length _ _ _ _ _ Hlog).
    + intros f s e Hf.
      assert (Hf' : In (WroteFile f s e) (log_of (chapters_loop doc args ranges [])))
        by now rewrite Hlog.
      destruct (chapters_loop_files doc args ranges [] f s e Hf')
        as [[] | [ch [sp [title [Hr [Hd _]]]]]].
      apply detect_some_in_range in Hd. destruct (Hbounds _ Hr) as [H0 [Hle Hhi]].
      unfold_ranges. lia.
Qed.

Lemma X8_witness :
  exists log,
    main book_with_plain_chapter (mkArgs "Algebra" DEFAULT_KEYWORDS 2) = Returned log
    /\ List.length log = 3%nat.
Proof.
  destruct (X8_scan_run_stays_inside_document book_with_plain_chapter
              (mkArgs "Algebra" DEFAULT_KEYWORDS 2)) as [Hexit | [log [Hlog [Hlen _]]]].
  - simpl. lia.
  - vm_compute in Hexit. discriminate.
  - exists log. split; [exact Hlog|]. rewrite Hlen. reflexivity.
Defined.

(** *** Chapter starts from the outline *)

(** Entries below the top level leave the loop where it is. *)
Lemma toc_fold_top_level (l : list (Z * string * Z)) (st : list (Z * Z * string) * list Z) :
  fold_left ExtractExercises.toc_step l st
  = fold_left ExtractExercises.toc_step (top_level l) st.
Proof.
  revert st. induction l as [|e l IH]; intros [chapters seen]; [reflexivity|].
  unfold top_level in *. cbn [filter fold_left].
  destruct (fst (fst e) =? 1) eqn:E.
  - cbn [fold_left]. apply IH.
  - rewrite toc_step_cases, E. cbn [negb]. apply IH.
Qed.

(** The loop appends starts made of top-level entries, at most one each. *)
Lemma toc_fold_appends (l : list (Z * string * Z)) (chapters : list (Z * Z * string))
      (seen : list Z) :
  exists added,
    fst (fold_left ExtractExercises.toc_step l (chapters, seen)) = chapters ++ added
    /\ (List.length added <= List.length (top_level l))%nat
    /\ forall c, In c added ->
                 exists e, In e (top_level l) /\ c = start_of_entry (chapter_of c) e.
Proof.
  revert chapters seen. induction l as [|e l IH]; intros chapters seen.
  - exists []. simpl. rewrite app_nil_r. repeat split; auto. intros c [].
  - cbn [fold_left]. rewrite toc_step_cases. unfold top_level in *. cbn [filter].
    destruct (fst (fst e) =? 1) eqn:E; cbn [negb].
    + destruct (existsb _ seen).
      * destruct (IH chapters seen) as [added [Hf [Hlen Hfrom]]].
        exists added. split; [exact Hf|]. split; [simpl; lia|].
        intros c Hc. destruct (Hfrom c Hc) as [e' [He' Hce]].
        exists e'. split; [now right | exact Hce].
      * destruct (IH (chapters ++ [start_of_entry (resolved_number chapters e) e])
                     (resolved_number chapters e :: seen)) as [added [Hf [Hlen Hfrom]]].
        exists (start_of_entry (resolved_number chapters e) e :: added).
        split; [rewrite Hf, <- app_assoc; reflexivity|]. split; [simpl; lia|].
        intros c [<- | Hc].
        -- exists e. split; [now left | reflexivity].
        -- destruct (Hfrom c Hc) as [e' [He' Hce]].
           exists e'. split; [now right | exact Hce].
    + apply IH.
Qed.

(** X9: whatever the outline, the starts the outline detector returns are
    in ascending page order, carry pairwise different chapter numbers, are
    each made of a top-level entry (its page minus one, its title
    stripped), and are at most as many as the top-level entries; entries
    below the top level have no effect on the result. *)
Theorem X9_outline_starts_invariants (doc : Document) :
  let tops := top_level (get_toc doc) in
  let out := get_toc_chapter_starts doc in
  sorted_by_page out
  /\ NoDup (map chapter_of out)
  /\ (List.length out <= List.length tops)%nat
  /\ (forall c, In c out ->
        exists e, In e tops /\ c = start_of_entry (chapter_of c) e)
  /\ out = get_toc_chapter_starts (mkDocument tops (page_texts doc))
  /\ SplitPdfChapters.detect_chapters_by_toc doc = out.
Proof.
  intros tops out.
  assert (Hout : out = stable_sort by_page (fst (toc_loop (get_toc doc))))
    by apply get_toc_chapter_starts_loop.
  destruct (toc_fold_appends (get_toc doc) [] []) as [added [Hf [Hlen Hfrom]]].
  fold (toc_loop (get_toc doc)) in Hf. simpl in Hf.
  split; [|split; [|split; [|split; [|split]]]].
  - rewrite Hout. apply sort_by_page_sorted.
  - apply get_toc_chapter_starts_NoDup.
  - rewrite Hout, stable_sort_length, Hf. exact Hlen.
  - intros c Hc. apply Hfrom. rewrite <- Hf.
    apply (Permutation_in c (stable_sort_perm by_page _)). now rewrite <- Hout.
  - rewrite Hout, get_toc_chapter_starts_loop. cbn [get_toc].
    unfold toc_loop. rewrite (toc_fold_top_level (get_toc doc)). reflexivity.
  - apply detect_chapters_by_toc_same.
Qed.

(** In an outline without declared numbers the seen numbers are the
    counts up to the number of accepted starts. *)
Lemma toc_fold_numbered (l : list (Z * string * Z)) (chapters : list (Z * Z * string))
      (seen : list Z) :
  Forall (fun e => declared_number e = None) (top_level l) ->
  Forall (fun n => n <= Z.of_nat (List.length chapters)) seen ->
  fst (fold_left ExtractExercises.toc_step l (chapters, seen))
  = chapters ++ number_from (Z.of_nat (List.length chapters) + 1) (top_level l).
Proof.
  revert chapters seen. induction l as [|e l IH]; intros chapters seen Hnone Hseen.
  - simpl. now rewrite app_nil_r.
  - cbn [fold_left]. rewrite toc_step_cases. unfold top_level in *. cbn [filter] in *.
    destruct (fst (fst e) =? 1) eqn:E; cbn [negb].
    + inversion Hnone as [|? ? He Hnone']; subst.
      assert (Hres : resolved_number chapters e = Z.of_nat (List.length chapters) + 1)
        by (unfold resolved_number; now rewrite He).
      rewrite Hres.
      destruct (existsb _ seen) eqn:Ex.
      * apply existsb_eqb_In in Ex.
        pose proof (proj1 (Forall_forall _ _) Hseen _ Ex) as Hle. simpl in Hle. lia.
      * rewrite IH; [| exact Hnone' |].
        -- rewrite <- app_assoc. cbn [number_from app]. rewrite length_app. simpl.
           repeat f_equal. lia.
        -- rewrite length_app. simpl. constructor; [lia|].
           eapply Forall_impl; [|exact Hseen]. simpl. intros n Hn. lia.
    + now apply IH.
Qed.

(** X10: when no top-level title of the outline declares a chapter number,
    the starts are the top-level entries numbered 1, 2, 3, ... in outline
    order, sorted by page. *)
Theorem X10_outline_numbered_in_order (doc : Document) :
  Forall (fun e => declared_number e = None) (top_level (get_toc doc)) ->
  get_toc_chapter_starts doc
  = stable_sort by_page (number_from 1 (top_level (get_toc doc)))
  /\ SplitPdfChapters.detect_chapters_by_toc doc
     = stable_sort by_page (number_from 1 (top_level (get_toc doc))).
Proof.
  intros Hnone.
  assert (H : get_toc_chapter_starts doc
              = stable_sort by_page (number_from 1 (top_level (get_toc doc)))).
  { rewrite get_toc_chapter_starts_loop. unfold toc_loop.
    rewrite (toc_fold_numbered (get_toc doc) [] [] Hnone (Forall_nil _)).
    reflexivity. }
  split; [exact H|]. now rewrite detect_chapters_by_toc_same.
Qed.

Lemma X10_witness :
  get_toc_chapter_starts
    (mkDocument [ (1, "Sets", 12); (2, "Subsets", 14); (1, "Groups", 40);
                  (1, "Preface", 3) ] [])
  = [ (3, 2, "Preface"); (1, 11, "Sets"); (2, 39, "Groups") ].
Proof.
  assert (Hnone : Forall (fun e => declared_number e = None)
                         (top_level [ (1, "Sets", 12); (2, "Subsets", 14);
                                      (1, "Groups", 40); (1, "Preface", 3) ]))
    by (repeat constructor).
  rewrite (proj1 (X10_outline_numbered_in_order (mkDocument _ []) Hnone)).
  reflexivity.
Defined.

(** *** Range construction *)

(** Every range is built from one of the starts. *)
Lemma contiguous_ranges_from_starts (l : list (Z * Z * string)) (total_pages : Z)
      (r : Z * Z * Z * string) :
  In r (contiguous_ranges l total_pages) -> In (start_of_range r) l.
Proof.
  induction l as [|[[ch sp] title] l IH]; [intros []|].
  cbn [contiguous_ranges]. destruct (sp <=? _).
  - intros [<- | Hr]; [now left | right; now apply IH].
  - intros Hr. right. now apply IH.
Qed.

(** With strictly ascending start pages, the last of them in the document,
    every start keeps its range. *)
Lemma contiguous_ranges_keep_all (l : list (Z * Z * string)) (total_pages : Z) :
  Sorted (fun a b => page_of a < page_of b) l ->
  (l <> [] -> last_page l <= total_pages - 1) ->
  map start_of_range (contiguous_ranges l total_pages) = l.
Proof.
  induction 1 as [|[[ch sp] title] l Hs IH Hhd]; intros Hlast; [reflexivity|].
  cbn [contiguous_ranges]. destruct l as [|y l].
  - assert (Hle : sp <= total_pages - 1).
    { specialize (Hlast ltac:(discriminate)). unfold last_page, page_of in Hlast.
      simpl in Hlast. exact Hlast. }
    rewrite (proj2 (Z.leb_le _ _) Hle). reflexivity.
  - inversion Hhd as [|? ? Hlt]; subst. unfold page_of in Hlt at 1. simpl in Hlt.
    rewrite (proj2 (Z.leb_le _ _)) by lia.
    cbn [map]. f_equal. apply IH. intros _. apply Hlast. discriminate.
Qed.

(** X11: when the start pages are pairwise different and none lies after
    the last page of the document, [build_chapter_ranges] loses no
    chapter: its ranges are, in page order, one for each start, with the
    start's number, page and title. *)
Theorem X11_no_chapter_lost (starts : list ChapterStart) (total_pages : Z) :
  NoDup (map page_of starts) ->
  Forall (fun s => page_of s <= total_pages - 1) starts ->
  map start_of_range (build_chapter_ranges starts total_pages)
  = stable_sort by_page starts
  /\ List.length (build_chapter_ranges starts total_pages) = List.length starts.
Proof.
  intros Hnd Hub.
  assert (Hkeep : map start_of_range (build_chapter_ranges starts total_pages)
                  = stable_sort by_page starts).
  { rewrite build_chapter_ranges_contiguous. apply contiguous_ranges_keep_all.
    - apply sorted_strict; [apply sort_by_page_sorted|].
      apply (Permutation_NoDup (l := map page_of starts)); [|exact Hnd].
      apply Permutation_map, Permutation_sym, stable_sort_perm.
    - intros Hne. apply last_page_bound; [exact Hne|].
      apply (Permutation_Forall (Permutation_sym (stable_sort_perm by_page starts))).
      exact Hub. }
  split; [exact Hkeep|].
  rewrite <- (length_map start_of_range), Hkeep. apply stable_sort_length.
Qed.

Lemma X11_witness :
  map start_of_range
      (build_chapter_ranges [(3, 1, "Rings"); (1, 0, "Sets"); (2, 2, "Groups")] 4)
  = [(1, 0, "Sets"); (3, 1, "Rings"); (2, 2, "Groups")].
Proof.
  assert (Hnd : NoDup (map page_of [(3, 1, "Rings"); (1, 0, "Sets"); (2, 2, "Groups")])).
  { repeat constructor; simpl; intuition discriminate. }
  assert (Hub : Forall (fun s => page_of s <= 4 - 1)
                       [(3, 1, "Rings"); (1, 0, "Sets"); (2, 2, "Groups")])
    by (repeat constructor; unfold page_of; simpl; lia).
  rewrite (proj1 (X11_no_chapter_lost _ 4 Hnd Hub)). reflexivity.
Defined.

(** X12: whatever starts it is given, in whatever order,
    [build_chapter_ranges] returns ranges that are consecutive non-empty
    blocks beginning at the lowest start page: each is built from one of
    the starts, each one ends before the next begins, every page from the
    lowest start page to the last page of the document lies in one of
    them, and none reaches below the lowest start page. *)
Theorem X12_ranges_are_blocks (starts : list ChapterStart) (total_pages : Z) :
  starts <> [] ->
  let ranges := build_chapter_ranges starts total_pages in
  tiles (first_page starts) ranges
        (Z.max (last_page (stable_sort by_page starts)) total_pages)
  /\ (forall r, In r ranges ->
        In (start_of_range r) starts /\ range_start r <= range_end r)
  /\ (forall p, first_page starts <= p <= total_pages - 1 ->
        exists r, In r ranges /\ covers r p)
  /\ (forall r p, In r ranges -> covers r p -> first_page starts <= p)
  /\ (forall i j r1 r2, (i < j)%nat ->
        nth_error ranges i = Some r1 -> nth_error ranges j = Some r2 ->
        range_end r1 < range_start r2).
Proof.
  intros Hne ranges.
  pose proof (build_chapter_ranges_tiles starts total_pages Hne) as Ht.
  fold ranges in Ht.
  split; [exact Ht|]. split; [|split; [|split]].
  - intros r Hr. split; [|exact (tiles_blocks _ _ _ Ht r Hr)].
    apply (Permutation_in _ (stable_sort_perm by_page starts)).
    apply (contiguous_ranges_from_starts _ total_pages).
    unfold ranges in Hr. now rewrite build_chapter_ranges_contiguous in Hr.
  - intros p Hp. apply (tiles_cover _ _ _ Ht). lia.
  - intros r p Hr Hc. pose proof (tiles_within _ _ _ Ht r p Hr Hc). lia.
  - exact (tiles_ordered _ _ _ Ht).
Qed.

Lemma X12_witness :
  exists r, In r (build_chapter_ranges [(2, 7, "Groups"); (1, 2, "Sets"); (3, 7, "Rings")] 10)
            /\ covers r 9.
Proof.
  assert (Hne : [(2, 7, "Groups"); (1, 2, "Sets"); (3, 7, "Rings")] <> [])
    by discriminate.
  destruct (X12_ranges_are_blocks _ 10 Hne) as [_ [_ [Hcover _]]].
  apply Hcover. vm_compute. split; discriminate.
Defined.

(** X13: when the outline gives at least two chapter starts,
    [split_pdf_chapters.py] writes one file per range of [build_ranges],
    and these ranges are consecutive non-empty blocks from the first start
    page on: with starts from the outline, which come sorted by page, no
    page lands in two files. *)
Theorem X13_split_by_outline_writes_blocks (stem : string) (doc : Document) :
  let starts := SplitPdfChapters.detect_chapters_by_toc doc in
  let ranges := SplitPdfChapters.build_ranges starts (page_count doc) in
  (2 <= List.length starts)%nat ->
  SplitPdfChapters.main stem doc
  = SplitPdfChapters.Wrote
      (map (fun r => (SplitPdfChapters.outfile_name stem r, range_start r, range_end r))
           ranges)
  /\ tiles (page_of (hd no_start starts)) ranges
           (Z.max (last_page starts) (page_count doc))
  /\ (forall i j r1 r2, (i < j)%nat ->
        nth_error ranges i = Some r1 -> nth_error ranges j = Some r2 ->
        range_end r1 < range_start r2).
Proof.
  intros starts ranges Hlen.
  assert (Hmain : SplitPdfChapters.main stem doc
                  = SplitPdfChapters.Wrote
                      (map (fun r => (SplitPdfChapters.outfile_name stem r,
                                      range_start r, range_end r)) ranges)).
  { unfold SplitPdfChapters.main. fold starts.
    rewrite (proj2 (Nat.ltb_ge _ _)) by lia.
    destruct starts as [|s l] eqn:Es; [simpl in Hlen; lia|]. reflexivity. }
  assert (Hsorted : sorted_by_page starts).
  { unfold starts. rewrite detect_chapters_by_toc_same, get_toc_chapter_starts_loop.
    apply sort_by_page_sorted. }
  assert (Ht : tiles (page_of (hd no_start starts)) ranges
                     (Z.max (last_page starts) (page_count doc))).
  { unfold ranges. destruct starts as [|s l]; [simpl in Hlen; lia|].
    now apply build_ranges_tiles. }
  split; [exact Hmain|]. split; [exact Ht | exact (tiles_ordered _ _ _ Ht)].
Qed.

Lemma X13_witness :
  SplitPdfChapters.main "Book"
    (mkDocument [ (1, "Chapter 2 Groups", 3); (1, "Chapter 1 Sets", 1) ]
                [ "a"; "b"; "c"; "d" ])
  = SplitPdfChapters.Wrote
      [ ("Book_Chapter-01_Chapter-1-Sets.pdf", 0, 1);
        ("Book_Chapter-02_Chapter-2-Groups.pdf", 2, 3) ].
Proof.
  set (doc := mkDocument [ (1, "Chapter 2 Groups", 3); (1, "Chapter 1 Sets", 1) ]
                         [ "a"; "b"; "c"; "d" ]).
  assert (Hlen : (2 <= List.length (SplitPdfChapters.detect_chapters_by_toc doc))%nat)
    by (vm_compute; repeat constructor).
  rewrite (proj1 (X13_split_by_outline_writes_blocks "Book" doc Hlen)).
  reflexivity.
Defined.

(** *** File name slugs *)

Lemma chars_text (l : list ascii) : chars (text l) = l.
Proof. apply list_ascii_of_string_of_list_ascii. Qed.

Lemma text_chars (s : string) : text (chars s) = s.
Proof. apply string_of_list_ascii_of_string. Qed.

Lemma drop_while_Forall (P : ascii -> Prop) (p : ascii -> bool) (l : list ascii) :
  Forall P l -> Forall P (drop_while p l).
Proof.
  induction 1 as [|c l Hc Hl IH]; simpl; [constructor|].
  destruct (p c); [exact IH | now constructor].
Qed.

Lemma strip_with_Forall (P : ascii -> Prop) (p : ascii -> bool) (l : list ascii) :
  Forall P l -> Forall P (strip_with p l).
Proof.
  intros H. unfold strip_with.
  apply Forall_rev, drop_while_Forall, Forall_rev, drop_while_Forall, H.
Qed.

Lemma drop_while_keeps_last (p : ascii -> bool) (l : list ascii) (c : ascii) :
  p c = false -> drop_while p (l ++ [c]) = drop_while p l ++ [c].
Proof.
  intros Hc. induction l as [|a l IH]; simpl; [now rewrite Hc|].
  destruct (p a); [exact IH | reflexivity].
Qed.

(** What is left after stripping does not begin with a stripped
    character. *)
Lemma strip_with_head (p : ascii -> bool) (l : list ascii) :
  match strip_with p l with
  | [] => True
  | c :: _ => p c = false
  end.
Proof.
  unfold strip_with.
  assert (Hhead : match drop_while p l with [] => True | c :: _ => p c = false end).
  { induction l as [|a l IH]; simpl; [exact I|].
    destruct (p a) eqn:E; [exact IH | exact E]. }
  destruct (drop_while p l) as [|c t]; [exact I|].
  simpl rev. rewrite (drop_while_keeps_last p (rev t) c Hhead).
  rewrite rev_app_distr. simpl. exact Hhead.
Qed.

Lemma collapse_runs_Forall (p : ascii -> bool) (rep : ascii) (b : bool) (l : list ascii) :
  Forall (fun c => p c = false \/ c = rep) (collapse_runs p rep b l).
Proof.
  revert b. induction l as [|c l IH]; intros b; simpl; [constructor|].
  destruct (p c) eqn:E.
  - destruct b; [apply IH | constructor; [now right | apply IH]].
  - constructor; [now left | apply IH].
Qed.

Lemma slug_chars_safe (s : string) : Forall (fun c => slug_char c = true) (slug_chars s).
Proof.
  unfold slug_chars. apply strip_with_Forall.
  eapply Forall_impl; [|apply collapse_runs_Forall].
  intros c [H | ->]; [|reflexivity].
  unfold slug_char. apply negb_false_iff in H. now rewrite H.
Qed.

Lemma slug_chars_head (s : string) :
  match slug_chars s with
  | [] => True
  | c :: _ => c <> "-"%char
  end.
Proof.
  unfold slug_chars.
  pose proof (strip_with_head (Ascii.eqb "-"%char)
                (collapse_runs (fun c => negb (is_alnum c)) "-"%char false
                   (strip_with is_space
                      (collapse_runs is_space " "%char false (chars s))))) as H.
  destruct (strip_with _ _) as [|c t]; [exact I|].
  intros ->. discriminate.
Qed.

Lemma firstn_Forall {A} (P : A -> Prop) (n : nat) (l : list A) :
  Forall P l -> Forall P (firstn n l).
Proof.
  revert l. induction n as [|n IH]; intros l H; [constructor|].
  destruct H; simpl; [constructor | constructor; auto].
Qed.

Lemma first60_or_spec (dflt : string) (l : list ascii) :
  chars (first60_or dflt l) = match firstn 60 l with [] => chars dflt | l' => l' end.
Proof.
  unfold first60_or. destruct (firstn 60 l) as [|c l']; [reflexivity|].
  apply chars_text.
Qed.

(** X14: a slug is never empty, has at most 60 characters, consists of
    ASCII letters, digits and hyphens only, and does not begin with a
    hyphen; this holds for the [slugify] of both tools, whatever the
    title. *)
Theorem X14_slug_is_file_name_safe (title : string) :
  let ex := chars (ExtractExercises.slugify title) in
  let sp := chars (SplitPdfChapters.slugify title) in
  (1 <= List.length ex <= 60)%nat /\ (1 <= List.length sp <= 60)%nat
  /\ Forall (fun c => slug_char c = true) ex
  /\ Forall (fun c => slug_char c = true) sp
  /\ hd "x"%char ex <> "-"%char /\ hd "x"%char sp <> "-"%char.
Proof.
  intros ex sp. unfold ex, sp, ExtractExercises.slugify, SplitPdfChapters.slugify.
  rewrite !first60_or_spec.
  pose proof (slug_chars_safe title) as Hsafe.
  pose proof (slug_chars_head title) as Hhead.
  pose proof (firstn_le_length 60 (slug_chars title)) as Hlen.
  assert (Hfirst : Forall (fun c => slug_char c = true) (firstn 60 (slug_chars title)))
    by (apply firstn_Forall; exact Hsafe).
  destruct (slug_chars title) as [|c t] eqn:E.
  - simpl. repeat split; try lia; try (repeat constructor); discriminate.
  - cbn [firstn] in *. cbn [hd List.length] in *.
    repeat split; try lia; assumption.
Qed.

(** *** Keyword headings *)

Lemma lower_char_idem (c : ascii) : lower_char (lower_char c) = lower_char c.
Proof. destruct c as [[] [] [] [] [] [] [] []]; reflexivity. Qed.

Lemma is_space_lower_char (c : ascii) : is_space (lower_char c) = is_space c.
Proof. destruct c as [[] [] [] [] [] [] [] []]; reflexivity. Qed.

Lemma is_linebreak_lower_char (c : ascii) : is_linebreak (lower_char c) = is_linebreak c.
Proof. destruct c as [[] [] [] [] [] [] [] []]; reflexivity. Qed.

Lemma code_13_lower_char (c : ascii) :
  N.eqb (N_of_ascii (lower_char c)) 13 = N.eqb (N_of_ascii c) 13.
Proof. destruct c as [[] [] [] [] [] [] [] []]; reflexivity. Qed.

Lemma code_10_lower_char (c : ascii) :
  N.eqb (N_of_ascii (lower_char c)) 10 = N.eqb (N_of_ascii c) 10.
Proof. destruct c as [[] [] [] [] [] [] [] []]; reflexivity. Qed.

Lemma lower_idem (s : string) : lower (lower s) = lower s.
Proof.
  unfold lower. rewrite chars_text, map_map. f_equal.
  apply map_ext. apply lower_char_idem.
Qed.

Lemma drop_while_map (p : ascii -> bool) (f : ascii -> ascii) (l : list ascii) :
  (forall c, p (f c) = p c) ->
  drop_while p (map f l) = map f (drop_while p l).
Proof.
  intros Hp. induction l as [|c l IH]; simpl; [reflexivity|].
  rewrite Hp. now destruct (p c).
Qed.

Lemma strip_lower (s : string) : strip (lower s) = lower (strip s).
Proof.
  unfold strip, lower, strip_with. rewrite !chars_text. f_equal.
  rewrite (drop_while_map _ _ _ is_space_lower_char), <- map_rev.
  rewrite (drop_while_map _ _ _ is_space_lower_char), <- map_rev.
  reflexivity.
Qed.

Lemma splitlines_from_nil (cur : list ascii) :
  splitlines_from cur [] = if is_nil cur then [] else [rev cur].
Proof. reflexivity. Qed.

Lemma splitlines_from_nil_lower (cur : list ascii) :
  splitlines_from (map lower_char cur) []
  = map (map lower_char) (splitlines_from cur []).
Proof.
  rewrite !splitlines_from_nil. destruct cur as [|a cur]; [reflexivity|].
  cbn [is_nil map]. change (lower_char a :: map lower_char cur)
    with (map lower_char (a :: cur)).
  now rewrite map_rev.
Qed.

Lemma splitlines_from_lower_upto (n : nat) (l cur : list ascii) :
  (List.length l <= n)%nat ->
  splitlines_from (map lower_char cur) (map lower_char l)
  = map (map lower_char) (splitlines_from cur l).
Proof.
  revert l cur. induction n as [|n IH]; intros l cur Hlen.
  - destruct l; [|simpl in Hlen; lia]. apply splitlines_from_nil_lower.
  - destruct l as [|c l]; [apply splitlines_from_nil_lower|].
    simpl in Hlen. cbn [map splitlines_from]. rewrite is_linebreak_lower_char.
    destruct (is_linebreak c).
    + destruct l as [|d l'].
      * cbn [map]. now rewrite map_rev.
      * cbn [map]. rewrite code_13_lower_char, code_10_lower_char.
        simpl in Hlen.
        destruct (_ && _)%bool; cbn [map]; rewrite map_rev; f_equal.
        -- apply (IH l' []). lia.
        -- apply (IH (d :: l') []). simpl. lia.
    + apply (IH l (c :: cur)). lia.
Qed.

Lemma splitlines_lower (s : string) :
  splitlines (lower s) = map lower (splitlines s).
Proof.
  unfold splitlines, lower. rewrite chars_text.
  change (@nil ascii) with (map lower_char []) at 1.
  rewrite (splitlines_from_lower_upto (List.length (chars s))) by lia.
  rewrite !map_map. apply map_ext. intros l. now rewrite chars_text.
Qed.

Lemma existsb_map_comp {A B} (f : B -> bool) (g : A -> B) (l : list A) :
  existsb f (map g l) = existsb (fun a => f (g a)) l.
Proof. induction l as [|a l IH]; simpl; [reflexivity | now rewrite IH]. Qed.

Lemma existsb_pointwise {A} (f g : A -> bool) (l : list A) :
  (forall a, f a = g a) -> existsb f l = existsb g l.
Proof.
  intros H. induction l as [|a l IH]; simpl; [reflexivity | now rewrite H, IH].
Qed.

Lemma page_has_heading_lines (txt : string) (kws : list string) (n : nat) :
  page_has_heading txt kws n
  = existsb (fun ln => existsb (fun lk => startswith (lower ln) lk) (map lower kws))
            (map strip (firstn n (splitlines txt))).
Proof.
  unfold page_has_heading. apply existsb_pointwise.
  intros ln. now rewrite existsb_map_comp.
Qed.

(** X15: heading detection does not depend on the letter case of the page
    text nor on that of the keywords: lowering either changes nothing,
    and keyword lists that agree up to case detect the same pages. *)
Theorem X15_heading_case_insensitive (txt : string) (kws kws' : list string) (n : nat) :
  page_has_heading (lower txt) kws n = page_has_heading txt kws n
  /\ page_has_heading txt (map lower kws) n = page_has_heading txt kws n
  /\ (map lower kws = map lower kws' ->
      page_has_heading txt kws n = page_has_heading txt kws' n).
Proof.
  split; [|split].
  - rewrite !page_has_heading_lines, splitlines_lower.
    rewrite (firstn_map lower), !existsb_map_comp.
    apply existsb_pointwise. intros ln. now rewrite strip_lower, lower_idem.
  - rewrite !page_has_heading_lines, map_map.
    replace (map (fun x => lower (lower x)) kws) with (map lower kws); [reflexivity|].
    apply map_ext. intros kw. now rewrite lower_idem.
  - intros E. now rewrite !page_has_heading_lines, E.
Qed.

Lemma X15_witness :
  page_has_heading "Summary
EXERCISES FOR CHAPTER 3" ["exercises"] 25
  = page_has_heading "Summary
EXERCISES FOR CHAPTER 3" ["ExErCiSeS"] 25.
Proof.
  apply (proj2 (proj2 (X15_heading_case_insensitive _ ["exercises"] ["ExErCiSeS"] 25))).
  reflexivity.
Defined.

Lemma strip_prefix_some (p l r : list ascii) :
  strip_prefix p l = Some r <-> l = p ++ r.
Proof.
  revert l. induction p as [|a p IH]; intros l; simpl.
  - split; [intros E; now injection E as -> | intros ->; reflexivity].
  - destruct l as [|b l]; [split; discriminate|].
    destruct (Ascii.eqb a b) eqn:E.
    + apply Ascii.eqb_eq in E. subst b. rewrite IH. split; [now intros -> | intros H].
      now injection H.
    + split; [discriminate|]. intros H. injection H as -> _.
      rewrite Ascii.eqb_refl in E. discriminate.
Qed.

Lemma startswith_iff (s p : string) :
  startswith s p = true <-> exists r, chars s = chars p ++ r.
Proof.
  unfold startswith. destruct (strip_prefix (chars p) (chars s)) as [r|] eqn:E.
  - apply strip_prefix_some in E. split; [now exists r | reflexivity].
  - split; [discriminate|]. intros [r Hr]. apply strip_prefix_some in Hr. congruence.
Qed.

Lemma startswith_trans (a b c : string) :
  startswith a b = true -> startswith b c = true -> startswith a c = true.
Proof.
  rewrite !startswith_iff. intros [r1 H1] [r2 H2].
  exists (r2 ++ r1). now rewrite H1, H2, <- app_assoc.
Qed.

(** X16: a keyword that begins, letter case aside, with another keyword of
    the list adds nothing: the pages detected are the same without it.
    So in the default list "Exercises and Problems" is covered by
    "Exercises", and "PROBLEMS" by "Problems". *)
Theorem X16_longer_keyword_is_redundant (txt : string) (kws1 kws2 : list string)
        (kw kw' : string) (n : nat) :
  In kw' (kws1 ++ kws2) ->
  startswith (lower kw) (lower kw') = true ->
  page_has_heading txt (kws1 ++ kw :: kws2) n = page_has_heading txt (kws1 ++ kws2) n.
Proof.
  intros Hin Hpre. unfold page_has_heading. apply existsb_pointwise. intros ln.
  rewrite !existsb_app. cbn [existsb].
  destruct (startswith (lower ln) (lower kw)) eqn:E; [|reflexivity].
  assert (Hcov : existsb (fun k => startswith (lower ln) (lower k)) (kws1 ++ kws2) = true).
  { apply existsb_exists. exists kw'. split; [exact Hin|].
    now apply (startswith_trans _ (lower kw)). }
  rewrite existsb_app in Hcov. rewrite Hcov. now rewrite orb_true_r.
Qed.

Lemma X16_witness :
  page_has_heading "Exercises and problems for chapter 2" DEFAULT_KEYWORDS TOP_LINES
  = page_has_heading "Exercises and problems for chapter 2"
      [ "Exercises"; "PROBLEMS"; "Problems"; "Review Exercises"; "Review Questions" ]
      TOP_LINES.
Proof.
  apply (X16_longer_keyword_is_redundant "Exercises and problems for chapter 2"
           [ "Exercises"; "PROBLEMS"; "Problems"; "Review Exercises"; "Review Questions" ]
           [] "Exercises and Problems" "Exercises" TOP_LINES).
  - now left.
  - reflexivity.
Defined.

(** *** Chapter numbers in text *)

(** Reading the digits written for a number gives the number back. *)
Lemma of_uint_acc_digits (d : Decimal.uint) (acc : positive) :
  Z.pos (Pos.of_uint_acc d acc)
  = fold_left (fun a c => 10 * a + digit_value c)
              (chars (NilEmpty.string_of_uint d)) (Z.pos acc).
Proof.
  revert acc. induction d; intros acc; cbn [NilEmpty.string_of_uint]; [reflexivity | ..];
    unfold chars; cbn [list_ascii_of_string fold_left Pos.of_uint_acc];
    fold (chars (NilEmpty.string_of_uint d)); rewrite IHd; f_equal;
    try (match goal with
         | |- context [digit_value ?c] =>
             let v := eval vm_compute in (digit_value c) in
             change (digit_value c) with v
         end; lia).
Qed.

Lemma of_uint_digits (d : Decimal.uint) :
  Z.of_N (Pos.of_uint d) = int_of_digits (chars (NilEmpty.string_of_uint d)).
Proof.
  unfold int_of_digits.
  induction d; cbn [NilEmpty.string_of_uint]; [reflexivity | ..];
    unfold chars; cbn [list_ascii_of_string fold_left Pos.of_uint];
    fold (chars (NilEmpty.string_of_uint d));
    [ exact IHd | rewrite N2Z.inj_pos, of_uint_acc_digits; reflexivity .. ].
Qed.

Lemma string_of_uint_digits (d : Decimal.uint) :
  Forall (fun c => is_digit c = true) (chars (NilEmpty.string_of_uint d)).
Proof.
  induction d; cbn [NilEmpty.string_of_uint]; [constructor | ..];
    unfold chars; cbn [list_ascii_of_string]; constructor;
    solve [reflexivity | exact IHd].
Qed.

(** [str(n)] of a number that is not negative: a non-empty run of digits
    whose value is the number. *)
Lemma str_of_int_digits (n : Z) :
  0 <= n ->
  chars (str_of_int n) <> []
  /\ Forall (fun c => is_digit c = true) (chars (str_of_int n))
  /\ int_of_digits (chars (str_of_int n)) = n.
Proof.
  intros Hn. destruct n as [|p|p]; [| |lia].
  - repeat split; [discriminate | repeat constructor].
  - unfold str_of_int, Z.to_int, NilZero.string_of_int, NilZero.string_of_uint.
    pose proof (Unsigned.to_uint_nonnil p) as Hnil.
    pose proof (Unsigned.of_to p) as Hof.
    destruct (Pos.to_uint p) as [|d|d|d|d|d|d|d|d|d|d] eqn:E; [contradiction | ..];
      (split; [discriminate|]); (split; [apply string_of_uint_digits|]);
      rewrite <- of_uint_digits, Hof; reflexivity.
Qed.

Ltac by_ascii_cases c :=
  destruct c as [[] [] [] [] [] [] [] []]; vm_compute; intros; congruence.

Lemma digit_not_space (c : ascii) : is_digit c = true -> is_space c = false.
Proof. by_ascii_cases c. Qed.

Lemma digit_is_word (c : ascii) : is_digit c = true -> is_word c = true.
Proof. by_ascii_cases c. Qed.

Lemma upper_not_space (c : ascii) : is_upper c = true -> is_space c = false.
Proof. by_ascii_cases c. Qed.

Lemma digit_not_dot (c : ascii) : is_digit c = true -> c <> "."%char.
Proof. by_ascii_cases c. Qed.

Lemma digit_not_c (c : ascii) :
  is_digit c = true ->
  Ascii.eqb (lower_char "C") (lower_char c) = false /\ Ascii.eqb "C" c = false.
Proof. destruct c as [[] [] [] [] [] [] [] []]; vm_compute; intros; split; congruence. Qed.

Lemma digit_value_range (c : ascii) : is_digit c = true -> 0 <= digit_value c <= 9.
Proof. destruct c as [[] [] [] [] [] [] [] []]; vm_compute; intros; split; congruence. Qed.

Lemma take_drop_while_run (p : ascii -> bool) (run rest : list ascii) :
  Forall (fun c => p c = true) run -> run_ends p rest ->
  take_while p (run ++ rest) = run /\ drop_while p (run ++ rest) = rest.
Proof.
  intros Hrun Hend. induction Hrun as [|c run Hc Hrun IH]; simpl.
  - destruct rest as [|c rest]; [now split|]. simpl in *. now rewrite Hend.
  - rewrite Hc. destruct IH as [-> ->]. now split.
Qed.

Lemma take_while_Forall (p : ascii -> bool) (l : list ascii) :
  Forall (fun c => p c = true) (take_while p l).
Proof.
  induction l as [|c l IH]; simpl; [constructor|].
  destruct (p c) eqn:E; [now constructor | constructor].
Qed.

Lemma digits_then_boundary_run (ds rest : list ascii) :
  ds <> [] -> Forall (fun c => is_digit c = true) ds -> run_ends is_word rest ->
  digits_then_boundary (ds ++ rest) = Some ds.
Proof.
  intros Hne Hds Hend. unfold digits_then_boundary.
  assert (Hend' : run_ends is_digit rest).
  { destruct rest as [|c rest]; [exact I|]. simpl in *.
    destruct (is_digit c) eqn:E; [|reflexivity].
    apply digit_is_word in E. congruence. }
  destruct (take_drop_while_run is_digit ds rest Hds Hend') as [-> ->].
  destruct ds; [contradiction|]. cbn [is_nil].
  destruct rest as [|c rest]; [reflexivity|]. simpl in Hend. now rewrite Hend.
Qed.

Lemma digits_then_boundary_some (l g : list ascii) :
  digits_then_boundary l = Some g ->
  g <> [] /\ Forall (fun c => is_digit c = true) g
  /\ exists rest, l = g ++ rest /\ run_ends is_word rest.
Proof.
  unfold digits_then_boundary. intros H.
  assert (Hsplit : l = take_while is_digit l ++ drop_while is_digit l).
  { clear H. induction l as [|c l IH]; simpl; [reflexivity|].
    destruct (is_digit c); simpl; [f_equal; exact IH | reflexivity]. }
  pose proof (take_while_Forall is_digit l) as Hds.
  destruct (take_while is_digit l) as [|d ds] eqn:Et; [discriminate|]. cbn [is_nil] in H.
  destruct (drop_while is_digit l) as [|c rest] eqn:Ed.
  - injection H as <-. split; [discriminate|]. split; [exact Hds|].
    exists []. now split.
  - destruct (is_word c) eqn:Ew; [discriminate|]. injection H as <-.
    split; [discriminate|]. split; [exact Hds|]. exists (c :: rest). now split.
Qed.

Lemma skip_spaces1_run (ws rest : list ascii) :
  ws <> [] -> Forall (fun c => is_space c = true) ws -> run_ends is_space rest ->
  skip_spaces1 (ws ++ rest) = Some rest.
Proof.
  intros Hne Hws Hend. unfold skip_spaces1.
  destruct (take_drop_while_run is_space ws rest Hws Hend) as [-> ->].
  now destruct ws.
Qed.

Lemma strip_prefix_ci_app (p w rest : list ascii) :
  map lower_char p = map lower_char w ->
  strip_prefix_ci p (w ++ rest) = Some rest.
Proof.
  revert w. induction p as [|a p IH]; intros w H.
  - destruct w; [reflexivity | discriminate].
  - destruct w as [|b w]; [discriminate|]. simpl in H. injection H as Hab Hrest.
    simpl. rewrite Hab, Ascii.eqb_refl. now apply IH.
Qed.

Lemma int_of_digits_nonneg (ds : list ascii) :
  Forall (fun c => is_digit c = true) ds -> 0 <= int_of_digits ds.
Proof.
  unfold int_of_digits. intros H.
  assert (Hacc : forall a, 0 <= a ->
            0 <= fold_left (fun acc c => 10 * acc + digit_value c) ds a).
  { induction H as [|c ds Hc Hds IH]; intros a Ha; cbn [fold_left]; [exact Ha|].
    apply IH. pose proof (digit_value_range c Hc). lia. }
  apply Hacc. lia.
Qed.

Lemma drop_spaces_none (l : list ascii) :
  run_ends is_space l -> drop_while is_space l = l.
Proof. destruct l as [|c l]; [reflexivity|]. simpl. now intros ->. Qed.

Lemma digits_head_not_space (ds rest : list ascii) :
  ds <> [] -> Forall (fun c => is_digit c = true) ds -> run_ends is_space (ds ++ rest).
Proof.
  intros Hne Hds. destruct Hds as [|c ds Hc _]; [contradiction|].
  simpl. now apply digit_not_space.
Qed.

(** X17: both forms of chapter heading give their number, as long as the
    number is written with no more digits than [int] accepts (4300): the
    word "chapter" in any letter case, white space, the number and then a
    word boundary; and the number, white space, a capital letter and a
    letter.  This holds for the patterns of both tools. *)
Theorem X17_headings_give_their_number (n : Z) (ws rest : list ascii) :
  0 <= n -> Z.of_nat (List.length (chars (str_of_int n))) <= INT_MAX_STR_DIGITS ->
  ws <> [] -> Forall (fun c => is_space c = true) ws ->
  (forall w, lower w = "chapter" -> run_ends is_word rest ->
     parse_chapter_number CHAPTER_HEADING_PATTERNS
       (text (chars w ++ ws ++ chars (str_of_int n) ++ rest)) = Some n)
  /\ (forall c1 c2, is_upper c1 = true -> is_alpha c2 = true ->
        parse_chapter_number CHAPTER_HEADING_PATTERNS
          (text (chars (str_of_int n) ++ ws ++ c1 :: c2 :: rest)) = Some n)
  /\ SplitPdfChapters.CHAPTER_PATTERNS = CHAPTER_HEADING_PATTERNS.
Proof.
  intros Hn Hlim Hws Hspaces.
  destruct (str_of_int_digits n Hn) as [Hne [Hds Hval]].
  assert (Hint : py_int (chars (str_of_int n)) = Some n).
  { unfold py_int. rewrite (proj2 (Z.ltb_ge _ _) Hlim). now rewrite Hval. }
  split; [|split; [|reflexivity]].
  - intros w Hw Hend. unfold parse_chapter_number. rewrite chars_text.
    assert (Hlow : map lower_char (chars "Chapter") = map lower_char (chars w)).
    { apply (f_equal chars) in Hw. unfold lower in Hw. rewrite chars_text in Hw.
      now rewrite Hw. }
    assert (Hhead : run_ends is_space (chars w ++ ws ++ chars (str_of_int n) ++ rest)).
    { destruct (chars w) as [|c w']; [discriminate|]. simpl in *.
      injection Hlow as Hc _. rewrite <- is_space_lower_char, <- Hc. reflexivity. }
    cbn [CHAPTER_HEADING_PATTERNS first_match]. unfold rx_chapter at 1.
    rewrite (drop_spaces_none _ Hhead), (strip_prefix_ci_app _ _ _ Hlow).
    rewrite (skip_spaces1_run ws _ Hws Hspaces (digits_head_not_space _ rest Hne Hds)).
    rewrite (digits_then_boundary_run _ rest Hne Hds Hend). exact Hint.
  - intros c1 c2 H1 H2. unfold parse_chapter_number. rewrite chars_text.
    set (tail := ws ++ c1 :: c2 :: rest).
    assert (Htail : run_ends is_digit tail).
    { unfold tail. destruct Hspaces as [|s ws' Hs _]; [contradiction|]. simpl.
      destruct (is_digit s) eqn:E; [|reflexivity].
      apply digit_not_space in E. congruence. }
    assert (Hhead : run_ends is_space (chars (str_of_int n) ++ tail))
      by now apply digits_head_not_space.
    assert (Hno : forall ic word,
              (ic = true /\ word = "Chapter") \/ (ic = false /\ word = "CHAPTER") ->
              rx_chapter ic word (chars (str_of_int n) ++ tail) = None).
    { intros ic word Hcase. unfold rx_chapter. rewrite (drop_spaces_none _ Hhead).
      destruct (chars (str_of_int n)) as [|d ds] eqn:Ed; [contradiction|].
      inversion Hds as [|? ? Hd _]; subst.
      destruct (digit_not_c d Hd) as [Hci Hcs].
      destruct Hcase as [[-> ->] | [-> ->]]; unfold chars;
        cbn [list_ascii_of_string strip_prefix_ci strip_prefix app];
        [now rewrite Hci | now rewrite Hcs]. }
    cbn [CHAPTER_HEADING_PATTERNS first_match].
    rewrite (Hno true "Chapter") by (left; now split).
    rewrite (Hno false "CHAPTER") by (right; now split).
    unfold rx_numeric_title. rewrite (drop_spaces_none _ Hhead).
    destruct (take_drop_while_run is_digit _ tail Hds Htail) as [-> ->].
    destruct (chars (str_of_int n)) as [|d ds] eqn:Ed; [contradiction|]. cbn [is_nil].
    unfold tail. rewrite (skip_spaces1_run ws (c1 :: c2 :: rest) Hws Hspaces)
      by (simpl; now apply upper_not_space).
    rewrite H1, H2. exact Hint.
Qed.

Lemma X17_witness :
  parse_chapter_number CHAPTER_HEADING_PATTERNS
    (text (chars "cHaPtEr" ++ chars "  	" ++ chars (str_of_int 12) ++ chars ": Rings"))
  = Some 12
  /\ parse_chapter_number CHAPTER_HEADING_PATTERNS
       (text (chars (str_of_int 12) ++ chars "  	" ++ chars "Rings and fields"))
     = Some 12.
Proof.
  assert (Hws : chars "  	" <> []) by discriminate.
  assert (Hsp : Forall (fun c => is_space c = true) (chars "  	"))
    by (repeat constructor).
  assert (Hlim : Z.of_nat (List.length (chars (str_of_int 12))) <= INT_MAX_STR_DIGITS)
    by (vm_compute; discriminate).
  destruct (X17_headings_give_their_number 12 (chars "  	") (chars "ngs and fields")
              ltac:(lia) Hlim Hws Hsp) as [_ [Hb _]].
  destruct (X17_headings_give_their_number 12 (chars "  	") (chars ": Rings")
              ltac:(lia) Hlim Hws Hsp) as [Ha _].
  split.
  - apply Ha; reflexivity.
  - apply (Hb "R"%char "i"%char); reflexivity.
Defined.

(** X18: a line that reads the chapter number, a dot and an item number,
    after any white space and before a word boundary, counts as a numbered
    line of that chapter. *)
Theorem X18_numbered_line_matches (ch_num k : Z) (ws rest : list ascii) :
  0 <= ch_num -> 0 <= k ->
  Forall (fun c => is_space c = true) ws -> run_ends is_word rest ->
  rx_num ch_num (ws ++ chars (str_of_int ch_num) ++ "."%char
                    :: chars (str_of_int k) ++ rest) = true.
Proof.
  intros Hch Hk Hws Hend.
  destruct (str_of_int_digits ch_num Hch) as [Hne [Hds _]].
  destruct (str_of_int_digits k Hk) as [Hnek [Hdsk _]].
  unfold rx_num.
  destruct (take_drop_while_run is_space ws
              (chars (str_of_int ch_num) ++ "."%char :: chars (str_of_int k) ++ rest)
              Hws (digits_head_not_space _ _ Hne Hds)) as [_ ->].
  rewrite (proj2 (strip_prefix_some _ _ _) eq_refl).
  now rewrite (digits_then_boundary_run _ rest Hnek Hdsk Hend).
Qed.

Lemma X18_witness :
  rx_num 12 (chars "  " ++ chars (str_of_int 12) ++ "."%char
                  :: chars (str_of_int 10) ++ chars ". Show that") = true.
Proof.
  apply X18_numbered_line_matches; try lia; repeat constructor.
Defined.

Lemma digits_before_dot (a b ra rb : list ascii) :
  Forall (fun c => is_digit c = true) a -> Forall (fun c => is_digit c = true) b ->
  a ++ "."%char :: ra = b ++ "."%char :: rb -> a = b.
Proof.
  intros Ha. revert b. induction Ha as [|c a Hc Ha IH]; intros b Hb E.
  - destruct Hb as [|d b Hd _]; [reflexivity|]. simpl in E. injection E as E _.
    exfalso. now apply (digit_not_dot d Hd).
  - destruct Hb as [|d b Hd Hb]; simpl in E.
    + injection E as E _. exfalso. now apply (digit_not_dot c Hc).
    + injection E as -> E. f_equal. now apply IH.
Qed.

(** X19: a line counts for at most one chapter: no line is a numbered line
    of two different chapter numbers, so the items 11.3 of chapter 11 are
    never taken for items of chapter 1. *)
Theorem X19_numbered_line_of_one_chapter (a b : Z) (line : list ascii) :
  0 <= a -> 0 <= b ->
  rx_num a line = true -> rx_num b line = true -> a = b.
Proof.
  intros Ha Hb Hma Hmb.
  destruct (str_of_int_digits a Ha) as [_ [Hda Hva]].
  destruct (str_of_int_digits b Hb) as [_ [Hdb Hvb]].
  unfold rx_num in Hma, Hmb.
  destruct (strip_prefix (chars (str_of_int a)) (drop_while is_space line))
    as [[|ca ra]|] eqn:Ea; try discriminate.
  destruct (strip_prefix (chars (str_of_int b)) (drop_while is_space line))
    as [[|cb rb]|] eqn:Eb; try discriminate.
  destruct (Ascii.eqb_spec ca "."%char) as [->|Hna];
    [|destruct ca as [[] [] [] [] [] [] [] []]; try discriminate; now elim Hna].
  destruct (Ascii.eqb_spec cb "."%char) as [->|Hnb];
    [|destruct cb as [[] [] [] [] [] [] [] []]; try discriminate; now elim Hnb].
  apply strip_prefix_some in Ea, Eb. rewrite Ea in Eb.
  apply digits_before_dot in Eb; [|assumption..].
  rewrite <- Hva, <- Hvb. now rewrite Eb.
Qed.

Lemma X19_witness :
  rx_num 11 (chars "11.3 Show that") = true /\ rx_num 1 (chars "11.3 Show that") = false.
Proof.
  split; [reflexivity|].
  destruct (rx_num 1 (chars "11.3 Show that")) eqn:E; [|reflexivity].
  assert (H : 1 = 11)
    by (apply (X19_numbered_line_of_one_chapter 1 11 (chars "11.3 Show that"));
        [lia | lia | exact E | reflexivity]).
  discriminate H.
Defined.

(** The number a pattern reads is the value of a run of digits. *)
Lemma parse_chapter_number_nonneg (s : string) (n : Z) :
  parse_chapter_number CHAPTER_HEADING_PATTERNS s = Some n -> 0 <= n.
Proof.
  unfold parse_chapter_number.
  destruct (first_match CHAPTER_HEADING_PATTERNS (chars s)) as [g|] eqn:E;
    [|discriminate].
  unfold py_int. destruct (INT_MAX_STR_DIGITS <? _); [discriminate|].
  intros H. injection H as <-. apply int_of_digits_nonneg.
  cbn [CHAPTER_HEADING_PATTERNS first_match] in E.
  assert (Hchapter : forall ic word l g',
            rx_chapter ic word l = Some g' -> Forall (fun c => is_digit c = true) g').
  { intros ic word l g' H. unfold rx_chapter in H.
    destruct ((if ic then strip_prefix_ci else strip_prefix) _ _); [|discriminate].
    destruct (skip_spaces1 _); [|discriminate].
    now apply digits_then_boundary_some in H. }
  destruct (rx_chapter true "Chapter" (chars s)) as [g1|] eqn:E1.
  { injection E as <-. now apply (Hchapter _ _ _ _ E1). }
  destruct (rx_chapter false "CHAPTER" (chars s)) as [g2|] eqn:E2.
  { injection E as <-. now apply (Hchapter _ _ _ _ E2). }
  destruct (rx_numeric_title (chars s)) as [g3|] eqn:E3; [|discriminate].
  injection E as <-. unfold rx_numeric_title in E3.
  destruct (is_nil _); [discriminate|].
  destruct (skip_spaces1 _) as [[|c1 [|c2 r]]|]; try discriminate.
  destruct (_ && _)%bool; [|discriminate]. injection E3 as <-.
  apply take_while_Forall.
Qed.

(** A line that the upper-case pattern matches is matched by the pattern
    that ignores case, with the same digits. *)
Lemma rx_chapter_upper_ignorecase (l g : list ascii) :
  rx_chapter false "CHAPTER" l = Some g -> rx_chapter true "Chapter" l = Some g.
Proof.
  unfold rx_chapter.
  destruct (strip_prefix (chars "CHAPTER") (drop_while is_space l)) as [s2|] eqn:E;
    [|discriminate].
  apply strip_prefix_some in E. rewrite E.
  now rewrite (strip_prefix_ci_app (chars "Chapter") (chars "CHAPTER") s2 eq_refl).
Qed.

(** A line that begins with the word "chapter" does not begin with a digit. *)
Lemma rx_chapter_not_numeric (l g : list ascii) :
  rx_chapter true "Chapter" l = Some g -> rx_numeric_title l = None.
Proof.
  unfold rx_chapter, rx_numeric_title.
  destruct (drop_while is_space l) as [|c s1]; [discriminate|].
  unfold chars. cbn [list_ascii_of_string strip_prefix_ci take_while].
  destruct (is_digit c) eqn:Ed; [|reflexivity].
  destruct (digit_not_c c Ed) as [-> _]. discriminate.
Qed.

(** Under the patterns of the tools the page scan reads the same number
    from a line as the loop over the outline does from a title: where
    [int] raises on the digits after "chapter", the patterns tried next
    find the same digits or none. *)
Lemma scan_chapter_number_parse (s : string) :
  scan_chapter_number CHAPTER_HEADING_PATTERNS s
  = parse_chapter_number CHAPTER_HEADING_PATTERNS s.
Proof.
  unfold parse_chapter_number.
  cbn [CHAPTER_HEADING_PATTERNS scan_chapter_number first_match].
  destruct (rx_chapter true "Chapter" (chars s)) as [g1|] eqn:E1.
  - destruct (py_int g1) as [n|] eqn:Ei; [reflexivity|].
    rewrite (rx_chapter_not_numeric _ _ E1).
    destruct (rx_chapter false "CHAPTER" (chars s)) as [g2|] eqn:E2; [|reflexivity].
    apply rx_chapter_upper_ignorecase in E2. rewrite E1 in E2.
    injection E2 as <-. now rewrite Ei.
  - destruct (rx_chapter false "CHAPTER" (chars s)) as [g2|] eqn:E2.
    + apply rx_chapter_upper_ignorecase in E2. congruence.
    + destruct (rx_numeric_title (chars s)) as [g3|]; [|reflexivity].
      now destruct (py_int g3).
Qed.

(** [int] raises exactly on a run of more than 4300 digits. *)
Lemma py_int_raises_iff (ds : list ascii) :
  py_int ds = None <-> INT_MAX_STR_DIGITS < Z.of_nat (List.length ds).
Proof.
  unfold py_int. destruct (INT_MAX_STR_DIGITS <? _) eqn:E.
  - apply Z.ltb_lt in E. tauto.
  - apply Z.ltb_ge in E. split; [discriminate | lia].
Qed.

Lemma first_heading_some (lines : list string) (ch : Z) (ln : string) :
  first_heading lines = Some (ch, ln) ->
  In ln lines /\ parse_chapter_number CHAPTER_HEADING_PATTERNS ln = Some ch.
Proof.
  induction lines as [|l lines IH]; [discriminate|]. cbn [first_heading].
  rewrite scan_chapter_number_parse.
  destruct (parse_chapter_number CHAPTER_HEADING_PATTERNS l) as [n|] eqn:E.
  - intros H. injection H as <- <-. split; [now left | exact E].
  - intros H. destruct (IH H) as [Hin Hp]. split; [now right | exact Hp].
Qed.

Lemma toc_fold_nonneg (l : list (Z * string * Z)) (st : list (Z * Z * string) * list Z) :
  Forall (fun c => 0 <= chapter_of c) (fst st) ->
  Forall (fun c => 0 <= chapter_of c) (fst (fold_left ExtractExercises.toc_step l st)).
Proof.
  revert st. induction l as [|e l IH]; intros [chapters seen] H; [exact H|].
  cbn [fold_left]. rewrite toc_step_cases.
  destruct (negb _); [now apply IH|].
  destruct (existsb _ seen); [now apply IH|].
  apply IH. cbn [fst] in *. apply Forall_app. split; [exact H|].
  constructor; [|constructor]. unfold start_of_entry, chapter_of. cbn [fst].
  unfold resolved_number, declared_number.
  destruct (parse_chapter_number _ _) as [n|] eqn:E; [|lia].
  now apply parse_chapter_number_nonneg in E.
Qed.

(** X20: no detector gives a negative chapter number, and the title the
    page scan records with a start is a stripped leading line of that page
    which reads as a chapter heading with that number. *)
Theorem X20_chapter_numbers (doc : Document) :
  Forall (fun s => 0 <= chapter_of s) (get_toc_chapter_starts doc)
  /\ Forall (fun s => 0 <= chapter_of s) (SplitPdfChapters.detect_chapters_by_toc doc)
  /\ Forall (fun s => 0 <= chapter_of s
                      /\ parse_chapter_number CHAPTER_HEADING_PATTERNS (snd s)
                         = Some (chapter_of s))
            (scan_for_chapter_starts doc)
  /\ Forall (fun s => 0 <= chapter_of s
                      /\ parse_chapter_number CHAPTER_HEADING_PATTERNS (snd s)
                         = Some (chapter_of s))
            (SplitPdfChapters.detect_chapters_by_scanning doc).
Proof.
  assert (Htoc : Forall (fun s => 0 <= chapter_of s) (get_toc_chapter_starts doc)).
  { rewrite get_toc_chapter_starts_loop.
    apply (Permutation_Forall (Permutation_sym (stable_sort_perm by_page _))).
    apply toc_fold_nonneg. constructor. }
  assert (Hscan : forall top l,
            Permutation l (dict_values (scan_pages_top top (page_texts doc) 0 [])) ->
            Forall (fun s => 0 <= chapter_of s
                             /\ parse_chapter_number CHAPTER_HEADING_PATTERNS (snd s)
                                = Some (chapter_of s)) l).
  { intros top l Hperm. apply Forall_forall. intros [[ch p] ln] Hin.
    apply (Permutation_in _ Hperm) in Hin. apply scan_values_iff in Hin.
    destruct Hin as [_ [[txt [_ Hh]] _]]. unfold page_heading in Hh.
    apply first_heading_some in Hh. destruct Hh as [_ Hp].
    unfold chapter_of. cbn [fst snd]. split; [|exact Hp].
    now apply parse_chapter_number_nonneg in Hp. }
  split; [exact Htoc|]. split; [now rewrite detect_chapters_by_toc_same|]. split.
  - apply (Hscan 25%nat). apply scan_for_chapter_starts_values.
  - apply (Hscan 20%nat). apply detect_chapters_by_scanning_values.
Qed.

(** *** [main] of [split_pdf_chapters.py] *)

Lemma scan_values_nil_iff (top : nat) (pages : list string) :
  dict_values (scan_pages_top top pages 0 []) = []
  <-> Forall (fun txt => page_heading top txt = None) pages.
Proof.
  split.
  - intros Hnil. apply Forall_forall. intros txt Hin.
    destruct (page_heading top txt) as [[ch ln]|] eqn:Eh; [exfalso | reflexivity].
    apply In_nth_error in Hin. destruct Hin as [q Hq].
    destruct (scan_all_invariant top pages) as [_ [_ Hall]].
    pose proof (Hall q txt ch ln Hq Eh) as Hkey.
    unfold dict_values in Hnil. apply map_eq_nil in Hnil.
    rewrite Hnil in Hkey. contradiction.
  - intros Hall.
    destruct (dict_values (scan_pages_top top pages 0 [])) as [|[[ch p] ln] l] eqn:E;
      [reflexivity|].
    exfalso.
    assert (Hin : In (ch, p, ln) (dict_values (scan_pages_top top pages 0 [])))
      by (rewrite E; now left).
    apply scan_values_iff in Hin. destruct Hin as [_ [[txt [Hn Hh]] _]].
    apply nth_error_In in Hn.
    pose proof (proj1 (Forall_forall _ _) Hall txt Hn) as Hnone. simpl in Hnone.
    congruence.
Qed.

(** X21: [main] of [split_pdf_chapters.py] exits with its message exactly
    when the outline gives fewer than two chapter starts and no page has a
    chapter heading among its 20 leading lines; in every other case it
    writes one file per range built from the starts, the outline's when
    there are two or more and the scan's otherwise. *)
Theorem X21_split_exits_iff_no_chapter_structure (stem : string) (doc : Document) :
  let toc_starts := SplitPdfChapters.detect_chapters_by_toc doc in
  let no_structure :=
    (List.length toc_starts < 2)%nat
    /\ Forall (fun txt => page_heading 20 txt = None) (page_texts doc) in
  let starts := if (List.length toc_starts <? 2)%nat
                then SplitPdfChapters.detect_chapters_by_scanning doc
                else toc_starts in
  ((exists message, SplitPdfChapters.main stem doc = SplitPdfChapters.SysExit message)
   <-> no_structure)
  /\ (~ no_structure ->
      starts <> []
      /\ SplitPdfChapters.main stem doc
         = SplitPdfChapters.Wrote
             (map (fun r => (SplitPdfChapters.outfile_name stem r,
                             range_start r, range_end r))
                  (SplitPdfChapters.build_ranges starts (page_count doc)))).
Proof.
  intros toc_starts no_structure starts.
  assert (Hscan : SplitPdfChapters.detect_chapters_by_scanning doc = []
                  <-> Forall (fun txt => page_heading 20 txt = None) (page_texts doc)).
  { rewrite <- scan_values_nil_iff. split; intros H.
    - apply Permutation_nil. rewrite <- H.
      apply detect_chapters_by_scanning_values.
    - apply Permutation_nil. rewrite <- H.
      apply Permutation_sym, detect_chapters_by_scanning_values. }
  assert (Hmain : SplitPdfChapters.main stem doc
                  = if is_nil starts
                    then SplitPdfChapters.SysExit
                           "Could not auto-detect chapter starts (no TOC and no 'Chapter N' headings found)."
                    else SplitPdfChapters.Wrote
                           (map (fun r => (SplitPdfChapters.outfile_name stem r,
                                           range_start r, range_end r))
                                (SplitPdfChapters.build_ranges starts (page_count doc))))
    by reflexivity.
  assert (Hnil : starts = [] <-> no_structure).
  { unfold starts, no_structure.
    destruct (List.length toc_starts <? 2)%nat eqn:E.
    - apply Nat.ltb_lt in E. rewrite Hscan. tauto.
    - apply Nat.ltb_ge in E. split; [intros H; rewrite H in E; simpl in E; lia|].
      intros [Hlt _]. lia. }
  split.
  - rewrite <- Hnil, Hmain. destruct starts; cbn [is_nil].
    + split; [reflexivity | now eexists].
    + split; [intros [m Hm]; discriminate | discriminate].
  - intros Hstruct. assert (Hne : starts <> []) by (intros E; apply Hstruct, Hnil, E).
    split; [exact Hne|]. rewrite Hmain. destruct starts; [contradiction | reflexivity].
Qed.

Lemma X21_witness :
  exists message,
    SplitPdfChapters.main "Book" (mkDocument [(1, "Chapter 1", 1)] ["no heading"; "none"])
    = SplitPdfChapters.SysExit message.
Proof.
  apply (proj2 (proj1 (X21_split_exits_iff_no_chapter_structure "Book"
                         (mkDocument [(1, "Chapter 1", 1)] ["no heading"; "none"])))).
  split; [simpl; lia | repeat constructor].
Defined.

(** *** File names *)

Lemma chars_append (s1 s2 : string) : chars (s1 ++ s2)%string = chars s1 ++ chars s2.
Proof.
  unfold chars. induction s1 as [|c s1 IH]; simpl; [reflexivity | now rewrite IH].
Qed.

Lemma chars_length (s : string) : List.length (chars s) = String.length s.
Proof. unfold chars. induction s as [|c s IH]; simpl; [reflexivity | now rewrite IH]. Qed.

Lemma digits_before_sep (x : ascii) (a b ra rb : list ascii) :
  is_digit x = false ->
  Forall (fun c => is_digit c = true) a -> Forall (fun c => is_digit c = true) b ->
  a ++ x :: ra = b ++ x :: rb -> a = b.
Proof.
  intros Hx Ha. revert b. induction Ha as [|c a Hc Ha IH]; intros b Hb E.
  - destruct Hb as [|d b Hd _]; [reflexivity|]. simpl in E. injection E as E _.
    subst d. congruence.
  - destruct Hb as [|d b Hd Hb]; simpl in E.
    + injection E as E _. subst c. congruence.
    + injection E as -> E. f_equal. now apply IH.
Qed.

(** X22: the chapter part of a file name, [f"{n:02d}"], is for a number
    that is not negative a run of at least two digits whose value is the
    number. *)
Theorem X22_zero_padded_number (n : Z) :
  0 <= n ->
  (2 <= List.length (chars (format_02d n)))%nat
  /\ Forall (fun c => is_digit c = true) (chars (format_02d n))
  /\ int_of_digits (chars (format_02d n)) = n.
Proof.
  intros Hn. destruct (str_of_int_digits n Hn) as [Hne [Hds Hval]].
  unfold format_02d. rewrite <- chars_length.
  destruct (List.length (chars (str_of_int n)) <? 2)%nat eqn:E.
  - change (chars (String "0" (str_of_int n))) with ("0"%char :: chars (str_of_int n)).
    split; [|split].
    + destruct (chars (str_of_int n)); [contradiction | simpl; lia].
    + constructor; [reflexivity | exact Hds].
    + exact Hval.
  - apply Nat.ltb_ge in E. now repeat split.
Qed.

Lemma X22_witness :
  chars (format_02d 7) = chars "07" /\ int_of_digits (chars (format_02d 123)) = 123.
Proof.
  split; [reflexivity|]. apply X22_zero_padded_number. lia.
Defined.

Lemma format_02d_digits (n : Z) :
  0 <= n -> Forall (fun c => is_digit c = true) (chars (format_02d n))
            /\ int_of_digits (chars (format_02d n)) = n.
Proof.
  intros Hn. destruct (str_of_int_digits n Hn) as [Hne [Hds Hval]].
  unfold format_02d. destruct (_ <? _)%nat; [|now split].
  change (chars (String "0" (str_of_int n))) with ("0"%char :: chars (str_of_int n)).
  split; [constructor; [reflexivity | exact Hds] | exact Hval].
Qed.

(** The chapter number can be read off a file name. *)
Lemma chapter_file_names_differ (stem tail1 tail2 : string) (ch1 ch2 : Z) :
  0 <= ch1 -> 0 <= ch2 ->
  (stem ++ "_Chapter-" ++ format_02d ch1 ++ "_" ++ tail1)%string
  = (stem ++ "_Chapter-" ++ format_02d ch2 ++ "_" ++ tail2)%string ->
  ch1 = ch2.
Proof.
  intros H1 H2 E. apply (f_equal chars) in E. rewrite !chars_append in E.
  apply app_inv_head in E. apply app_inv_head in E.
  destruct (format_02d_digits ch1 H1) as [Hd1 Hv1].
  destruct (format_02d_digits ch2 H2) as [Hd2 Hv2].
  change (chars "_") with ["_"%char] in E. cbn [app] in E.
  apply (digits_before_sep "_"%char) in E; [|reflexivity | assumption..].
  rewrite <- Hv1, <- Hv2. now rewrite E.
Qed.

Lemma written_files_app (log1 log2 : list Event) :
  written_files (log1 ++ log2) = written_files log1 ++ written_files log2.
Proof.
  induction log1 as [|[ch sp ep t | f s e] log1 IH]; simpl; [reflexivity | exact IH|].
  now rewrite IH.
Qed.

Lemma contiguous_ranges_chapters_NoDup (l : list (Z * Z * string)) (total_pages : Z) :
  NoDup (map chapter_of l) ->
  NoDup (map range_chapter (contiguous_ranges l total_pages)).
Proof.
  induction l as [|[[ch sp] title] l IH]; intros Hnd; [constructor|].
  simpl in Hnd. inversion Hnd as [|? ? Hnotin Hnd']; subst.
  cbn [contiguous_ranges]. destruct (sp <=? _); [|now apply IH].
  cbn [map]. constructor; [|now apply IH].
  intros Hin. apply in_map_iff in Hin. destruct Hin as [r [Hr Hin]].
  apply contiguous_ranges_from_starts in Hin. apply Hnotin.
  apply in_map_iff. exists (start_of_range r). split; [|exact Hin].
  unfold start_of_range, chapter_of. cbn [fst]. exact Hr.
Qed.

Lemma contiguous_ranges_chapters_nonneg (l : list (Z * Z * string)) (total_pages : Z) :
  Forall (fun s => 0 <= chapter_of s) l ->
  Forall (fun r => 0 <= range_chapter r) (contiguous_ranges l total_pages).
Proof.
  intros H. apply Forall_forall. intros r Hr.
  apply contiguous_ranges_from_starts in Hr.
  exact (proj1 (Forall_forall _ _) H _ Hr).
Qed.

Lemma chapters_loop_distinct_files (doc : Document) (args : Args)
      (ranges : list (Z * Z * Z * string)) (log : list Event) :
  NoDup (map range_chapter ranges) ->
  Forall (fun r => 0 <= range_chapter r) ranges ->
  NoDup (written_files log) ->
  (forall r, In r ranges ->
     ~ In (outfile_name (stem args) (range_chapter r) (snd r)) (written_files log)) ->
  NoDup (written_files (log_of (chapters_loop doc args ranges log))).
Proof.
  revert log. induction ranges as [|[[[ch sp] ep] title] ranges IH];
    intros log Hnd Hnn Hlog Hfresh; [exact Hlog|].
  simpl in Hnd. inversion Hnd as [|? ? Hnotin Hnd']; subst.
  inversion Hnn as [|? ? Hch Hnn']; subst. unfold range_chapter in Hch. simpl in Hch.
  cbn [chapters_loop].
  destruct (detect_exercises_start doc (ch, sp, ep, title) _ _) as [[s|]|];
    [| |exact Hlog].
  - apply IH; auto.
    + rewrite written_files_app. simpl. apply NoDup_app; [exact Hlog | repeat constructor; auto |].
      intros f Hf [<- | []]. revert Hf. apply (Hfresh (ch, sp, ep, title)). now left.
    + intros r Hr. rewrite written_files_app. simpl. intros Hin.
      apply in_app_or in Hin. destruct Hin as [Hin | [E | []]].
      * revert Hin. apply Hfresh. now right.
      * unfold outfile_name in E. apply chapter_file_names_differ in E;
          [| exact Hch | exact (proj1 (Forall_forall _ _) Hnn' r Hr)].
        apply Hnotin. unfold range_chapter at 1. cbn [fst]. rewrite E.
        now apply in_map.
  - apply IH; auto.
    + rewrite written_files_app. simpl. now rewrite app_nil_r.
    + intros r Hr. rewrite written_files_app. simpl. rewrite app_nil_r.
      apply Hfresh. now right.
Qed.

Lemma scan_values_nonneg (top : nat) (pages : list string) :
  Forall (fun s => 0 <= chapter_of s) (dict_values (scan_pages_top top pages 0 [])).
Proof.
  apply Forall_forall. intros [[ch p] ln] Hin. apply scan_values_iff in Hin.
  destruct Hin as [_ [[txt [_ Hh]] _]]. unfold page_heading in Hh.
  apply first_heading_some in Hh. destruct Hh as [_ Hp].
  unfold chapter_of. cbn [fst]. now apply parse_chapter_number_nonneg in Hp.
Qed.

Lemma chapter_starts_numbers (doc : Document) :
  NoDup (map chapter_of (chapter_starts doc))
  /\ Forall (fun s => 0 <= chapter_of s) (chapter_starts doc).
Proof.
  unfold chapter_starts. destruct (_ <? 2)%nat.
  - split.
    + apply (Permutation_NoDup
               (l := map chapter_of (dict_values (scan_pages_top 25 (page_texts doc) 0 [])))).
      * apply Permutation_map, Permutation_sym, scan_for_chapter_starts_values.
      * apply scan_values_NoDup.
    + apply (Permutation_Forall (Permutation_sym (scan_for_chapter_starts_values doc))).
      apply scan_values_nonneg.
  - split; [apply get_toc_chapter_starts_NoDup|].
    rewrite get_toc_chapter_starts_loop.
    apply (Permutation_Forall (Permutation_sym (stable_sort_perm by_page _))).
    apply toc_fold_nonneg. constructor.
Qed.

(** X23: in a run of [extract_exercises.py] no two chapters are written to
    the same file: the names of the files written differ pairwise, as
    the chapter numbers of the ranges do. *)
Theorem X23_no_file_written_twice (doc : Document) (args : Args) :
  NoDup (written_files (log_of (main doc args)))
  /\ NoDup (map range_chapter
                (build_chapter_ranges (chapter_starts doc) (page_count doc))).
Proof.
  destruct (chapter_starts_numbers doc) as [Hnd Hnn].
  assert (Hnd' : NoDup (map range_chapter
                    (build_chapter_ranges (chapter_starts doc) (page_count doc)))).
  { rewrite build_chapter_ranges_contiguous. apply contiguous_ranges_chapters_NoDup.
    apply (Permutation_NoDup (l := map chapter_of (chapter_starts doc))); [|exact Hnd].
    apply Permutation_map, Permutation_sym, stable_sort_perm. }
  split; [|exact Hnd'].
  unfold main. destruct (is_nil (chapter_starts doc)); [constructor|].
  destruct (is_nil _); [constructor|].
  apply chapters_loop_distinct_files; [exact Hnd' | | constructor | intros r _ []].
  rewrite build_chapter_ranges_contiguous. apply contiguous_ranges_chapters_nonneg.
  apply (Permutation_Forall (Permutation_sym (stable_sort_perm by_page _))). exact Hnn.
Qed.

Lemma NoDup_map_by (A B C : Type) (f : A -> B) (g : A -> C) (l : list A) :
  NoDup (map f l) ->
  (forall a b, In a l -> In b l -> g a = g b -> f a = f b) ->
  NoDup (map g l).
Proof.
  induction l as [|x l IH]; intros Hnd Hinj; [constructor|].
  simpl in Hnd. inversion Hnd as [|? ? Hnotin Hnd']; subst. cbn [map].
  constructor.
  - intros Hin. apply in_map_iff in Hin. destruct Hin as [y [Hy Hin]].
    apply Hnotin. rewrite <- (Hinj y x); [now apply in_map | now right | now left | exact Hy].
  - apply IH; [exact Hnd'|]. intros a b Ha Hb. apply Hinj; now right.
Qed.

(** X24: [split_pdf_chapters.py] too never writes two ranges to the same
    file: the names of the files of a run differ pairwise. *)
Theorem X24_split_file_names_differ (stem : string) (doc : Document)
        (files : list (string * Z * Z)) :
  SplitPdfChapters.main stem doc = SplitPdfChapters.Wrote files ->
  NoDup (map (fun f => fst (fst f)) files).
Proof.
  unfold SplitPdfChapters.main.
  set (starts := if (_ <? 2)%nat then _ else _).
  assert (Hstarts : NoDup (map chapter_of starts)
                    /\ Forall (fun s => 0 <= chapter_of s) starts).
  { unfold starts. destruct (_ <? 2)%nat.
    - split.
      + apply (Permutation_NoDup
                 (l := map chapter_of
                         (dict_values (scan_pages_top 20 (page_texts doc) 0 [])))).
        * apply Permutation_map, Permutation_sym, detect_chapters_by_scanning_values.
        * apply scan_values_NoDup.
      + apply (Permutation_Forall
                 (Permutation_sym (detect_chapters_by_scanning_values doc))).
        apply scan_values_nonneg.
    - rewrite detect_chapters_by_toc_same.
      split; [apply get_toc_chapter_starts_NoDup|].
      rewrite get_toc_chapter_starts_loop.
      apply (Permutation_Forall (Permutation_sym (stable_sort_perm by_page _))).
      apply toc_fold_nonneg. constructor. }
  destruct Hstarts as [Hnd Hnn].
  destruct (is_nil starts); [discriminate|]. intros H. injection H as <-.
  rewrite map_map. cbn [fst].
  rewrite build_ranges_contiguous.
  apply (NoDup_map_by _ _ _ range_chapter).
  - now apply contiguous_ranges_chapters_NoDup.
  - intros [[[ch1 sp1] ep1] t1] [[[ch2 sp2] ep2] t2] H1 H2 E.
    unfold SplitPdfChapters.outfile_name in E. unfold range_chapter. cbn [fst].
    pose proof (contiguous_ranges_chapters_nonneg starts (page_count doc) Hnn) as Hr.
    apply (chapter_file_names_differ stem _ _ ch1 ch2) in E; [exact E | |].
    + exact (proj1 (Forall_forall _ _) Hr _ H1).
    + exact (proj1 (Forall_forall _ _) Hr _ H2).
Qed.

Lemma X24_witness :
  NoDup [ "Book_Chapter-01_Chapter-1-Sets.pdf";
          "Book_Chapter-03_3-Proofs-of-the-main-results.pdf" ].
Proof.
  apply (X24_split_file_names_differ "Book" misnumbered_book
           [ ("Book_Chapter-01_Chapter-1-Sets.pdf", 0, 1);
             ("Book_Chapter-03_3-Proofs-of-the-main-results.pdf", 1, 3) ]).
  reflexivity.
Defined.
